(** * WorkOS Time Intelligence Engine: a shallow embedding

    This development embeds [src/core/time_intelligence.py] and states the
    properties of its specification as theorems about the embedding.

    Conventions of the embedding.
    - The JSON document [time_analytics.json] is the whole state of the
      engine; every method loads it, works on it and (for mutating methods)
      saves it.  It is modelled as the record [TimeData], passed explicitly.
    - An instant ([datetime], stored as an ISO-8601 string) is an integer
      count of microseconds since the epoch, UTC: the resolution of Python's
      [datetime].  [datetime.fromisoformat] inverts [isoformat], so the
      stored string and the instant are identified.
    - The clock ([datetime.now]) and the random identifier ([uuid.uuid4])
      are inputs of the operations that read them.
    - Python's [float] is idealised as a real number ([R]) in the statistics
      and estimates; integers are [Z].  The trend classification, which
      compares floats with rounded products, is computed in binary64
      ([PrimFloat]); an integer converted to [float] is taken to be below
      2^53 in absolute value, where the conversion is exact.
    - A Python exception is an explicit [Raise] result.
    - Strings are byte strings; the keyword tests of the complexity analysis
      are exact for ASCII descriptions. *)

From Stdlib Require Import ZArith List String Ascii Bool Lia Reals Lra.
From Stdlib Require Import DecimalString.
From Stdlib Require PrimFloat Uint63 OrderedTypeEx.
From stdpp Require Import gmap strings list.

Local Open Scope Z_scope.

(** ** Python results: a value or a raised exception *)

Inductive exn : Type :=
| TypeError
| ZeroDivisionError
| OverflowError.

Inductive result (A : Type) : Type :=
| Ok (a : A)
| Raise (e : exn).

Arguments Ok {A} a.
Arguments Raise {A} e.

#[global] Instance result_bind : MBind result :=
  fun A B (k : A -> result B) (r : result A) =>
    match r with
    | Ok a => k a
    | Raise e => Raise e
    end.

#[global] Instance result_ret : MRet result := fun A a => Ok a.

Definition returns {A : Type} (r : result A) : Prop :=
  exists a, r = Ok a.

(** ** Data model *)

(** Microseconds since the epoch, UTC. *)
Definition timestamp : Type := Z.

(** The dictionary appended by [record_distraction]. *)
Record Distraction : Type := mkDistraction {
  d_type : string;
  d_duration_minutes : Z;
  d_description : string;
  d_timestamp : timestamp
}.

(** The dataclass [TimeEntry].  [start_time] is optional because
    [accept_breakdown] stores [None] there. *)
Record TimeEntry : Type := mkTimeEntry {
  id : string;
  start_time : option timestamp;
  end_time : option timestamp;
  duration_minutes : option Z;
  work_description : string;
  work_type : string;
  knowledge_refs : list string;
  people_refs : list string;
  distractions : list Distraction;
  completion_percentage : option Z;
  notes : string
}.

(** The three extra keys that [accept_breakdown] adds to an entry. *)
Record BreakdownMeta : Type := mkBreakdownMeta {
  meta_breakdown_id : string;
  meta_chunk_id : string;
  meta_estimated_minutes : R
}.

(** An element of [data["entries"]]: the fields of [TimeEntry] and, for an
    entry spawned by a breakdown, the extra keys. *)
Record EntryDict : Type := mkEntryDict {
  entry : TimeEntry;
  extra : option BreakdownMeta
}.

Record WorkChunk : Type := mkWorkChunk {
  chunk_id : string;
  chunk_description : string;
  chunk_estimated_minutes : R;
  chunk_work_type : string;
  chunk_knowledge_refs : list string;
  dependencies : list string
}.

Record WorkBreakdown : Type := mkWorkBreakdown {
  original_work : string;
  estimated_total : R;
  chunks : list WorkChunk;
  breakdown_id : string;
  created_at : timestamp;
  completed_chunks : list string
}.

(** The JSON document.  A missing ["breakdowns"] key reads as the empty
    list ([data.get("breakdowns", [])]). *)
Record TimeData : Type := mkTimeData {
  entries : list EntryDict;
  breakdowns : list WorkBreakdown
}.

Definition empty_data : TimeData := mkTimeData [] [].

(** [{k: v for k, v in entry_dict.items() if k in time_entry_fields}]
    followed by the construction of a [TimeEntry] from the filtered keys. *)
Definition filtered (ed : EntryDict) : TimeEntry := entry ed.

(** A [TimeEntry] constructed from all the keys of the dictionary, without
    the filter: an unexpected keyword argument is a [TypeError]. *)
Definition unfiltered (ed : EntryDict) : result TimeEntry :=
  match extra ed with
  | None => Ok (entry ed)
  | Some _ => Raise TypeError
  end.

(** ** Time Entry Store *)

(** The loop [for entry in data["entries"]: if entry["id"] == work_id: ...
    break]: position and value of the first entry with that id. *)
Fixpoint find_entry (work_id : string) (l : list EntryDict)
  : option (nat * EntryDict) :=
  match l with
  | [] => None
  | ed :: l' =>
      if String.eqb (id (entry ed)) work_id then Some (0%nat, ed)
      else match find_entry work_id l' with
           | Some (i, x) => Some (S i, x)
           | None => None
           end
  end.

Definition set_entries (data : TimeData) (l : list EntryDict) : TimeData :=
  mkTimeData l (breakdowns data).

(** [start_work].  [work_id] is the identifier built from the clock and
    [uuid4]; [now] is the instant stored as [start_time]. *)
Definition start_work (now : timestamp) (work_id : string)
    (description wtype : string) (krefs prefs : list string)
    (data : TimeData) : string * TimeData :=
  let e := mkTimeEntry work_id (Some now) None None description wtype
             krefs prefs [] None "" in
  (work_id, set_entries data (entries data ++ [mkEntryDict e None])).

(** [int((end_time - start_time).total_seconds() / 60)]: [int] truncates
    toward zero; the float quotient is taken as the exact one. *)
Definition elapsed_minutes (start_t end_t : timestamp) : Z :=
  Z.quot (end_t - start_t) 60000000.

Definition close_entry (e : TimeEntry) (end_t : timestamp) (minutes : Z)
    (completion_notes : string) (pct : option Z) : TimeEntry :=
  mkTimeEntry (id e) (start_time e) (Some end_t) (Some minutes)
    (work_description e) (work_type e) (knowledge_refs e) (people_refs e)
    (distractions e)
    (match pct with Some p => Some p | None => completion_percentage e end)
    completion_notes.

(** [end_work].  [datetime.fromisoformat(None)] raises [TypeError] before
    anything is saved; the final construction of the [TimeEntry] from the
    unfiltered dictionary runs after the save. *)
Definition end_work (now : timestamp) (work_id completion_notes : string)
    (pct : option Z) (data : TimeData)
  : result (option TimeEntry) * TimeData :=
  match find_entry work_id (entries data) with
  | None => (Ok None, data)
  | Some (i, ed) =>
      match start_time (entry ed) with
      | None => (Raise TypeError, data)
      | Some t0 =>
          let e' := close_entry (entry ed) now (elapsed_minutes t0 now)
                      completion_notes pct in
          let ed' := mkEntryDict e' (extra ed) in
          let data' := set_entries data (<[i := ed']> (entries data)) in
          (x ← unfiltered ed'; Ok (Some x), data')
      end
  end.

Definition add_distraction (e : TimeEntry) (d : Distraction) : TimeEntry :=
  mkTimeEntry (id e) (start_time e) (end_time e) (duration_minutes e)
    (work_description e) (work_type e) (knowledge_refs e) (people_refs e)
    (distractions e ++ [d]) (completion_percentage e) (notes e).

(** [record_distraction]. *)
Definition record_distraction (now : timestamp)
    (work_id distraction_type : string) (minutes : Z) (description : string)
    (data : TimeData) : bool * TimeData :=
  match find_entry work_id (entries data) with
  | None => (false, data)
  | Some (i, ed) =>
      let d := mkDistraction distraction_type minutes description now in
      let ed' := mkEntryDict (add_distraction (entry ed) d) (extra ed) in
      (true, set_entries data (<[i := ed']> (entries data)))
  end.

(** [get_time_entry]. *)
Definition get_time_entry (work_id : string) (data : TimeData)
  : option TimeEntry :=
  match find_entry work_id (entries data) with
  | Some (_, ed) => Some (filtered ed)
  | None => None
  end.

(** [get_all_entries]. *)
Definition get_all_entries (data : TimeData) : list TimeEntry :=
  map filtered (entries data).

(** [get_entries_by_knowledge]: [knowledge_ref in entry["knowledge_refs"]]. *)
Definition get_entries_by_knowledge (knowledge_ref : string)
    (data : TimeData) : list TimeEntry :=
  map filtered
    (filter (fun ed => bool_decide (knowledge_ref ∈ knowledge_refs (entry ed)))
       (entries data)).

(** ** Statistics Engine *)

(** [set(a).intersection(set(b))] is non-empty. *)
Definition overlap (a b : list string) : bool :=
  bool_decide ((list_to_set a : gset string) ∩ list_to_set b ≠ ∅).

(** A completed entry: [entry.get("duration_minutes") is not None]. *)
Definition completed (ed : EntryDict) : bool :=
  match duration_minutes (entry ed) with
  | Some _ => true
  | None => false
  end.

(** One iteration of the loop of [find_similar_work]; each [continue]
    leaves the accumulator as it is. *)
Definition similar_step (wtype : string) (krefs : list string)
    (similar_entries : list TimeEntry) (ed : EntryDict) : list TimeEntry :=
  match duration_minutes (entry ed) with
  | None => similar_entries
  | Some _ =>
      if negb (String.eqb (work_type (entry ed)) wtype) then similar_entries
      else
        match krefs with
        | [] => similar_entries ++ [filtered ed]
        | _ :: _ =>
            if negb (overlap (knowledge_refs (entry ed)) krefs)
            then similar_entries
            else similar_entries ++ [filtered ed]
        end
  end.

(** [find_similar_work].  The first argument is the description. *)
Definition find_similar_work (description wtype : string)
    (krefs : list string) (data : TimeData) : list TimeEntry :=
  fold_left (similar_step wtype krefs) (entries data) [].

(** Python's [sum] over integers and over floats: a left fold from 0. *)
Definition sumZ (l : list Z) : Z := fold_left Z.add l 0.
Definition sumR (l : list R) : R := fold_left Rplus l 0%R.

(** [len(l)] as a float divisor. *)
Definition lenR {A : Type} (l : list A) : R := IZR (Z.of_nat (length l)).

(** [[e.duration_minutes for e in entries if e.duration_minutes is not
    None]]. *)
Definition durations_of (l : list TimeEntry) : list Z :=
  omap duration_minutes l.

(** [calculate_statistics]. *)
Definition calculate_statistics (l : list TimeEntry) : R * R :=
  match l with
  | [] => (0%R, 0%R)
  | _ :: _ =>
      let durations := durations_of l in
      match durations with
      | [] => (0%R, 0%R)
      | _ :: _ =>
          let mean := (IZR (sumZ durations) / lenR durations)%R in
          let variance :=
            if Nat.eqb (length durations) 1 then 0%R
            else (sumR (map (fun d => (IZR d - mean) ^ 2) durations)
                  / lenR durations)%R in
          (mean, variance)
      end
  end.

(** ** Estimation Engine *)

(** The dataclass [EstimateResult] without its [explanation], a formatted
    text that no numeric field depends on. *)
Record EstimateResult : Type := mkEstimateResult {
  mean_minutes : R;
  variance : R;
  std_dev : R;
  min_estimate : R;
  max_estimate : R;
  confidence_range : R * R;
  similar_work_count : nat;
  similar_work_ids : list string
}.

(** Python's [max(0, x)]: the second argument wins only when it is
    greater. *)
Definition max0 (x : R) : R := if Rlt_dec 0 x then x else 0%R.

(** The estimate built in [generate_estimate] and again in
    [generate_collaboration_adjusted_estimate] from a non-empty
    population. *)
Definition estimate_from (similar_work : list TimeEntry) : EstimateResult :=
  let '(mean, var) := calculate_statistics similar_work in
  let sd := sqrt var in
  let min_e := max0 (mean - sd) in
  let max_e := (mean + sd)%R in
  mkEstimateResult mean var sd min_e max_e (min_e, max_e)
    (length similar_work) (map id similar_work).

(** [generate_estimate]. *)
Definition generate_estimate (description wtype : string)
    (krefs : list string) (data : TimeData) : option EstimateResult :=
  match find_similar_work description wtype krefs data with
  | [] => None
  | similar_work => Some (estimate_from similar_work)
  end.

(** The dictionary returned by [calculate_distraction_impact]. *)
Record DistractionImpact : Type := mkDistractionImpact {
  average_duration_with_distractions : R;
  average_duration_without_distractions : R;
  average_distraction_overhead_minutes : R;
  average_distraction_overhead_percentage : R;
  total_distraction_time : Z;
  entries_with_distractions : nat;
  entries_without_distractions : nat
}.

Definition has_distractions (ed : EntryDict) : bool :=
  match distractions (entry ed) with
  | [] => false
  | _ :: _ => true
  end.

(** [sum(e["duration_minutes"] for e in l) / len(l) if l else 0.0] over
    completed entries. *)
Definition average_duration (l : list EntryDict) : R :=
  match l with
  | [] => 0%R
  | _ :: _ =>
      (IZR (sumZ (omap (fun ed => duration_minutes (entry ed)) l)) / lenR l)%R
  end.

(** [calculate_distraction_impact]; [wtype = None] keeps every type. *)
Definition calculate_distraction_impact (wtype : option string)
    (data : TimeData) : DistractionImpact :=
  let completed_entries := filter (fun ed => completed ed = true) (entries data) in
  let typed :=
    match wtype with
    | None => completed_entries
    | Some w =>
        filter (fun ed => String.eqb (work_type (entry ed)) w = true)
          completed_entries
    end in
  let with_distractions := filter (fun ed => has_distractions ed = true) typed in
  let without_distractions :=
    filter (fun ed => has_distractions ed = false) typed in
  let total :=
    sumZ (flat_map (fun ed => map d_duration_minutes (distractions (entry ed)))
            with_distractions) in
  let avg_with := average_duration with_distractions in
  let avg_without := average_duration without_distractions in
  let overhead_minutes := (avg_with - avg_without)%R in
  let overhead_percentage :=
    if Rlt_dec 0 avg_without
    then (overhead_minutes / avg_without * 100)%R
    else 0%R in
  mkDistractionImpact avg_with avg_without overhead_minutes
    overhead_percentage total (length with_distractions)
    (length without_distractions).

(** The adjusted result of both scaling strategies: mean, minimum and
    maximum are multiplied, variance and standard deviation are the base
    ones. *)
Definition scale_estimate (base : EstimateResult) (factor : R)
  : EstimateResult :=
  let adjusted_mean := (mean_minutes base * factor)%R in
  let adjusted_min := (min_estimate base * factor)%R in
  let adjusted_max := (max_estimate base * factor)%R in
  mkEstimateResult adjusted_mean (variance base) (std_dev base)
    adjusted_min adjusted_max (adjusted_min, adjusted_max)
    (similar_work_count base) (similar_work_ids base).

(** [generate_estimate_with_distraction_overhead]. *)
Definition generate_estimate_with_distraction_overhead
    (description wtype : string) (krefs : list string) (data : TimeData)
  : option EstimateResult :=
  match generate_estimate description wtype krefs data with
  | None => None
  | Some base_estimate =>
      let impact := calculate_distraction_impact (Some wtype) data in
      if Nat.ltb 0 (entries_with_distractions impact) then
        let overhead_percentage :=
          average_distraction_overhead_percentage impact in
        Some (scale_estimate base_estimate (1 + overhead_percentage / 100)%R)
      else Some base_estimate
  end.

(** The fields of the dictionary returned by [get_knowledge_time_investment]
    that the engine reads back. *)
Record KnowledgeInvestment : Type := mkKnowledgeInvestment {
  total_minutes : Z;
  work_item_count : nat;
  investment_average_duration : R
}.

(** [get_knowledge_time_investment]. *)
Definition get_knowledge_time_investment (knowledge_ref : string)
    (data : TimeData) : KnowledgeInvestment :=
  let completed_entries :=
    filter (fun e : TimeEntry => is_Some (duration_minutes e))
      (get_entries_by_knowledge knowledge_ref data) in
  match completed_entries with
  | [] => mkKnowledgeInvestment 0 0 0%R
  | _ :: _ =>
      let total := sumZ (durations_of completed_entries) in
      mkKnowledgeInvestment total (length completed_entries)
        (IZR total / lenR completed_entries)%R
  end.

(** The loop that accumulates [total_experience_minutes]. *)
Definition total_experience_minutes (krefs : list string) (data : TimeData)
  : Z :=
  fold_left
    (fun total k => total + total_minutes (get_knowledge_time_investment k data))
    krefs 0.

(** The tier table: [(experience_level, adjustment_factor)]. *)
Definition experience_tier (total : Z) : string * R :=
  if total <? 120 then ("novice"%string, 1.2%R)
  else if total <? 480 then ("intermediate"%string, 1.0%R)
  else if total <? 1200 then ("experienced"%string, 0.85%R)
  else ("expert"%string, 0.7%R).

Definition experience_level (total : Z) : string := fst (experience_tier total).
Definition adjustment_factor (total : Z) : R := snd (experience_tier total).

(** [generate_experience_adjusted_estimate]. *)
Definition generate_experience_adjusted_estimate
    (description wtype : string) (krefs : list string) (data : TimeData)
  : option EstimateResult :=
  match generate_estimate description wtype krefs data with
  | None => None
  | Some base_estimate =>
      match krefs with
      | [] => Some base_estimate
      | _ :: _ =>
          let total := total_experience_minutes krefs data in
          Some (scale_estimate base_estimate (adjustment_factor total))
      end
  end.

(** The population searched by [generate_collaboration_adjusted_estimate]:
    completed entries of the work type that share a person with the
    query. *)
Definition similar_collaborative_work (wtype : string) (prefs : list string)
    (data : TimeData) : list TimeEntry :=
  map filtered
    (filter
       (fun ed =>
          completed ed && String.eqb (work_type (entry ed)) wtype
          && overlap (people_refs (entry ed)) prefs = true)
       (entries data)).

(** [generate_collaboration_adjusted_estimate].  The explanation of the
    adjusted result divides by the base mean, a float: a zero base mean is
    a [ZeroDivisionError]. *)
Definition generate_collaboration_adjusted_estimate
    (description wtype : string) (prefs krefs : list string)
    (data : TimeData) : result (option EstimateResult) :=
  match generate_estimate description wtype krefs data with
  | None => Ok None
  | Some base_estimate =>
      match prefs with
      | [] => Ok (Some base_estimate)
      | _ :: _ =>
          match similar_collaborative_work wtype prefs data with
          | [] => Ok (Some base_estimate)
          | collab =>
              let collab_mean := fst (calculate_statistics collab) in
              if Rlt_dec 0 collab_mean then
                if Req_dec_T (mean_minutes base_estimate) 0
                then Raise ZeroDivisionError
                else Ok (Some (estimate_from collab))
              else Ok (Some base_estimate)
          end
      end
  end.

(** ** Estimation accuracy *)

(** A record appended to [deviation_patterns]. *)
Record Deviation : Type := mkDeviation {
  dev_type : string;
  dev_work_type : string;
  dev_estimated : R;
  dev_actual : Z;
  dev_error_percentage : R
}.

(** An element of [common_deviation_patterns]. *)
Record CommonPattern : Type := mkCommonPattern {
  cp_work_type : string;
  cp_deviation_type : string;
  cp_occurrence_count : nat;
  cp_average_error_percentage : R
}.

Record EstimationAccuracy : Type := mkEstimationAccuracy {
  total_estimates : nat;
  accurate_estimates : nat;
  overestimates : nat;
  underestimates : nat;
  average_error_percentage : R;
  common_deviation_patterns : list CommonPattern
}.

(** A value of [patterns_by_key]: key, count and total error. *)
Definition pattern_group : Type := (string * string) * (nat * R).

(** The grouping loop of [_identify_common_patterns]; the dictionary keeps
    its keys in insertion order. *)
Fixpoint add_pattern (key : string * string) (err : R)
    (groups : list pattern_group) : list pattern_group :=
  match groups with
  | [] => [(key, (1%nat, (0 + err)%R))]
  | (k, (count, total)) :: rest =>
      if String.eqb (fst k) (fst key) && String.eqb (snd k) (snd key)
      then (k, (S count, (total + err)%R)) :: rest
      else (k, (count, total)) :: add_pattern key err rest
  end.

(** [sort(key=occurrence_count, reverse=True)]: stable, greatest first. *)
Fixpoint insert_pattern (p : CommonPattern) (l : list CommonPattern)
  : list CommonPattern :=
  match l with
  | [] => [p]
  | q :: l' =>
      if Nat.ltb (cp_occurrence_count q) (cp_occurrence_count p)
      then p :: q :: l'
      else q :: insert_pattern p l'
  end.

Definition sort_patterns (l : list CommonPattern) : list CommonPattern :=
  fold_left (fun sorted p => insert_pattern p sorted) l [].

(** [_identify_common_patterns]. *)
Definition identify_common_patterns (devs : list Deviation)
  : list CommonPattern :=
  let groups :=
    fold_left
      (fun g d => add_pattern (dev_work_type d, dev_type d)
                    (dev_error_percentage d) g)
      devs [] in
  let common :=
    omap
      (fun g : pattern_group =>
         let '((wt, dt), (count, total)) := g in
         if Nat.leb 2 count
         then Some (mkCommonPattern wt dt count (total / IZR (Z.of_nat count))%R)
         else None)
      groups in
  sort_patterns common.

(** The counters and lists carried through the loop of
    [analyze_estimation_accuracy]. *)
Record AccuracyState : Type := mkAccuracyState {
  acc_total : nat;
  acc_accurate : nat;
  acc_over : nat;
  acc_under : nat;
  acc_errors : list R;
  acc_deviations : list Deviation
}.

(** One iteration of that loop, for the entry [e] whose predecessors are
    [prior_entries].  The division by the actual duration, an integer,
    raises [ZeroDivisionError] when it is zero. *)
Definition accuracy_step (tolerance_percentage : R)
    (prior_entries : list TimeEntry) (e : TimeEntry) (s : AccuracyState)
  : result AccuracyState :=
  match prior_entries with
  | [] => Ok s
  | _ :: _ =>
      match filter (fun p : TimeEntry =>
                      String.eqb (work_type p) (work_type e) = true)
              prior_entries with
      | [] => Ok s
      | similar_work =>
          let estimated := fst (calculate_statistics similar_work) in
          if Req_dec_T estimated 0 then Ok s
          else
            match duration_minutes e with
            | None => Raise TypeError
            | Some actual =>
                if Z.eqb actual 0 then Raise ZeroDivisionError
                else
                  let error_percentage :=
                    (Rabs (IZR actual - estimated) / IZR actual * 100)%R in
                  let errors := acc_errors s ++ [error_percentage] in
                  let dev kind :=
                    mkDeviation kind (work_type e) estimated actual
                      error_percentage in
                  if Rle_dec error_percentage tolerance_percentage then
                    Ok (mkAccuracyState (S (acc_total s)) (S (acc_accurate s))
                          (acc_over s) (acc_under s) errors (acc_deviations s))
                  else if Rgt_dec estimated (IZR actual) then
                    Ok (mkAccuracyState (S (acc_total s)) (acc_accurate s)
                          (S (acc_over s)) (acc_under s) errors
                          (acc_deviations s ++ [dev "overestimate"%string]))
                  else
                    Ok (mkAccuracyState (S (acc_total s)) (acc_accurate s)
                          (acc_over s) (S (acc_under s)) errors
                          (acc_deviations s ++ [dev "underestimate"%string]))
            end
      end
  end.

(** The loop [for i, entry in enumerate(completed_entries)] with
    [prior_entries = completed_entries[:i]]. *)
Fixpoint accuracy_loop (tolerance_percentage : R)
    (prior_entries rest : list TimeEntry) (s : AccuracyState)
  : result AccuracyState :=
  match rest with
  | [] => Ok s
  | e :: rest' =>
      s' ← accuracy_step tolerance_percentage prior_entries e s;
      accuracy_loop tolerance_percentage (prior_entries ++ [e]) rest' s'
  end.

(** [analyze_estimation_accuracy]. *)
Definition analyze_estimation_accuracy (tolerance_percentage : R)
    (data : TimeData) : result EstimationAccuracy :=
  completed_entries ←
    mapM unfiltered (filter (fun ed => completed ed = true) (entries data));
  if Nat.ltb (length completed_entries) 2 then
    Ok (mkEstimationAccuracy 0 0 0 0 0%R [])
  else
    s ← accuracy_loop tolerance_percentage [] completed_entries
          (mkAccuracyState 0 0 0 0 [] []);
    let avg_error :=
      match acc_errors s with
      | [] => 0%R
      | _ :: _ => (sumR (acc_errors s) / lenR (acc_errors s))%R
      end in
    Ok (mkEstimationAccuracy (acc_total s) (acc_accurate s) (acc_over s)
          (acc_under s) avg_error
          (identify_common_patterns (acc_deviations s))).

(** ** Complexity and Breakdown Engine *)

(** [str.lower] on ASCII. *)
Definition lower_ascii (c : ascii) : ascii :=
  let n := nat_of_ascii c in
  if Nat.leb 65 n && Nat.leb n 90 then ascii_of_nat (n + 32) else c.

Fixpoint lower (s : string) : string :=
  match s with
  | EmptyString => EmptyString
  | String c s' => String (lower_ascii c) (lower s')
  end.

(** [needle in hay] for strings: [needle] occurs as a substring. *)
Fixpoint contains (needle hay : string) : bool :=
  String.prefix needle hay
  || match hay with
     | EmptyString => false
     | String _ hay' => contains needle hay'
     end.

(** [sum(1 for w in words if w in text)]. *)
Definition count_hits (words : list string) (text : string) : nat :=
  length (List.filter (fun w => contains w text) words).

(** [any(w in text for w in words)]. *)
Definition any_hit (words : list string) (text : string) : bool :=
  existsb (fun w => contains w text) words.

Definition action_verbs : list string :=
  ["implement"; "create"; "build"; "design"; "develop"; "write";
   "test"; "deploy"; "configure"; "setup"; "integrate"; "refactor";
   "update"; "modify"; "add"; "remove"; "fix"; "debug"]%string.

Definition conjunctions : list string :=
  ["and"; "then"; "also"; "plus"; "along with"; "as well as"]%string.

Definition scope_words : list string :=
  ["complete"; "full"; "entire"; "comprehensive"; "end-to-end"; "all"]%string.

(** The dictionary returned by [analyze_complexity]. *)
Record Complexity : Type := mkComplexity {
  complexity_score : nat;
  complexity_level : string;
  indicators : list string;
  recommendation : string
}.

Definition decimal (n : nat) : string :=
  NilEmpty.string_of_uint (Nat.to_uint n).

(** The four additive rules of [analyze_complexity], each returning its
    points and the indicator it appends. *)
Definition length_rule (description : string) : nat * list string :=
  if Nat.ltb 100 (String.length description)
  then (2, ["Long description suggests multiple components"%string])%nat
  else if Nat.ltb 50 (String.length description)
  then (1, ["Moderate description length"%string])%nat
  else (0, [])%nat.

Definition verb_rule (description_lower : string) : nat * list string :=
  let verb_count := count_hits action_verbs description_lower in
  if Nat.leb 3 verb_count
  then (2%nat, [("Multiple action verbs (" ++ decimal verb_count
                 ++ ") suggest multiple tasks")%string])
  else if Nat.leb 2 verb_count
  then (1%nat, [("Multiple actions (" ++ decimal verb_count
                 ++ ") detected")%string])
  else (0%nat, []).

Definition conjunction_rule (description_lower : string)
  : nat * list string :=
  let conjunction_count := count_hits conjunctions description_lower in
  if Nat.leb 2 conjunction_count
  then (2%nat, [("Multiple conjunctions (" ++ decimal conjunction_count
                 ++ ") suggest compound work")%string])
  else if Nat.leb 1 conjunction_count
  then (1%nat, ["Conjunctions suggest multiple components"%string])
  else (0%nat, []).

Definition scope_rule (description_lower : string) : nat * list string :=
  let scope_count := count_hits scope_words description_lower in
  if Nat.leb 2 scope_count
  then (2%nat, ["Broad scope indicators detected"%string])
  else if Nat.leb 1 scope_count
  then (1%nat, ["Scope indicator suggests larger work item"%string])
  else (0%nat, []).

(** [analyze_complexity]. *)
Definition analyze_complexity (description : string) : Complexity :=
  let description_lower := lower description in
  let r1 := length_rule description in
  let r2 := verb_rule description_lower in
  let r3 := conjunction_rule description_lower in
  let r4 := scope_rule description_lower in
  let score := (fst r1 + fst r2 + fst r3 + fst r4)%nat in
  let inds := (snd r1 ++ snd r2 ++ snd r3 ++ snd r4)%list in
  if Nat.leb 5 score then
    mkComplexity score "high" inds
      "Strong candidate for breakdown into smaller chunks"
  else if Nat.leb 3 score then
    mkComplexity score "medium" inds "Consider breaking down into 2-3 chunks"
  else
    mkComplexity score "low" inds "Appears to be a single, focused work item".

(** The fallback table of [_estimate_chunk]: [heuristics.get(chunk_type,
    60)]. *)
Definition heuristics (chunk_type : string) : Z :=
  if String.eqb chunk_type "design" then 60
  else if String.eqb chunk_type "implement" then 120
  else if String.eqb chunk_type "test" then 60
  else if String.eqb chunk_type "document" then 30
  else if String.eqb chunk_type "research" then 45
  else if String.eqb chunk_type "draft" then 90
  else if String.eqb chunk_type "edit" then 30
  else if String.eqb chunk_type "prepare" then 20
  else if String.eqb chunk_type "attend" then 60
  else if String.eqb chunk_type "followup" then 30
  else if String.eqb chunk_type "generic" then 60
  else 60.

(** [_estimate_chunk]: the chunk type is passed to [find_similar_work] as
    the description. *)
Definition estimate_chunk (chunk_type wtype : string) (krefs : list string)
    (data : TimeData) : R :=
  match find_similar_work chunk_type wtype krefs data with
  | [] => IZR (heuristics chunk_type)
  | similar_work =>
      let mean := fst (calculate_statistics similar_work) in
      if Rlt_dec 0 mean then mean else IZR (heuristics chunk_type)
  end.

(** [f"chunk_{n}"]. *)
Definition chunk_name (n : nat) : string := ("chunk_" ++ decimal n)%string.

(** [[chunks[-1].id] if chunks else []]. *)
Definition last_id (l : list WorkChunk) : list string :=
  match last l with
  | Some c => [chunk_id c]
  | None => []
  end.

(** One conditional [chunks.append(...)] of the technical branch. *)
Definition append_phase (cond : bool) (prefix chunk_type wtype chunk_wtype
    description : string) (krefs : list string) (data : TimeData)
    (l : list WorkChunk) : list WorkChunk :=
  if cond then
    l ++ [mkWorkChunk (chunk_name (length l + 1))
            (prefix ++ description)%string
            (estimate_chunk chunk_type wtype krefs data)
            chunk_wtype krefs (last_id l)]
  else l.

(** The three fixed phases of the writing and meeting branches. *)
Definition fixed_phases (wtype description : string) (krefs : list string)
    (data : TimeData) (p1 t1 p2 t2 p3 t3 : string) : list WorkChunk :=
  [mkWorkChunk "chunk_1" (p1 ++ description)%string
     (estimate_chunk t1 wtype krefs data) wtype krefs [];
   mkWorkChunk "chunk_2" (p2 ++ description)%string
     (estimate_chunk t2 wtype krefs data) wtype krefs ["chunk_1"%string];
   mkWorkChunk "chunk_3" (p3 ++ description)%string
     (estimate_chunk t3 wtype krefs data) wtype krefs ["chunk_2"%string]].

(** The chunk appended at iteration [i] of the generic branch. *)
Definition generic_phase (wtype description : string) (krefs : list string)
    (data : TimeData) (i : nat) : WorkChunk :=
  mkWorkChunk (chunk_name (i + 1))
    ("Phase " ++ decimal (i + 1) ++ ": " ++ description)%string
    (estimate_chunk "generic" wtype krefs data) wtype krefs
    (if Nat.ltb 0 i then [chunk_name i] else []).

(** [_generate_chunks_by_type]. *)
Definition generate_chunks_by_type (description wtype : string)
    (krefs : list string) (complexity : Complexity) (data : TimeData)
  : list WorkChunk :=
  let description_lower := lower description in
  let high := String.eqb (complexity_level complexity) "high" in
  if String.eqb wtype "technical" then
    let c1 :=
      append_phase
        (any_hit ["design"; "architecture"; "plan"; "spec"]%string
           description_lower)
        "Design and plan: " "design" wtype wtype description krefs data [] in
    let c2 :=
      append_phase
        (any_hit ["implement"; "build"; "create"; "develop"; "code"]%string
           description_lower)
        "Implement core functionality: " "implement" wtype wtype description
        krefs data c1 in
    let c3 :=
      append_phase
        (any_hit ["test"; "verify"; "validate"]%string description_lower
         || high)
        "Test and validate: " "test" wtype wtype description krefs data c2 in
    append_phase
      (any_hit ["document"; "doc"; "write"]%string description_lower || high)
      "Document: " "document" wtype "writing" description krefs data c3
  else if String.eqb wtype "writing" then
    fixed_phases wtype description krefs data
      "Research and outline: " "research"
      "Write first draft: " "draft"
      "Review and edit: " "edit"
  else if String.eqb wtype "meeting" then
    fixed_phases wtype description krefs data
      "Prepare for: " "prepare"
      "Attend: " "attend"
      "Follow-up actions: " "followup"
  else
    let phase_count := if high then 4%nat else 2%nat in
    map (generic_phase wtype description krefs data) (seq 0 phase_count).

(** [suggest_breakdown].  [new_id] and [now] are the identifier and the
    instant read from the environment. *)
Definition suggest_breakdown (now : timestamp) (new_id : string)
    (description wtype : string) (krefs : list string) (data : TimeData)
  : option WorkBreakdown :=
  let complexity := analyze_complexity description in
  if String.eqb (complexity_level complexity) "low" then None
  else
    match generate_chunks_by_type description wtype krefs complexity data with
    | [] => None
    | chunk_list =>
        let total_estimate := sumR (map chunk_estimated_minutes chunk_list) in
        Some (mkWorkBreakdown description total_estimate chunk_list new_id
                now [])
    end.

(** [accept_breakdown].  [new_id k] is the identifier generated for the
    entry of the [k]-th chunk. *)
Definition planned_entry (b : WorkBreakdown) (k : nat) (new_id : nat -> string)
    (c : WorkChunk) : EntryDict :=
  mkEntryDict
    (mkTimeEntry (new_id k) None None None (chunk_description c)
       (chunk_work_type c) (chunk_knowledge_refs c) [] [] None
       ("Part of breakdown: " ++ breakdown_id b)%string)
    (Some (mkBreakdownMeta (breakdown_id b) (chunk_id c)
             (chunk_estimated_minutes c))).

Definition accept_breakdown (new_id : nat -> string) (b : WorkBreakdown)
    (data : TimeData) : list string * TimeData :=
  let planned := imap (fun k c => planned_entry b k new_id c) (chunks b) in
  (map (fun ed => id (entry ed)) planned,
   mkTimeData (entries data ++ planned) (breakdowns data ++ [b])).

(** ** Knowledge and people links *)

(** [list(s)] for a set [s]: Python fixes no iteration order, so each call
    takes the listing it uses as an input. *)
Definition set_listing : Type := gset string -> list string.

(** What every listing of a set satisfies: its elements, once each. *)
Definition lists_sets (listing : set_listing) : Prop :=
  forall X : gset string, NoDup (listing X) /\ list_to_set (listing X) = X.

Definition set_knowledge_refs (e : TimeEntry) (refs : list string)
  : TimeEntry :=
  mkTimeEntry (id e) (start_time e) (end_time e) (duration_minutes e)
    (work_description e) (work_type e) refs (people_refs e)
    (distractions e) (completion_percentage e) (notes e).

Definition set_people_refs (e : TimeEntry) (refs : list string)
  : TimeEntry :=
  mkTimeEntry (id e) (start_time e) (end_time e) (duration_minutes e)
    (work_description e) (work_type e) (knowledge_refs e) refs
    (distractions e) (completion_percentage e) (notes e).

(** [link_time_to_knowledge]. *)
Definition link_time_to_knowledge (listing : set_listing) (work_id : string)
    (refs : list string) (data : TimeData) : bool * TimeData :=
  match find_entry work_id (entries data) with
  | None => (false, data)
  | Some (i, ed) =>
      let existing_refs : gset string :=
        list_to_set (knowledge_refs (entry ed)) in
      let new_refs : gset string := list_to_set refs in
      let ed' :=
        mkEntryDict
          (set_knowledge_refs (entry ed) (listing (existing_refs ∪ new_refs)))
          (extra ed) in
      (true, set_entries data (<[i := ed']> (entries data)))
  end.

(** [link_time_to_people]. *)
Definition link_time_to_people (listing : set_listing) (work_id : string)
    (refs : list string) (data : TimeData) : bool * TimeData :=
  match find_entry work_id (entries data) with
  | None => (false, data)
  | Some (i, ed) =>
      let existing_refs : gset string :=
        list_to_set (people_refs (entry ed)) in
      let new_refs : gset string := list_to_set refs in
      let ed' :=
        mkEntryDict
          (set_people_refs (entry ed) (listing (existing_refs ∪ new_refs)))
          (extra ed) in
      (true, set_entries data (<[i := ed']> (entries data)))
  end.

(** ** Pattern and trend analytics *)

(** Binary64 arithmetic, as Python's [float] has it. *)
Module Binary64.
Import PrimFloat.

(** [float(z)] for an [int]. *)
Definition float_of_Z (z : Z) : float :=
  if z <? 0 then opp (of_uint63 (Uint63.of_Z (- z)))
  else of_uint63 (Uint63.of_Z z).

(** [a / b] on two [int]s: the quotient rounded to the nearest float. *)
Definition true_divide (a b : Z) : float :=
  div (float_of_Z a) (float_of_Z b).

(** The literals [1.2] and [0.8]: the nearest floats, which are
    1.1999999999999999555910790149937 and
    0.8000000000000000444089209850063. *)
Definition one_point_two : float := 0x1.3333333333333p+0%float.
Definition point_eight : float := 0x1.999999999999ap-1%float.

End Binary64.

(** The classification at the end of [get_time_trends_by_knowledge], on
    the chronologically sorted buckets. *)
Definition half_average (total : Z) (count : nat) : PrimFloat.float :=
  if Nat.ltb 0 count then Binary64.true_divide total (Z.of_nat count)
  else Binary64.float_of_Z 0.

Definition trend_direction_of (sorted_periods : list (string * Z)) : string :=
  if Nat.leb 2 (length sorted_periods) then
    let midpoint := Nat.div (length sorted_periods) 2 in
    let first_half_avg :=
      half_average (sumZ (map snd (take midpoint sorted_periods))) midpoint in
    let second_half_avg :=
      half_average (sumZ (map snd (drop midpoint sorted_periods)))
        (length sorted_periods - midpoint) in
    if PrimFloat.ltb (PrimFloat.mul first_half_avg Binary64.one_point_two)
         second_half_avg
    then "increasing"
    else if PrimFloat.ltb second_half_avg
              (PrimFloat.mul first_half_avg Binary64.point_eight)
         then "decreasing"
         else "stable"
  else "stable".

(** [period_data[key] += minutes], the key created at 0 when missing; the
    dictionary is kept as an association list. *)
Fixpoint add_minutes (key : string) (minutes : Z) (l : list (string * Z))
  : list (string * Z) :=
  match l with
  | [] => [(key, 0 + minutes)]
  | (k, v) :: l' =>
      if String.eqb k key then (k, v + minutes) :: l'
      else (k, v) :: add_minutes key minutes l'
  end.

(** [sorted(period_data.items())]: ascending by key, the keys being
    distinct. *)
Fixpoint insert_period (p : string * Z) (l : list (string * Z))
  : list (string * Z) :=
  match l with
  | [] => [p]
  | q :: l' =>
      if String.ltb (fst p) (fst q) then p :: q :: l'
      else q :: insert_period p l'
  end.

Definition sort_periods (l : list (string * Z)) : list (string * Z) :=
  fold_left (fun sorted p => insert_period p sorted) l [].

(** The fields of the result of [get_time_trends_by_knowledge] that are
    computed from the store. *)
Record TimeTrends : Type := mkTimeTrends {
  period_data : list (string * Z);
  trend_total_minutes : Z;
  trend_direction : string
}.

(** [datetime.min] and [datetime.max], in microseconds since the epoch:
    0001-01-01T00:00:00 and 9999-12-31T23:59:59.999999. *)
Definition datetime_min : timestamp := -62135596800000000.
Definition datetime_max : timestamp := 253402300799999999.

(** [now - timedelta(days=days)]: [timedelta] raises [OverflowError] for
    more than 999999999 days, and the subtraction raises it when the
    result leaves the range of [datetime]. *)
Definition minus_days (now : timestamp) (days : Z) : result timestamp :=
  if 999999999 <? Z.abs days then Raise OverflowError
  else
    let t := now - days * 86400000000 in
    if (t <? datetime_min) || (datetime_max <? t) then Raise OverflowError
    else Ok t.

Section Trends.

(** [start_time.strftime(fmt)] with the format chosen by [group_by]:
    the calendar arithmetic is the standard library's. *)
Variable period_key : string -> timestamp -> string.

(** The filter loop. *)
Definition in_window (cutoff_date : timestamp)
    (knowledge_ref : option string) (ed : EntryDict) : bool :=
  completed ed
  && match start_time (entry ed) with
     | Some t => negb (t <? cutoff_date)
     | None => true
     end
  && match knowledge_ref with
     | Some k => bool_decide (k ∈ knowledge_refs (entry ed))
     | None => true
     end.

(** The grouping loop; [datetime.fromisoformat(None)] is a
    [TypeError]. *)
Fixpoint group_periods (group_by : string) (l : list EntryDict)
    (acc : list (string * Z)) : result (list (string * Z)) :=
  match l with
  | [] => Ok acc
  | ed :: l' =>
      match start_time (entry ed), duration_minutes (entry ed) with
      | Some t, Some minutes =>
          group_periods group_by l'
            (add_minutes (period_key group_by t) minutes acc)
      | _, _ => Raise TypeError
      end
  end.

(** [get_time_trends_by_knowledge]. *)
Definition get_time_trends_by_knowledge (now : timestamp)
    (knowledge_ref : option string) (days : Z) (group_by : string)
    (data : TimeData) : result TimeTrends :=
  cutoff_date ← minus_days now days;
  let filtered_entries :=
    List.filter (in_window cutoff_date knowledge_ref) (entries data) in
  grouped ← group_periods group_by filtered_entries [];
  let sorted_periods := sort_periods grouped in
  Ok (mkTimeTrends sorted_periods (sumZ (map snd grouped))
        (trend_direction_of sorted_periods)).

End Trends.

(** ** Public mutating operations as steps *)

Inductive op : Type :=
| StartWork (now : timestamp) (work_id description wtype : string)
    (krefs prefs : list string)
| EndWork (now : timestamp) (work_id completion_notes : string)
    (pct : option Z)
| RecordDistraction (now : timestamp) (work_id distraction_type : string)
    (minutes : Z) (description : string)
| LinkKnowledge (listing : set_listing) (work_id : string)
    (refs : list string)
| LinkPeople (listing : set_listing) (work_id : string) (refs : list string)
| AcceptBreakdown (new_id : nat -> string) (b : WorkBreakdown).

(** The document saved by an operation; an operation that raises before
    saving leaves it as it was. *)
Definition step (o : op) (data : TimeData) : TimeData :=
  match o with
  | StartWork now work_id description wtype krefs prefs =>
      snd (start_work now work_id description wtype krefs prefs data)
  | EndWork now work_id completion_notes pct =>
      snd (end_work now work_id completion_notes pct data)
  | RecordDistraction now work_id distraction_type minutes description =>
      snd (record_distraction now work_id distraction_type minutes
             description data)
  | LinkKnowledge listing work_id refs =>
      snd (link_time_to_knowledge listing work_id refs data)
  | LinkPeople listing work_id refs =>
      snd (link_time_to_people listing work_id refs data)
  | AcceptBreakdown new_id b => snd (accept_breakdown new_id b data)
  end.

Definition run (ops : list op) (data : TimeData) : TimeData :=
  fold_left (fun d o => step o d) ops data.

(** The documents that the public operations produce from a fresh store. *)
Definition reachable (data : TimeData) : Prop :=
  exists ops, run ops empty_data = data.

(** ** Further queries of the store *)

(** [get_entries_by_work_type]. *)
Definition get_entries_by_work_type (wtype : string) (data : TimeData)
  : list TimeEntry :=
  map filtered
    (List.filter (fun ed => String.eqb (work_type (entry ed)) wtype)
       (entries data)).

(** [get_entries_by_person]: [person_ref in entry["people_refs"]]. *)
Definition get_entries_by_person (person_ref : string) (data : TimeData)
  : list TimeEntry :=
  map filtered
    (filter (fun ed => bool_decide (person_ref ∈ people_refs (entry ed)))
       (entries data)).

(** [get_person_collaboration_time]; the dictionary has the shape of the
    one of [get_knowledge_time_investment]. *)
Definition get_person_collaboration_time (person_ref : string)
    (data : TimeData) : KnowledgeInvestment :=
  let completed_entries :=
    filter (fun e : TimeEntry => is_Some (duration_minutes e))
      (get_entries_by_person person_ref data) in
  match completed_entries with
  | [] => mkKnowledgeInvestment 0 0 0%R
  | _ :: _ =>
      let total := sumZ (durations_of completed_entries) in
      mkKnowledgeInvestment total (length completed_entries)
        (IZR total / lenR completed_entries)%R
  end.

(** ** Breakdown progress *)

(** The loop [for bd in data.get("breakdowns", [])] that stops at the
    first breakdown with the identifier. *)
Definition find_breakdown (bid : string) (data : TimeData)
  : option WorkBreakdown :=
  List.find (fun b => String.eqb (breakdown_id b) bid) (breakdowns data).

(** [entry.get("breakdown_id") == breakdown_id]. *)
Definition of_breakdown (bid : string) (ed : EntryDict) : bool :=
  match extra ed with
  | Some m => String.eqb (meta_breakdown_id m) bid
  | None => false
  end.

Definition breakdown_entries (bid : string) (data : TimeData)
  : list EntryDict :=
  List.filter (of_breakdown bid) (entries data).

(** The dictionary returned by [get_breakdown_progress]. *)
Record BreakdownProgress : Type := mkBreakdownProgress {
  bp_breakdown_id : string;
  bp_original_work : string;
  bp_total_chunks : nat;
  bp_completed_chunks : nat;
  bp_progress_percentage : R;
  bp_estimated_total_minutes : R;
  bp_actual_total_minutes : Z;
  bp_remaining_estimated_minutes : R;
  bp_variance_minutes : option R
}.

(** [get_breakdown_progress]. *)
Definition get_breakdown_progress (bid : string) (data : TimeData)
  : option BreakdownProgress :=
  match find_breakdown bid data with
  | None => None
  | Some b =>
      let l := breakdown_entries bid data in
      let total_chunks := length (chunks b) in
      let completed_chunks := length (List.filter completed l) in
      let total_estimated := estimated_total b in
      let total_actual :=
        sumZ (omap (fun ed => duration_minutes (entry ed)) l) in
      Some (mkBreakdownProgress bid (original_work b) total_chunks
              completed_chunks
              (if Nat.ltb 0 total_chunks
               then (IZR (Z.of_nat completed_chunks)
                     / IZR (Z.of_nat total_chunks) * 100)%R
               else 0%R)
              total_estimated total_actual
              (max0 (total_estimated - IZR total_actual))
              (if Nat.eqb completed_chunks total_chunks
               then Some (IZR total_actual - total_estimated)%R
               else None))
  end.

(** An element of ["chunk_results"]. *)
Record ChunkResult : Type := mkChunkResult {
  cr_chunk_id : string;
  cr_description : string;
  cr_estimated_minutes : R;
  cr_actual_minutes : option Z;
  cr_variance_minutes : option R;
  cr_variance_percentage : option R;
  cr_completed : bool
}.

(** [e.get("chunk_id") == chunk["id"]]. *)
Definition of_chunk (c : WorkChunk) (ed : EntryDict) : bool :=
  match extra ed with
  | Some m => String.eqb (meta_chunk_id m) (chunk_id c)
  | None => false
  end.

(** The result appended for a chunk that has an entry.  [if actual_minutes]
    is false for [None] and for 0. *)
Definition chunk_result (c : WorkChunk) (ed : EntryDict) : ChunkResult :=
  let actual_minutes := duration_minutes (entry ed) in
  let estimated_minutes := chunk_estimated_minutes c in
  let truthy :=
    match actual_minutes with
    | Some a => if Z.eqb a 0 then None else Some a
    | None => None
    end in
  mkChunkResult (chunk_id c) (chunk_description c) estimated_minutes
    actual_minutes
    (match truthy with
     | Some a => Some (IZR a - estimated_minutes)%R
     | None => None
     end)
    (match truthy with
     | Some a =>
         if Rlt_dec 0 estimated_minutes
         then Some ((IZR a - estimated_minutes) / estimated_minutes * 100)%R
         else None
     | None => None
     end)
    (match actual_minutes with Some _ => true | None => false end).

(** The dictionary returned by [aggregate_breakdown_results]. *)
Record BreakdownResults : Type := mkBreakdownResults {
  br_breakdown_id : string;
  br_original_work : string;
  br_total_chunks : nat;
  br_completed_chunks : nat;
  br_chunk_results : list ChunkResult;
  br_total_estimated_minutes : R;
  br_total_actual_minutes : Z;
  br_total_variance_minutes : R;
  br_total_variance_percentage : R;
  br_all_chunks_completed : bool
}.

(** [aggregate_breakdown_results]. *)
Definition aggregate_breakdown_results (bid : string) (data : TimeData)
  : option BreakdownResults :=
  match find_breakdown bid data with
  | None => None
  | Some b =>
      let l := breakdown_entries bid data in
      let chunk_results :=
        omap (fun c =>
                match List.find (of_chunk c) l with
                | Some ed => Some (chunk_result c ed)
                | None => None
                end)
          (chunks b) in
      let total_estimated := sumR (map chunk_estimated_minutes (chunks b)) in
      let total_actual := sumZ (omap cr_actual_minutes chunk_results) in
      let completed_count := length (List.filter cr_completed chunk_results) in
      Some (mkBreakdownResults bid (original_work b) (length (chunks b))
              completed_count chunk_results total_estimated total_actual
              (IZR total_actual - total_estimated)%R
              (if Rlt_dec 0 total_estimated
               then ((IZR total_actual - total_estimated)
                     / total_estimated * 100)%R
               else 0%R)
              (Nat.eqb completed_count (length (chunks b))))
  end.

(** ** Distraction patterns *)

(** [timestamp.hour] and [timestamp.weekday()] of a UTC instant: the epoch
    began at 00:00 on a Thursday, weekday 3 with Monday as 0. *)
Definition hour_of (t : timestamp) : nat :=
  Z.to_nat ((t / 3600000000) mod 24).

Definition weekday_of (t : timestamp) : nat :=
  Z.to_nat ((t / 86400000000 + 3) mod 7).

(** [counts[key] += 1], the key created at 0 when missing; a dictionary
    kept in insertion order. *)
Fixpoint bump (key : string) (l : list (string * nat))
  : list (string * nat) :=
  match l with
  | [] => [(key, 1%nat)]
  | (k, n) :: l' =>
      if String.eqb k key then (k, S n) :: l' else (k, n) :: bump key l'
  end.

(** [max(items, key=lambda x: x[1])]: the first item with the greatest
    count. *)
Fixpoint max_from {A : Type} (best : A * nat) (l : list (A * nat))
  : A * nat :=
  match l with
  | [] => best
  | x :: l' => max_from (if Nat.ltb (snd best) (snd x) then x else best) l'
  end.

Definition max_by_count {A : Type} (l : list (A * nat)) : option A :=
  match l with
  | [] => None
  | x :: l' => Some (fst (max_from x l'))
  end.

(** The tallies carried through the loops of
    [analyze_distraction_patterns]; the hour and day dictionaries, keyed
    0..23 and 0..6, are lists indexed by the key. *)
Record Tallies : Type := mkTallies {
  t_total : nat;
  t_by_time_of_day : list nat;
  t_by_day_of_week : list nat;
  t_by_work_type : list (string * nat);
  t_by_distraction_type : list (string * nat)
}.

(** The body of the inner loop, for one distraction of an entry. *)
Definition tally (entry_work_type : string) (s : Tallies) (d : Distraction)
  : Tallies :=
  mkTallies (S (t_total s))
    (alter S (hour_of (d_timestamp d)) (t_by_time_of_day s))
    (alter S (weekday_of (d_timestamp d)) (t_by_day_of_week s))
    (bump entry_work_type (t_by_work_type s))
    (bump (d_type d) (t_by_distraction_type s)).

Definition tally_entry (s : Tallies) (ed : EntryDict) : Tallies :=
  fold_left (tally (work_type (entry ed))) (distractions (entry ed)) s.

Definition day_names : list string :=
  ["Monday"; "Tuesday"; "Wednesday"; "Thursday"; "Friday"; "Saturday";
   "Sunday"]%string.

(** The dictionary returned by [analyze_distraction_patterns]. *)
Record DistractionPatterns : Type := mkDistractionPatterns {
  total_distractions : nat;
  by_time_of_day : list nat;
  by_day_of_week : list nat;
  by_work_type : list (string * nat);
  by_distraction_type : list (string * nat);
  most_disruptive_hour : option nat;
  most_disruptive_day : option nat;
  most_disruptive_day_name : option string;
  most_common_distraction_type : option string
}.

(** The entries kept by a [days] window: started, and not before the
    cutoff. *)
Definition started_since (cutoff_date : timestamp) (ed : EntryDict) : bool :=
  match start_time (entry ed) with
  | Some t => negb (t <? cutoff_date)
  | None => false
  end.

Definition recent_entries (now : timestamp) (days : option Z)
    (data : TimeData) : list EntryDict :=
  match days with
  | Some n => List.filter (started_since (now - n * 86400000000)) (entries data)
  | None => entries data
  end.

(** [analyze_distraction_patterns]. *)
Definition analyze_distraction_patterns (now : timestamp) (days : option Z)
    (wtype : option string) (data : TimeData) : DistractionPatterns :=
  let recent := recent_entries now days data in
  let selected :=
    match wtype with
    | Some w =>
        List.filter (fun ed => String.eqb (work_type (entry ed)) w) recent
    | None => recent
    end in
  let s :=
    fold_left tally_entry selected
      (mkTallies 0 (replicate 24 0%nat) (replicate 7 0%nat) [] []) in
  let hour :=
    if Nat.ltb 0 (t_total s)
    then max_by_count (imap (fun i n => (i, n)) (t_by_time_of_day s))
    else None in
  let day :=
    if Nat.ltb 0 (t_total s)
    then max_by_count (imap (fun i n => (i, n)) (t_by_day_of_week s))
    else None in
  mkDistractionPatterns (t_total s) (t_by_time_of_day s)
    (t_by_day_of_week s) (t_by_work_type s) (t_by_distraction_type s)
    hour day
    (match day with Some i => day_names !! i | None => None end)
    (max_by_count (t_by_distraction_type s)).

(** ** Expertise ranking and collaboration patterns *)

(** [totals[key]["total_minutes"] += minutes] and [["work_item_count"] +=
    1], the key created at zero when missing. *)
Fixpoint add_time (key : string) (minutes : Z)
    (l : list (string * (Z * nat))) : list (string * (Z * nat)) :=
  match l with
  | [] => [(key, (0 + minutes, 1%nat))]
  | (k, (total, count)) :: l' =>
      if String.eqb k key then (k, (total + minutes, S count)) :: l'
      else (k, (total, count)) :: add_time key minutes l'
  end.

(** [sort(key=total_minutes, reverse=True)]: stable, greatest first. *)
Fixpoint insert_by_total (p : string * (Z * nat))
    (l : list (string * (Z * nat))) : list (string * (Z * nat)) :=
  match l with
  | [] => [p]
  | q :: l' =>
      if fst (snd q) <? fst (snd p) then p :: q :: l'
      else q :: insert_by_total p l'
  end.

Definition sort_by_total (l : list (string * (Z * nat)))
  : list (string * (Z * nat)) :=
  fold_left (fun sorted p => insert_by_total p sorted) l [].

(** An element of the lists returned by [rank_expertise_by_time] and, as
    ["frequent_collaborators"], by [identify_collaboration_patterns]. *)
Record Ranked : Type := mkRanked {
  ranked_ref : string;
  ranked_total_minutes : Z;
  ranked_work_item_count : nat;
  ranked_rank : nat
}.

(** [for i, area in enumerate(areas, start=1): area["rank"] = i]. *)
Definition with_ranks (l : list (string * (Z * nat))) : list Ranked :=
  imap (fun i p => mkRanked (fst p) (fst (snd p)) (snd (snd p)) (i + 1)) l.

(** The aggregation loop of [rank_expertise_by_time]. *)
Definition knowledge_time (data : TimeData) : list (string * (Z * nat)) :=
  fold_left
    (fun acc ed =>
       match duration_minutes (entry ed) with
       | None => acc
       | Some duration =>
           fold_left (fun acc' k => add_time k duration acc')
             (knowledge_refs (entry ed)) acc
       end)
    (entries data) [].

(** [rank_expertise_by_time]. *)
Definition rank_expertise_by_time (min_minutes : Z) (data : TimeData)
  : list Ranked :=
  with_ranks
    (sort_by_total
       (List.filter (fun p => min_minutes <=? fst (snd p))
          (knowledge_time data))).

(** The dictionary returned by [identify_collaboration_patterns]. *)
Record CollaborationPatterns : Type := mkCollaborationPatterns {
  frequent_collaborators : list Ranked;
  collaboration_by_work_type : list (string * Z);
  total_collaboration_time : Z;
  solo_work_time : Z;
  collaboration_percentage : R
}.

(** The state of its loop: [person_time], [work_type_collaboration],
    [total_collaboration_time] and [total_solo_time]. *)
Definition collaboration_state : Type :=
  list (string * (Z * nat)) * list (string * Z) * Z * Z.

Definition collaboration_step (s : collaboration_state) (ed : EntryDict)
  : collaboration_state :=
  let '(person_time, by_type, collab, solo) := s in
  match duration_minutes (entry ed) with
  | None => s
  | Some duration =>
      match people_refs (entry ed) with
      | [] => (person_time, by_type, collab, solo + duration)
      | prefs =>
          (fold_left (fun acc p => add_time p duration acc) prefs person_time,
           add_minutes (work_type (entry ed)) duration by_type,
           collab + duration, solo)
      end
  end.

(** [identify_collaboration_patterns]. *)
Definition identify_collaboration_patterns (now : timestamp)
    (days : option Z) (data : TimeData) : CollaborationPatterns :=
  let '(person_time, by_type, collab, solo) :=
    fold_left collaboration_step (recent_entries now days data)
      ([], [], 0, 0) in
  let total_time := collab + solo in
  mkCollaborationPatterns (with_ranks (sort_by_total person_time)) by_type
    collab solo
    (if 0 <? total_time then (IZR collab / IZR total_time * 100)%R else 0%R).

(** The two results of [categorize_work_type_by_collaboration] for one
    work entry. *)
Inductive Categorized : Type :=
| CategoryError (message : string)
| Category (work_id category : string) (people_involved : list string)
    (people_count : nat).

(** [categorize_work_type_by_collaboration(work_id)]. *)
Definition categorize_work_entry (work_id : string) (data : TimeData)
  : Categorized :=
  match find_entry work_id (entries data) with
  | None => CategoryError "Work entry not found"
  | Some (_, ed) =>
      match people_refs (entry ed) with
      | [] => Category work_id "solo" [] 0
      | prefs => Category work_id "collaborative" prefs (length prefs)
      end
  end.

(** One of the sub-dictionaries ["solo_work"] and ["collaborative_work"]. *)
Record WorkShare : Type := mkWorkShare {
  share_total_minutes : Z;
  share_work_item_count : nat;
  share_average_duration : R;
  share_percentage_of_total_time : R;
  share_by_work_type : list (string * Z)
}.

Definition durations_sum (l : list EntryDict) : Z :=
  sumZ (omap (fun ed => duration_minutes (entry ed)) l).

(** [by_type[work_type] = by_type.get(work_type, 0) + duration] over the
    entries of one category. *)
Definition minutes_by_type (l : list EntryDict) : list (string * Z) :=
  fold_left
    (fun acc ed =>
       match duration_minutes (entry ed) with
       | Some duration => add_minutes (work_type (entry ed)) duration acc
       | None => acc
       end)
    l [].

Definition work_share (l : list EntryDict) (total_time : Z) : WorkShare :=
  mkWorkShare (durations_sum l) (length l)
    (if Nat.ltb 0 (length l) then (IZR (durations_sum l) / lenR l)%R
     else 0%R)
    (if 0 <? total_time then (IZR (durations_sum l) / IZR total_time * 100)%R
     else 0%R)
    (minutes_by_type l).

Definition is_collaborative (ed : EntryDict) : bool :=
  match people_refs (entry ed) with
  | [] => false
  | _ :: _ => true
  end.

(** [categorize_work_type_by_collaboration()] without a work id: the
    solo share, the collaborative share, and the totals. *)
Definition categorize_all_work (data : TimeData)
  : WorkShare * WorkShare * (Z * nat) :=
  let done := List.filter completed (entries data) in
  let solo_entries := List.filter (fun ed => negb (is_collaborative ed)) done in
  let collaborative_entries := List.filter is_collaborative done in
  let total_time :=
    durations_sum solo_entries + durations_sum collaborative_entries in
  (work_share solo_entries total_time,
   work_share collaborative_entries total_time,
   (total_time, (length solo_entries + length collaborative_entries)%nat)).

(** * Specification vocabulary and scenarios *)

(** What the operations never change in the first entry of an identifier:
    its start time and whether it carries breakdown keys. *)
Definition anchored (work_id : string) (t0 : timestamp) (data : TimeData)
  : Prop :=
  exists i ed,
    find_entry work_id (entries data) = Some (i, ed)
    /\ start_time (entry ed) = Some t0 /\ extra ed = None.

(** Python's [round] on the quotient of two integers, the divisor positive:
    to the nearest integer, a tie going to the even one. *)
Definition round_half_even (n d : Z) : Z :=
  let q := n / d in
  let r := n mod d in
  if 2 * r <? d then q
  else if d <? 2 * r then q + 1
  else if Z.even q then q else q + 1.

(** The duration that the specification prescribes:
    [round((end_time - start_time).total_seconds() / 60)]. *)
Definition rounded_minutes (start_t end_t : timestamp) : Z :=
  round_half_even (end_t - start_t) 60000000.

(** Evaluate the integer sums and the lengths of explicit lists. *)
Ltac eval_sums :=
  repeat match goal with
    | |- context [sumZ ?l] =>
        let v := eval vm_compute in (sumZ l) in
        progress change (sumZ l) with v
    | |- context [lenR ?l] =>
        let v := eval vm_compute in (Z.of_nat (length l)) in
        progress change (lenR l) with (IZR v)
    end;
  cbv [sumR fold_left map].

(** A completed technical entry of the given duration, and three of them of
    10, 20 and 30 minutes. *)
Definition sample_entry (work_id : string) (minutes : Z) : TimeEntry :=
  mkTimeEntry work_id (Some 0) (Some (minutes * 60000000)) (Some minutes)
    "task" "technical" [] [] [] None "".

Definition sample_entries : list TimeEntry :=
  [sample_entry "a" 10; sample_entry "b" 20; sample_entry "c" 30].

(** The candidates of a query: completed, of the same work type and, when
    the query names knowledge areas, sharing one of them. *)
Definition candidate (wtype : string) (krefs : list string) (ed : EntryDict)
  : Prop :=
  is_Some (duration_minutes (entry ed))
  /\ work_type (entry ed) = wtype
  /\ (krefs = []
      \/ (list_to_set (knowledge_refs (entry ed)) : gset string)
         ∩ list_to_set krefs ≠ ∅).

#[global] Instance candidate_dec wtype krefs ed :
  Decision (candidate wtype krefs ed).
Proof. unfold candidate. apply _. Defined.

(** The shape that the specification gives to every estimate. *)
Definition clamped (r : EstimateResult) : Prop :=
  min_estimate r = Rmax 0 (mean_minutes r - std_dev r)
  /\ max_estimate r = (mean_minutes r + std_dev r)%R
  /\ confidence_range r = (min_estimate r, max_estimate r).

(** The shape of an estimate adjusted by a factor: mean, minimum and
    maximum of the base estimate are multiplied, its variance and standard
    deviation are kept. *)
Definition scaled_from (base r : EstimateResult) (factor : R) : Prop :=
  mean_minutes r = (mean_minutes base * factor)%R
  /\ min_estimate r
     = (Rmax 0 (mean_minutes base - std_dev base) * factor)%R
  /\ max_estimate r = ((mean_minutes base + std_dev base) * factor)%R
  /\ variance r = variance base
  /\ std_dev r = std_dev base
  /\ confidence_range r = (min_estimate r, max_estimate r).

(** No completed entry has a negative duration: what a clock that never
    runs backwards guarantees. *)
Definition nonneg_durations (data : TimeData) : Prop :=
  Forall (fun ed => forall d, duration_minutes (entry ed) = Some d -> 0 <= d)
    (entries data).

(** The instant that an operation reads from the clock, if it reads it. *)
Definition op_clock (o : op) : option timestamp :=
  match o with
  | StartWork now _ _ _ _ _ => Some now
  | EndWork now _ _ _ => Some now
  | RecordDistraction now _ _ _ _ => Some now
  | LinkKnowledge _ _ _ => None
  | LinkPeople _ _ _ => None
  | AcceptBreakdown _ _ => None
  end.

(** The operations read a clock that starts at [t] or later and never runs
    backwards. *)
Fixpoint monotone_clock (t : timestamp) (ops : list op) : Prop :=
  match ops with
  | [] => True
  | o :: ops' =>
      match op_clock o with
      | Some now => t <= now /\ monotone_clock now ops'
      | None => monotone_clock t ops'
      end
  end.

(** Every entry was started at [t] or before and has no negative
    duration. *)
Definition timely_entry (t : timestamp) (ed : EntryDict) : Prop :=
  (forall s, start_time (entry ed) = Some s -> s <= t)
  /\ (forall d, duration_minutes (entry ed) = Some d -> 0 <= d).

Definition timely (t : timestamp) (data : TimeData) : Prop :=
  Forall (timely_entry t) (entries data).

(** The factor applied by [generate_estimate_with_distraction_overhead]. *)
Definition distraction_factor (wtype : string) (data : TimeData) : R :=
  let impact := calculate_distraction_impact (Some wtype) data in
  if Nat.ltb 0 (entries_with_distractions impact)
  then (1 + average_distraction_overhead_percentage impact / 100)%R
  else 1%R.

(** The factor applied by [generate_experience_adjusted_estimate]. *)
Definition experience_factor (krefs : list string) (data : TimeData) : R :=
  match krefs with
  | [] => 1%R
  | _ :: _ => adjustment_factor (total_experience_minutes krefs data)
  end.

(** Two technical work items on knowledge area K, of 10 and 30 minutes,
    recorded through the public operations. *)
Definition history_10_30 : TimeData :=
  run [StartWork 0 "a" "first" "technical" ["K"%string] [];
       EndWork 600000000 "a" "" None;
       StartWork 600000000 "b" "second" "technical" ["K"%string] [];
       EndWork 2400000000 "b" "" None]
    empty_data.

Definition base_10_30 : EstimateResult :=
  mkEstimateResult 20 100 10 10 30 (10%R, 30%R) 2 ["a"; "b"]%string.

(** The completed entries of a work type (of any type for [None]) that have
    at least one distraction ([flag = true]) or none ([flag = false]). *)
Definition distracted (wtype : option string) (flag : bool) (ed : EntryDict)
  : Prop :=
  duration_minutes (entry ed) <> None
  /\ match wtype with
     | Some w => work_type (entry ed) = w
     | None => True
     end
  /\ (distractions (entry ed) <> [] <-> flag = true).

#[global] Instance distracted_dec wtype flag ed :
  Decision (distracted wtype flag ed).
Proof. unfold distracted. destruct wtype; apply _. Defined.

(** The scenario of the specification: a technical item of 60 minutes with
    one distraction of 15 minutes, and a technical item of 40 minutes with
    none. *)
Definition distraction_scenario : TimeData :=
  run [StartWork 0 "a" "first" "technical" [] [];
       RecordDistraction 900000000 "a" "email" 15 "";
       EndWork 3600000000 "a" "" None;
       StartWork 3600000000 "b" "second" "technical" [] [];
       EndWork 6000000000 "b" "" None]
    empty_data.







(** A calendar of one period per day, named by the digit of the day: it
    stands for [strftime] during the first ten days after the epoch. *)
Definition day_key (_ : string) (t : timestamp) : string :=
  String (ascii_of_nat (48 + Z.to_nat (t / 86400000000))) "".

(** Six work items on six consecutive days, of 1, 2, 2, 1, 1 and 2
    minutes: the second half averages exactly 0.8 times the first. *)
Definition boundary_log : TimeData :=
  run [StartWork 0 "a" "one" "technical" [] [];
       EndWork 60000000 "a" "" None;
       StartWork 86400000000 "b" "two" "technical" [] [];
       EndWork 86520000000 "b" "" None;
       StartWork 172800000000 "c" "three" "technical" [] [];
       EndWork 172920000000 "c" "" None;
       StartWork 259200000000 "d" "four" "technical" [] [];
       EndWork 259260000000 "d" "" None;
       StartWork 345600000000 "e" "five" "technical" [] [];
       EndWork 345660000000 "e" "" None;
       StartWork 432000000000 "f" "six" "technical" [] [];
       EndWork 432120000000 "f" "" None]
    empty_data.


(** Equality of two entries on every field but [knowledge_refs]. *)
Definition same_but_knowledge (e e' : TimeEntry) : Prop :=
  id e' = id e /\ start_time e' = start_time e /\ end_time e' = end_time e
  /\ duration_minutes e' = duration_minutes e
  /\ work_description e' = work_description e /\ work_type e' = work_type e
  /\ people_refs e' = people_refs e /\ distractions e' = distractions e
  /\ completion_percentage e' = completion_percentage e
  /\ notes e' = notes e.

(** The set of knowledge areas of the first entry with an identifier. *)
Definition knowledge_set (work_id : string) (data : TimeData)
  : option (gset string) :=
  match find_entry work_id (entries data) with
  | Some (_, ed) => Some (list_to_set (knowledge_refs (entry ed)))
  | None => None
  end.

(** The keywords that open a phase of a technical breakdown. *)
Definition phase_keywords : list string :=
  (["design"; "architecture"; "plan"; "spec"]%string
   ++ ["implement"; "build"; "create"; "develop"; "code"]%string
   ++ ["test"; "verify"; "validate"]%string
   ++ ["document"; "doc"; "write"]%string)%list.

(** A technical description of medium complexity that names no phase. *)
Definition unphased_description : string := "fix all bugs and then refactor".

(** A long compound description, of high complexity. *)
Definition compound_description : string :=
  "Design and implement the complete API, then test and document all endpoints".

(** Two technical work items recorded through the public operations: the
    first lasts five minutes, the second is ended at the instant it is
    started. *)
Definition zero_duration_log : TimeData :=
  run [StartWork 0 "a" "first" "technical" [] [];
       EndWork 300000000 "a" "" None;
       StartWork 300000000 "b" "second" "technical" [] [];
       EndWork 300000000 "b" "" None]
    empty_data.

Definition log_a : TimeEntry :=
  mkTimeEntry "a" (Some 0) (Some 300000000) (Some 5) "first" "technical"
    [] [] [] None "".

Definition log_b : TimeEntry :=
  mkTimeEntry "b" (Some 300000000) (Some 300000000) (Some 0) "second"
    "technical" [] [] [] None "".

(** A breakdown of one chunk and the store that accepts it first. *)
Definition one_chunk_breakdown : WorkBreakdown :=
  mkWorkBreakdown "write the report" 45
    [mkWorkChunk "chunk_1" "Research and outline: write the report" 45
       "writing" [] []]
    "breakdown_1" 0 [].

Definition planned_log : TimeData :=
  run [AcceptBreakdown (fun _ => "p1"%string) one_chunk_breakdown] empty_data.

(** A query whose knowledge area has only zero-minute history while the
    named person has positive history. *)
Definition collaboration_log : TimeData :=
  run [StartWork 0 "a" "first" "technical" ["K"%string] [];
       EndWork 0 "a" "" None;
       StartWork 0 "b" "second" "technical" [] ["P"%string];
       EndWork 300000000 "b" "" None]
    empty_data.

(** The entry that [start_work] appends. *)
Definition opened_entry (now : timestamp) (work_id description wtype : string)
    (krefs prefs : list string) : TimeEntry :=
  mkTimeEntry work_id (Some now) None None description wtype krefs prefs []
    None "".

(** The shape of every stored entry: one planned by a breakdown is never
    started, ended or completed; any other one is started, and has a
    duration exactly when it has an end time, the duration being the
    elapsed minutes from its start to its end. *)
Definition well_formed_entry (ed : EntryDict) : Prop :=
  match extra ed with
  | Some _ =>
      start_time (entry ed) = None /\ end_time (entry ed) = None
      /\ duration_minutes (entry ed) = None
  | None =>
      exists t0,
        start_time (entry ed) = Some t0
        /\ ((end_time (entry ed) = None /\ duration_minutes (entry ed) = None)
            \/ exists t1,
                 end_time (entry ed) = Some t1
                 /\ duration_minutes (entry ed) = Some (elapsed_minutes t0 t1))
  end.

(** An entry written under a clock that has reached [t] without running
    backwards: started at [t] or before, ended after its start, with no
    negative duration. *)
Definition ordered_entry (t : timestamp) (ed : EntryDict) : Prop :=
  (forall s, start_time (entry ed) = Some s -> s <= t)
  /\ (forall e, end_time (entry ed) = Some e -> e <= t)
  /\ (forall s e,
        start_time (entry ed) = Some s -> end_time (entry ed) = Some e ->
        s <= e)
  /\ (forall d, duration_minutes (entry ed) = Some d -> 0 <= d).

(** The counters of the accuracy loop agree with its lists. *)
Definition counted (s : AccuracyState) : Prop :=
  acc_total s = (acc_accurate s + acc_over s + acc_under s)%nat
  /\ length (acc_errors s) = acc_total s
  /\ length (acc_deviations s) = (acc_over s + acc_under s)%nat.

(** The completed entries of a store. *)
Definition completed_entries_of (data : TimeData) : list EntryDict :=
  filter (fun ed => completed ed = true) (entries data).

(** A list whose keys never increase: every element carries a key no
    smaller than the keys of the elements after it. *)
Fixpoint descending {A : Type} (key : A -> Z) (l : list A) : Prop :=
  match l with
  | [] => True
  | x :: l' => Forall (fun y => key y <= key x) l' /\ descending key l'
  end.

(** A rule gives no point and no indicator, or one or two points and one
    indicator. *)
Definition rule_shape (r : nat * list string) : Prop :=
  (fst r = 0%nat /\ snd r = [])
  \/ ((1 <= fst r <= 2)%nat /\ length (snd r) = 1%nat).

(** The chunks are numbered from 1 in order, the first depends on nothing
    and each later one on its predecessor. *)
Definition chained (l : list WorkChunk) : Prop :=
  forall i c,
    l !! i = Some c ->
    chunk_id c = chunk_name (i + 1)
    /\ dependencies c = match i with
                        | O => []
                        | S _ => [chunk_name i]
                        end.

(** The tallies agree: every dimension has counted every distraction. *)
Definition balanced (s : Tallies) : Prop :=
  length (t_by_time_of_day s) = 24%nat
  /\ length (t_by_day_of_week s) = 7%nat
  /\ sum_list (t_by_time_of_day s) = t_total s
  /\ sum_list (t_by_day_of_week s) = t_total s
  /\ sum_list (map snd (t_by_work_type s)) = t_total s
  /\ sum_list (map snd (t_by_distraction_type s)) = t_total s.


(** The total and the count that an aggregation table holds for a key. *)
Definition time_of (key : string) (l : list (string * (Z * nat)))
  : option (Z * nat) :=
  match List.find (fun p => String.eqb (fst p) key) l with
  | Some p => Some (snd p)
  | None => None
  end.

(** The total and the count of a key after one more work item. *)
Definition bumped (minutes : Z) (o : option (Z * nat)) : Z * nat :=
  match o with
  | Some (total, count) => (total + minutes, S count)
  | None => (0 + minutes, 1%nat)
  end.

(** * Properties *)

(** ** Lookup by identifier *)

Lemma find_entry_Some work_id l i ed :
  find_entry work_id l = Some (i, ed) ->
  l !! i = Some ed /\ id (entry ed) = work_id.
Proof.
  revert i; induction l as [|x l IH]; intros i H; simpl in H; [discriminate|].
  destruct (String.eqb (id (entry x)) work_id) eqn:E.
  - inversion H; subst. apply String.eqb_eq in E. auto.
  - destruct (find_entry work_id l) as [[j y]|]; [|discriminate].
    inversion H; subst. destruct (IH j eq_refl). auto.
Qed.

Lemma find_entry_app work_id l l' :
  find_entry work_id (l ++ l') =
  match find_entry work_id l with
  | Some r => Some r
  | None =>
      match find_entry work_id l' with
      | Some (i, ed) => Some ((length l + i)%nat, ed)
      | None => None
      end
  end.
Proof.
  induction l as [|x l IH]; simpl.
  - destruct (find_entry work_id l') as [[i ed]|]; reflexivity.
  - destruct (String.eqb (id (entry x)) work_id); [reflexivity|].
    rewrite IH. destruct (find_entry work_id l) as [[i ed]|]; [reflexivity|].
    destruct (find_entry work_id l') as [[i ed]|]; reflexivity.
Qed.

(** Replacing an entry by one with the same identifier does not move any
    identifier. *)
Lemma find_entry_insert work_id l j x x' :
  l !! j = Some x ->
  id (entry x') = id (entry x) ->
  find_entry work_id (<[j := x']> l) =
  match find_entry work_id l with
  | Some (i, ed) => Some (i, if Nat.eqb i j then x' else ed)
  | None => None
  end.
Proof.
  revert j; induction l as [|y l IH]; intros j Hj Hid; [discriminate|].
  destruct j as [|j]; simpl in *.
  - inversion Hj; subst. rewrite Hid.
    destruct (String.eqb (id (entry x)) work_id); [reflexivity|].
    destruct (find_entry work_id l) as [[i ed]|]; reflexivity.
  - destruct (String.eqb (id (entry y)) work_id); [reflexivity|].
    rewrite (IH j Hj Hid).
    destruct (find_entry work_id l) as [[i ed]|]; reflexivity.
Qed.

Lemma anchored_insert work_id t0 data w j x x' :
  find_entry w (entries data) = Some (j, x) ->
  id (entry x') = id (entry x) ->
  start_time (entry x') = start_time (entry x) ->
  extra x' = extra x ->
  anchored work_id t0 data ->
  anchored work_id t0 (set_entries data (<[j := x']> (entries data))).
Proof.
  intros Hw Hid Hst Hex (i & ed & Hf & Hs & He).
  destruct (find_entry_Some _ _ _ _ Hw) as [Hj _].
  unfold anchored; simpl. rewrite (find_entry_insert _ _ _ _ _ Hj Hid), Hf.
  destruct (Nat.eqb i j) eqn:E.
  - apply Nat.eqb_eq in E; subst j.
    destruct (find_entry_Some _ _ _ _ Hf) as [Hi _].
    assert (x = ed) by congruence; subst x.
    exists i, x'. repeat split; congruence.
  - exists i, ed. auto.
Qed.

Lemma anchored_app work_id t0 data l bs :
  anchored work_id t0 data ->
  anchored work_id t0 (mkTimeData (entries data ++ l) bs).
Proof.
  intros (i & ed & Hf & Hs & He). exists i, ed; simpl.
  rewrite find_entry_app, Hf. auto.
Qed.

Lemma anchored_step work_id t0 o data :
  anchored work_id t0 data -> anchored work_id t0 (step o data).
Proof.
  intros H. destruct o; simpl.
  - apply anchored_app; exact H.
  - unfold end_work.
    destruct (find_entry work_id0 (entries data)) as [[j x]|] eqn:Hw;
      [|exact H].
    destruct (start_time (entry x)) as [t|] eqn:Hs; [|exact H].
    simpl. eapply anchored_insert; eauto.
  - unfold record_distraction.
    destruct (find_entry work_id0 (entries data)) as [[j x]|] eqn:Hw;
      [|exact H].
    simpl. eapply anchored_insert; eauto.
  - unfold link_time_to_knowledge.
    destruct (find_entry work_id0 (entries data)) as [[j x]|] eqn:Hw;
      [|exact H].
    simpl. eapply anchored_insert; eauto.
  - unfold link_time_to_people.
    destruct (find_entry work_id0 (entries data)) as [[j x]|] eqn:Hw;
      [|exact H].
    simpl. eapply anchored_insert; eauto.
  - apply anchored_app; exact H.
Qed.

Lemma anchored_run work_id t0 ops data :
  anchored work_id t0 data -> anchored work_id t0 (run ops data).
Proof.
  revert data; induction ops as [|o ops IH]; intros data H; [exact H|].
  simpl. apply IH, anchored_step, H.
Qed.

Lemma anchored_start_work t0 work_id description wtype krefs prefs data :
  find_entry work_id (entries data) = None ->
  anchored work_id t0
    (snd (start_work t0 work_id description wtype krefs prefs data)).
Proof.
  intros H. unfold anchored; simpl. rewrite find_entry_app, H; simpl.
  rewrite String.eqb_refl. eauto.
Qed.

(** ** A clock that never runs backwards *)

Lemma timely_entry_later t t' ed :
  t <= t' -> timely_entry t ed -> timely_entry t' ed.
Proof.
  intros Hle [Hs Hd]. split; [|exact Hd].
  intros s E. specialize (Hs s E). lia.
Qed.

Lemma timely_later t t' data : t <= t' -> timely t data -> timely t' data.
Proof.
  intros Hle Ht. unfold timely. eapply Forall_impl; [exact Ht|].
  intros ed. apply timely_entry_later, Hle.
Qed.

Lemma timely_insert t data work_id i ed ed' :
  find_entry work_id (entries data) = Some (i, ed) ->
  (timely_entry t ed -> timely_entry t ed') ->
  timely t data ->
  timely t (set_entries data (<[i := ed']> (entries data))).
Proof.
  intros Hf Himp Ht. unfold timely in *; simpl.
  destruct (find_entry_Some _ _ _ _ Hf) as [Hi _].
  apply Forall_insert; [exact Ht|]. apply Himp.
  eapply Forall_lookup_1; eauto.
Qed.

Lemma Forall_imap_any {A B : Type} (P : B -> Prop) (f : nat -> A -> B)
    (l : list A) :
  (forall k x, P (f k x)) -> Forall P (imap f l).
Proof.
  revert f; induction l as [|x l IH]; intros f Hf; simpl; constructor.
  - apply Hf.
  - apply IH. intros k y. apply Hf.
Qed.

Lemma timely_step t o data :
  timely t data ->
  match op_clock o with
  | Some now => t <= now -> timely now (step o data)
  | None => timely t (step o data)
  end.
Proof.
  intros Ht. destruct o; simpl.
  - intros Hle. unfold timely; simpl. apply Forall_app. split.
    + apply (timely_later t now data Hle Ht).
    + repeat constructor; simpl; [intros s E; inversion E; lia|discriminate].
  - intros Hle. apply (timely_later t now data Hle) in Ht. unfold end_work.
    destruct (find_entry work_id (entries data)) as [[i ed]|] eqn:Hf;
      [|exact Ht].
    destruct (start_time (entry ed)) as [t0|] eqn:Hs; [|exact Ht].
    simpl. eapply timely_insert; eauto.
    intros [H1 H2]. split; simpl; [exact H1|].
    intros d E. inversion E; subst d. unfold elapsed_minutes.
    specialize (H1 t0 Hs). apply Z.quot_pos; lia.
  - intros Hle. apply (timely_later t now data Hle) in Ht.
    unfold record_distraction.
    destruct (find_entry work_id (entries data)) as [[i ed]|] eqn:Hf;
      [|exact Ht].
    simpl. eapply timely_insert; eauto.
  - unfold link_time_to_knowledge.
    destruct (find_entry work_id (entries data)) as [[i ed]|] eqn:Hf;
      [|exact Ht].
    simpl. eapply timely_insert; eauto.
  - unfold link_time_to_people.
    destruct (find_entry work_id (entries data)) as [[i ed]|] eqn:Hf;
      [|exact Ht].
    simpl. eapply timely_insert; eauto.
  - unfold timely; simpl. apply Forall_app. split; [exact Ht|].
    apply Forall_imap_any. intros k c. split; simpl; discriminate.
Qed.

Lemma timely_run ops t data :
  monotone_clock t ops -> timely t data ->
  exists t', timely t' (run ops data).
Proof.
  revert t data; induction ops as [|o ops IH]; intros t data Hm Ht; simpl.
  - exists t. exact Ht.
  - simpl in Hm. pose proof (timely_step t o data Ht) as Hstep.
    destruct (op_clock o) as [now|].
    + destruct Hm as [Hle Hm]. apply (IH now); [exact Hm|apply Hstep, Hle].
    + apply (IH t); assumption.
Qed.

(** Stores written under a clock that never runs backwards hold no
    negative duration. *)
Lemma monotone_clock_nonneg_durations ops t :
  monotone_clock t ops -> nonneg_durations (run ops empty_data).
Proof.
  intros Hm.
  destruct (timely_run ops t empty_data Hm) as [t' Ht']; [constructor|].
  unfold nonneg_durations. eapply Forall_impl; [exact Ht'|].
  intros ed [_ Hd]. exact Hd.
Qed.

(** ** Duration of a closed entry (C1) *)

(** C1, refuted as stated: work started at instant 0 and ended 100 seconds
    later is stored with 1 minute, while the rounded 1.67 minutes are 2. *)
Lemma end_work_not_rounded :
  let data1 := snd (start_work 0 "w" "task" "general" [] [] empty_data) in
  exists e data2,
    end_work 100000000 "w" "" None data1 = (Ok (Some e), data2)
    /\ get_time_entry "w" data2 = Some e
    /\ duration_minutes e = Some 1
    /\ rounded_minutes 0 100000000 = 2.
Proof.
  simpl. eexists _, _. repeat split; reflexivity.
Qed.

(** C1, amended: an entry created by [start_work] at [t0] under an unused
    identifier and closed by [end_work] at [t1], whatever public operations
    ran in between, is returned and stored with the elapsed minutes
    truncated toward zero, [int(seconds / 60)]; for [t0 <= t1] that is the
    number of whole minutes elapsed. *)
Theorem end_work_duration_truncated
    t0 t1 work_id description wtype krefs prefs ops notes' pct data :
  find_entry work_id (entries data) = None ->
  let data1 := snd (start_work t0 work_id description wtype krefs prefs data) in
  let data2 := run ops data1 in
  exists e,
    fst (end_work t1 work_id notes' pct data2) = Ok (Some e)
    /\ get_time_entry work_id (snd (end_work t1 work_id notes' pct data2))
       = Some e
    /\ duration_minutes e = Some (Z.quot (t1 - t0) 60000000)
    /\ end_time e = Some t1
    /\ (t0 <= t1 ->
        forall m, duration_minutes e = Some m ->
        60000000 * m <= t1 - t0 < 60000000 * (m + 1)).
Proof.
  intros Hfresh data1 data2.
  assert (Ha : anchored work_id t0 data2).
  { apply anchored_run, anchored_start_work, Hfresh. }
  destruct Ha as (i & ed & Hf & Hs & He).
  destruct (find_entry_Some _ _ _ _ Hf) as [Hi Hid].
  unfold end_work, get_time_entry. rewrite Hf, Hs. simpl.
  rewrite (find_entry_insert _ _ _ ed) by (simpl; auto).
  rewrite Hf, Nat.eqb_refl. unfold unfiltered; simpl. rewrite He; simpl.
  eexists; split; [reflexivity|]. split; [reflexivity|].
  split; [reflexivity|]. split; [reflexivity|]. simpl.
  intros Hle m Hm. inversion Hm; subst m. unfold elapsed_minutes.
  pose proof (Z.quot_rem' (t1 - t0) 60000000) as Hq.
  pose proof (Z.rem_bound_pos (t1 - t0) 60000000 ltac:(lia) ltac:(lia)).
  lia.
Qed.

(** The theorem at work: started at 0, a distraction recorded, ended after
    100 seconds. *)
Lemma end_work_duration_truncated_witness :
  exists e,
    fst (end_work 100000000 "w" "" None
           (run [RecordDistraction 5 "w" "email" 1 ""]
              (snd (start_work 0 "w" "task" "general" [] [] empty_data))))
    = Ok (Some e)
    /\ duration_minutes e = Some 1.
Proof.
  destruct (end_work_duration_truncated 0 100000000 "w" "task" "general"
              [] [] [RecordDistraction 5 "w" "email" 1 ""] "" None empty_data
              eq_refl) as (e & H1 & _ & H3 & _).
  exists e. split; [exact H1 | exact H3].
Defined.

(** ** Sums *)

Lemma fold_left_Zadd l a : fold_left Z.add l a = a + sumZ l.
Proof.
  unfold sumZ. revert a; induction l as [|x l IH]; intros a; simpl; [lia|].
  rewrite (IH (a + x)), (IH (0 + x)). lia.
Qed.

Lemma sumZ_cons x l : sumZ (x :: l) = x + sumZ l.
Proof. unfold sumZ at 1; simpl. apply fold_left_Zadd. Qed.

Lemma sumZ_app l l' : sumZ (l ++ l') = sumZ l + sumZ l'.
Proof.
  induction l as [|x l IH]; simpl; [reflexivity|].
  rewrite !sumZ_cons, IH. lia.
Qed.

Lemma fold_left_Rplus l a : fold_left Rplus l a = (a + sumR l)%R.
Proof.
  unfold sumR. revert a; induction l as [|x l IH]; intros a; simpl; [lra|].
  rewrite (IH (a + x)%R), (IH (0 + x)%R). lra.
Qed.

Lemma sumR_cons x l : sumR (x :: l) = (x + sumR l)%R.
Proof. unfold sumR at 1; simpl. rewrite fold_left_Rplus. lra. Qed.

Lemma sumZ_nonneg l : Forall (fun d => 0 <= d) l -> 0 <= sumZ l.
Proof.
  induction 1 as [|x l Hx _ IH]; [reflexivity|]. rewrite sumZ_cons. lia.
Qed.

Lemma lenR_pos {A : Type} (x : A) (l : list A) : (0 < lenR (x :: l))%R.
Proof. unfold lenR. apply IZR_lt. simpl. lia. Qed.

(** ** Population statistics (C5) *)

Lemma durations_of_completed l :
  durations_of (filter (fun e : TimeEntry => is_Some (duration_minutes e)) l)
  = durations_of l.
Proof.
  induction l as [|e l IH]; [reflexivity|].
  rewrite filter_cons. destruct (decide (is_Some (duration_minutes e))) as [H|H].
  - change (durations_of (e :: ?t))
      with (from_option (fun d => d :: durations_of t) (durations_of t)
              (duration_minutes e)).
    rewrite IH. reflexivity.
  - rewrite IH. unfold durations_of; simpl.
    destruct (duration_minutes e) eqn:E; [|reflexivity].
    exfalso; apply H; eauto.
Qed.

Lemma calculate_statistics_durations l :
  calculate_statistics l =
  match durations_of l with
  | [] => (0%R, 0%R)
  | d :: ds =>
      let mean := (IZR (sumZ (d :: ds)) / lenR (d :: ds))%R in
      (mean,
       if Nat.eqb (length (d :: ds)) 1 then 0%R
       else (sumR (map (fun x => (IZR x - mean) ^ 2) (d :: ds))
             / lenR (d :: ds))%R)
  end.
Proof.
  destruct l as [|e l]; [reflexivity|].
  unfold calculate_statistics. destruct (durations_of (e :: l)); reflexivity.
Qed.

(** C5: [calculate_statistics] is the population mean and the population
    variance (divisor N) of the non-null durations: (0, 0) on the empty
    list, (d, 0) on a single entry of duration d, mean 20 and variance
    200/3 (not the sample variance 100) on durations 10, 20, 30; entries
    without a duration do not count. *)
Theorem calculate_statistics_population :
  calculate_statistics [] = (0%R, 0%R)
  /\ (forall e d, duration_minutes e = Some d ->
      calculate_statistics [e] = (IZR d, 0%R))
  /\ (forall e1 e2 e3,
      duration_minutes e1 = Some 10 ->
      duration_minutes e2 = Some 20 ->
      duration_minutes e3 = Some 30 ->
      calculate_statistics [e1; e2; e3] = (20%R, (200 / 3)%R)
      /\ snd (calculate_statistics [e1; e2; e3]) <> 100%R)
  /\ (forall l,
      calculate_statistics l =
      calculate_statistics
        (filter (fun e : TimeEntry => is_Some (duration_minutes e)) l))
  /\ (forall l, durations_of l = [] -> calculate_statistics l = (0%R, 0%R))
  /\ (forall l, durations_of l <> [] ->
      let n := lenR (durations_of l) in
      let mean := (IZR (sumZ (durations_of l)) / n)%R in
      calculate_statistics l =
      (mean,
       (sumR (map (fun d => (IZR d - mean) ^ 2) (durations_of l)) / n)%R)).
Proof.
  split; [reflexivity|].
  split.
  { intros e d H. rewrite calculate_statistics_durations.
    unfold durations_of; simpl. rewrite H; simpl.
    eval_sums. f_equal. field. }
  assert (H3 : forall e1 e2 e3,
             duration_minutes e1 = Some 10 ->
             duration_minutes e2 = Some 20 ->
             duration_minutes e3 = Some 30 ->
             calculate_statistics [e1; e2; e3] = (20%R, (200 / 3)%R)).
  { intros e1 e2 e3 H1 H2 H3. rewrite calculate_statistics_durations.
    unfold durations_of; simpl. rewrite H1, H2, H3; simpl.
    eval_sums. replace (60 / 3)%R with 20%R by field. f_equal. field. }
  split.
  { intros e1 e2 e3 H1 H2 H3'. split; [auto|].
    rewrite (H3 e1 e2 e3) by assumption. simpl. lra. }
  split.
  { intros l. rewrite !calculate_statistics_durations.
    rewrite durations_of_completed. reflexivity. }
  split.
  { intros l H. rewrite calculate_statistics_durations, H. reflexivity. }
  intros l H n mean. rewrite calculate_statistics_durations.
  subst n mean. destruct (durations_of l) as [|d ds]; [congruence|].
  cbv zeta. f_equal.
  destruct ds as [|d' ds]; [|reflexivity].
  simpl. eval_sums. field.
Qed.

Lemma calculate_statistics_population_witness :
  calculate_statistics [sample_entry "a" 10] = (10%R, 0%R)
  /\ calculate_statistics sample_entries = (20%R, (200 / 3)%R)
  /\ fst (calculate_statistics sample_entries)
     = (IZR (sumZ (durations_of sample_entries))
        / lenR (durations_of sample_entries))%R.
Proof.
  destruct calculate_statistics_population as (_ & H1 & H3 & _ & _ & Hn).
  split; [apply (H1 (sample_entry "a" 10) 10); reflexivity|].
  split.
  - apply (H3 (sample_entry "a" 10) (sample_entry "b" 20)
             (sample_entry "c" 30)); reflexivity.
  - rewrite (Hn sample_entries); [reflexivity|].
    simpl. discriminate.
Defined.

(** ** Similar work (C7) *)

Lemma overlap_spec a b :
  overlap a b = true <-> exists k, k ∈ a /\ k ∈ b.
Proof.
  unfold overlap. rewrite bool_decide_eq_true. split.
  - intros H. apply set_choose_L in H. destruct H as [k Hk].
    exists k. set_solver.
  - intros (k & Ha & Hb). set_solver.
Qed.

Lemma similar_step_candidate wtype krefs acc ed :
  similar_step wtype krefs acc ed =
  if decide (candidate wtype krefs ed) then acc ++ [filtered ed] else acc.
Proof.
  unfold similar_step.
  destruct (decide (candidate wtype krefs ed)) as [(Hd & Hw & Hk)|Hc].
  - destruct Hd as [d Hd]. rewrite Hd.
    apply String.eqb_eq in Hw. rewrite Hw; simpl.
    destruct krefs as [|k krefs]; [reflexivity|].
    destruct Hk as [Hk|Hk]; [discriminate|].
    unfold overlap. rewrite bool_decide_eq_true_2 by exact Hk. reflexivity.
  - destruct (duration_minutes (entry ed)) as [d|] eqn:Ed; [|reflexivity].
    destruct (String.eqb (work_type (entry ed)) wtype) eqn:Ew;
      simpl; [|reflexivity].
    apply String.eqb_eq in Ew.
    assert (Hs : is_Some (duration_minutes (entry ed))) by (rewrite Ed; eauto).
    destruct krefs as [|k krefs].
    { exfalso; apply Hc. repeat split; auto. }
    destruct (overlap (knowledge_refs (entry ed)) (k :: krefs)) eqn:Eo;
      simpl; [|reflexivity].
    exfalso; apply Hc. repeat split; auto. right.
    unfold overlap in Eo. apply bool_decide_eq_true in Eo. exact Eo.
Qed.

Lemma find_similar_work_fold wtype krefs l acc :
  fold_left (similar_step wtype krefs) l acc =
  acc ++ map filtered (filter (candidate wtype krefs) l).
Proof.
  revert acc; induction l as [|ed l IH]; intros acc; simpl.
  - rewrite app_nil_r. reflexivity.
  - rewrite IH, similar_step_candidate, filter_cons.
    destruct (decide (candidate wtype krefs ed)); [|reflexivity].
    simpl. rewrite <- app_assoc. reflexivity.
Qed.

(** C7: [find_similar_work] ignores the description.  Two calls that
    differ in the description only return the same list, which is the
    completed entries of that exact work type, in stored order, restricted
    to those sharing a knowledge reference with the query when the query
    has any. *)
Theorem find_similar_work_description_blind
    (description1 description2 wtype : string) (krefs : list string)
    (data : TimeData) :
  find_similar_work description1 wtype krefs data
  = find_similar_work description2 wtype krefs data
  /\ find_similar_work description1 wtype krefs data
     = map filtered (filter (candidate wtype krefs) (entries data))
  /\ (forall ed,
      candidate wtype krefs ed <->
      duration_minutes (entry ed) <> None
      /\ work_type (entry ed) = wtype
      /\ (krefs = []
          \/ exists k, k ∈ knowledge_refs (entry ed) /\ k ∈ krefs)).
Proof.
  split; [reflexivity|]. split.
  - unfold find_similar_work. rewrite find_similar_work_fold. reflexivity.
  - intros ed. unfold candidate.
    rewrite <- not_eq_None_Some.
    assert (Ho : (list_to_set (knowledge_refs (entry ed)) : gset string)
                 ∩ list_to_set krefs ≠ ∅
                 <-> exists k, k ∈ knowledge_refs (entry ed) /\ k ∈ krefs).
    { rewrite <- overlap_spec. unfold overlap.
      rewrite bool_decide_eq_true. reflexivity. }
    rewrite Ho. reflexivity.
Qed.

(** ** Estimate ranges (C4) *)

Lemma max0_Rmax x : max0 x = Rmax 0 x.
Proof. unfold max0, Rmax. destruct (Rlt_dec 0 x), (Rle_dec 0 x); lra. Qed.

Lemma max0_nonneg x : (0 <= max0 x)%R.
Proof. unfold max0. destruct (Rlt_dec 0 x); lra. Qed.

Lemma estimate_from_clamped l :
  clamped (estimate_from l) /\ (0 <= min_estimate (estimate_from l))%R.
Proof.
  unfold estimate_from, clamped.
  destruct (calculate_statistics l) as [m v]; simpl.
  rewrite max0_Rmax. repeat split. rewrite <- max0_Rmax. apply max0_nonneg.
Qed.

Lemma generate_estimate_Some description wtype krefs data r :
  generate_estimate description wtype krefs data = Some r ->
  r = estimate_from (find_similar_work description wtype krefs data).
Proof.
  unfold generate_estimate.
  destruct (find_similar_work description wtype krefs data);
    [discriminate|congruence].
Qed.

Lemma scale_estimate_scaled base factor :
  clamped base -> scaled_from base (scale_estimate base factor) factor.
Proof.
  intros (Hmin & Hmax & _). unfold scaled_from, scale_estimate; simpl.
  rewrite Hmin, Hmax. repeat split.
Qed.

Lemma scaled_from_one base : clamped base -> scaled_from base base 1.
Proof.
  intros (Hmin & Hmax & Hc). unfold scaled_from.
  rewrite !Rmult_1_r. repeat split; assumption.
Qed.

Lemma adjustment_factor_pos total : (0 < adjustment_factor total)%R.
Proof.
  unfold adjustment_factor, experience_tier.
  destruct (total <? 120); [cbn [snd]; lra|].
  destruct (total <? 480); [cbn [snd]; lra|].
  destruct (total <? 1200); cbn [snd]; lra.
Qed.

Lemma sumZ_omap_nonneg (l : list EntryDict) :
  Forall (fun ed => forall d, duration_minutes (entry ed) = Some d -> 0 <= d) l ->
  0 <= sumZ (omap (fun ed => duration_minutes (entry ed)) l).
Proof.
  induction 1 as [|ed l Hx _ IH]; [reflexivity|]. simpl.
  destruct (duration_minutes (entry ed)) as [d|] eqn:E; [|exact IH].
  rewrite sumZ_cons. specialize (Hx d eq_refl).
  change (0 <= d + sumZ (omap (fun x => duration_minutes (entry x)) l)). lia.
Qed.

Lemma average_duration_nonneg (l : list EntryDict) :
  Forall (fun ed => forall d, duration_minutes (entry ed) = Some d -> 0 <= d) l ->
  (0 <= average_duration l)%R.
Proof.
  intros H. unfold average_duration. destruct l as [|ed l]; [lra|].
  apply Rmult_le_pos.
  - apply IZR_le, sumZ_omap_nonneg, H.
  - left. apply Rinv_0_lt_compat, lenR_pos.
Qed.

Lemma Forall_filter_keep {A : Type} (P Q : A -> Prop)
    `{!forall x, Decision (Q x)} (l : list A) :
  Forall P l -> Forall P (filter Q l).
Proof.
  rewrite !Forall_forall. intros HP x Hx.
  apply HP. apply list_elem_of_filter in Hx. tauto.
Qed.

Lemma distraction_factor_nonneg wtype data :
  nonneg_durations data ->
  (0 <= 1 + average_distraction_overhead_percentage
            (calculate_distraction_impact (Some wtype) data) / 100)%R.
Proof.
  intros H. unfold calculate_distraction_impact; simpl.
  match goal with
  | |- context [Rlt_dec 0 (average_duration ?l)] =>
      destruct (Rlt_dec 0 (average_duration l)) as [Hpos|Hneg]; [|lra];
      set (without := average_duration l) in *
  end.
  match goal with
  | |- context [(average_duration ?l - without)%R] =>
      assert (Hw : (0 <= average_duration l)%R)
        by (apply average_duration_nonneg; do 3 apply Forall_filter_keep;
            exact H);
      set (with_d := average_duration l) in *
  end.
  replace (1 + (with_d - without) / without * 100 / 100)%R
    with (with_d * / without)%R by (field; lra).
  apply Rmult_le_pos; [exact Hw|]. left. apply Rinv_0_lt_compat, Hpos.
Qed.

Lemma total_minutes_investment k data :
  total_minutes (get_knowledge_time_investment k data)
  = sumZ (durations_of (get_entries_by_knowledge k data)).
Proof.
  unfold get_knowledge_time_investment.
  rewrite <- (durations_of_completed (get_entries_by_knowledge k data)).
  destruct (filter _ (get_entries_by_knowledge k data)); reflexivity.
Qed.

Lemma generate_estimate_nonempty description wtype krefs data :
  find_similar_work description wtype krefs data <> [] ->
  generate_estimate description wtype krefs data
  = Some (estimate_from (find_similar_work description wtype krefs data)).
Proof.
  unfold generate_estimate.
  destruct (find_similar_work description wtype krefs data);
    [congruence|reflexivity].
Qed.

Lemma estimate_from_statistics l m v :
  calculate_statistics l = (m, v) ->
  estimate_from l
  = mkEstimateResult m v (sqrt v) (max0 (m - sqrt v)) (m + sqrt v)
      (max0 (m - sqrt v), (m + sqrt v)%R) (length l) (map id l).
Proof. intros H. unfold estimate_from. rewrite H. reflexivity. Qed.

Lemma sqrt_100 : sqrt 100 = 10%R.
Proof.
  replace 100%R with (10 * 10)%R by lra. apply sqrt_square. lra.
Qed.

Lemma history_10_30_base :
  generate_estimate "estimate" "technical" ["K"%string] history_10_30
  = Some base_10_30.
Proof.
  set (l := find_similar_work "estimate" "technical" ["K"%string]
              history_10_30).
  assert (Hd : durations_of l = [10; 30]) by (vm_compute; reflexivity).
  assert (Hlen : length l = 2%nat) by (vm_compute; reflexivity).
  assert (Hids : map id l = ["a"; "b"]%string) by (vm_compute; reflexivity).
  assert (Hs : calculate_statistics l = (20%R, 100%R)).
  { rewrite calculate_statistics_durations, Hd. cbv zeta. eval_sums.
    cbn [Nat.eqb length]. replace (40 / 2)%R with 20%R by field.
    f_equal. field. }
  rewrite generate_estimate_nonempty
    by (fold l; intros E; rewrite E in Hlen; discriminate).
  fold l. rewrite (estimate_from_statistics l _ _ Hs), Hlen, Hids, sqrt_100.
  replace (max0 (20 - 10)) with 10%R
    by (rewrite max0_Rmax; unfold Rmax; destruct (Rle_dec 0 (20 - 10)); lra).
  replace (20 + 10)%R with 30%R by lra.
  reflexivity.
Qed.

(** C4, refuted as stated: with 10 and 30 minutes of history on area K
    (mean 20, standard deviation 10) the experience-adjusted estimate is
    the novice one, mean 24 and range 12 to 36 with the standard deviation
    still 10; the specified range would be 14 to 34. *)
Lemma adjusted_estimate_not_clamped :
  exists r,
    generate_experience_adjusted_estimate "estimate" "technical"
      ["K"%string] history_10_30 = Some r
    /\ mean_minutes r = 24%R /\ std_dev r = 10%R
    /\ min_estimate r = 12%R /\ max_estimate r = 36%R
    /\ min_estimate r <> Rmax 0 (mean_minutes r - std_dev r)
    /\ max_estimate r <> (mean_minutes r + std_dev r)%R
    /\ ~ clamped r.
Proof.
  unfold generate_experience_adjusted_estimate.
  rewrite history_10_30_base.
  assert (Ht : total_experience_minutes ["K"%string] history_10_30 = 40).
  { unfold total_experience_minutes; cbn [fold_left].
    rewrite total_minutes_investment. vm_compute. reflexivity. }
  rewrite Ht. eexists; split; [reflexivity|].
  unfold scale_estimate, adjustment_factor; cbn.
  assert (Hmax : Rmax 0 (20 * 1.2 - 10) = 14%R).
  { unfold Rmax. destruct (Rle_dec 0 (20 * 1.2 - 10)); lra. }
  split; [lra|]. split; [lra|]. split; [lra|]. split; [lra|].
  split; [rewrite Hmax; lra|]. split; [lra|].
  intros (Hmin & _). cbn in Hmin. rewrite Hmax in Hmin. lra.
Qed.

Lemma scaled_min_nonneg base r factor :
  scaled_from base r factor -> (0 <= factor)%R -> (0 <= min_estimate r)%R.
Proof.
  intros (_ & Hmin & _) Hf. rewrite Hmin.
  apply Rmult_le_pos; [apply Rmax_l | exact Hf].
Qed.

(** C4, amended.  Every returned estimate has [confidence_range =
    (min_estimate, max_estimate)].  The estimates of [generate_estimate]
    and of [generate_collaboration_adjusted_estimate] satisfy
    [min_estimate = max(0, mean_minutes - std_dev)] and [max_estimate =
    mean_minutes + std_dev], so their minimum is never negative.  The
    experience-adjusted and distraction-adjusted estimates keep the
    variance and standard deviation of the base estimate and multiply its
    mean, minimum and maximum by the adjustment factor: [min_estimate =
    factor * max(0, base mean - std_dev)] and [max_estimate = factor *
    (base mean + std_dev)].  The experience factor is positive, so that
    minimum is never negative; the distraction factor [1 + overhead / 100]
    is non-negative, and the minimum with it, when no stored duration is
    negative. *)
Theorem estimate_ranges (description wtype : string)
    (krefs prefs : list string) (data : TimeData) (r : EstimateResult) :
  (generate_estimate description wtype krefs data = Some r ->
   clamped r /\ (0 <= min_estimate r)%R)
  /\ (generate_collaboration_adjusted_estimate description wtype prefs krefs
        data = Ok (Some r) ->
      clamped r /\ (0 <= min_estimate r)%R)
  /\ (generate_experience_adjusted_estimate description wtype krefs data
      = Some r ->
      exists base,
        generate_estimate description wtype krefs data = Some base
        /\ scaled_from base r (experience_factor krefs data)
        /\ (0 < experience_factor krefs data)%R
        /\ (0 <= min_estimate r)%R)
  /\ (generate_estimate_with_distraction_overhead description wtype krefs
        data = Some r ->
      exists base,
        generate_estimate description wtype krefs data = Some base
        /\ scaled_from base r (distraction_factor wtype data)
        /\ (nonneg_durations data ->
            (0 <= distraction_factor wtype data)%R
            /\ (0 <= min_estimate r)%R)).
Proof.
  assert (Hbase : forall b,
             generate_estimate description wtype krefs data = Some b ->
             clamped b /\ (0 <= min_estimate b)%R).
  { intros b Hb. rewrite (generate_estimate_Some _ _ _ _ _ Hb).
    apply estimate_from_clamped. }
  split; [apply Hbase|]. split; [|split].
  - unfold generate_collaboration_adjusted_estimate.
    destruct (generate_estimate description wtype krefs data) as [b|] eqn:Eb;
      [|discriminate].
    destruct prefs as [|p prefs].
    { intros H; inversion H; subst; auto. }
    destruct (similar_collaborative_work wtype (p :: prefs) data) as [|c l].
    { intros H; inversion H; subst; auto. }
    destruct (Rlt_dec 0 (fst (calculate_statistics (c :: l)))).
    + destruct (Req_dec_T (mean_minutes b) 0); [discriminate|].
      intros H; inversion H; subst. apply estimate_from_clamped.
    + intros H; inversion H; subst; auto.
  - unfold generate_experience_adjusted_estimate, experience_factor.
    destruct (generate_estimate description wtype krefs data) as [b|] eqn:Eb;
      [|discriminate].
    destruct (Hbase b eq_refl) as [Hc Hn].
    destruct krefs as [|k krefs]; intros H; injection H as Hr; subst r;
      exists b; split; try reflexivity.
    + split; [apply scaled_from_one, Hc|]. split; [lra|exact Hn].
    + pose proof (adjustment_factor_pos
                    (total_experience_minutes (k :: krefs) data)) as Hf.
      split; [apply scale_estimate_scaled, Hc|]. split; [exact Hf|].
      eapply scaled_min_nonneg; [apply scale_estimate_scaled, Hc|lra].
  - unfold generate_estimate_with_distraction_overhead, distraction_factor.
    destruct (generate_estimate description wtype krefs data) as [b|] eqn:Eb;
      [|discriminate].
    destruct (Hbase b eq_refl) as [Hc Hn].
    destruct (Nat.ltb 0 _); intros H; injection H as Hr; subst r;
      exists b; split; try reflexivity.
    + split; [apply scale_estimate_scaled, Hc|]. intros Hd.
      pose proof (distraction_factor_nonneg wtype data Hd) as Hf.
      split; [exact Hf|].
      eapply scaled_min_nonneg; [apply scale_estimate_scaled, Hc|exact Hf].
    + split; [apply scaled_from_one, Hc|]. intros _. split; [lra|exact Hn].
Qed.

Lemma history_10_30_nonneg : nonneg_durations history_10_30.
Proof.
  apply (monotone_clock_nonneg_durations _ 0). simpl. lia.
Qed.

(** The theorem at work on the store of the counterexample. *)
Lemma estimate_ranges_witness :
  exists r base,
    generate_estimate_with_distraction_overhead "estimate" "technical"
      ["K"%string] history_10_30 = Some r
    /\ generate_estimate "estimate" "technical" ["K"%string] history_10_30
       = Some base
    /\ clamped base
    /\ scaled_from base r (distraction_factor "technical" history_10_30)
    /\ (0 <= min_estimate r)%R.
Proof.
  assert (Hr : generate_estimate_with_distraction_overhead "estimate"
                 "technical" ["K"%string] history_10_30
               = generate_estimate "estimate" "technical" ["K"%string]
                   history_10_30).
  { unfold generate_estimate_with_distraction_overhead.
    rewrite history_10_30_base. reflexivity. }
  rewrite history_10_30_base in Hr.
  pose proof (estimate_ranges "estimate" "technical" ["K"%string] []
                history_10_30 base_10_30) as (H1 & _ & _ & H4).
  destruct (H4 Hr) as (base & Hb & Hs & Hd).
  destruct (Hd history_10_30_nonneg) as [_ Hmin].
  rewrite history_10_30_base in Hb. inversion Hb; subst base.
  eexists _, _. split; [exact Hr|]. split; [apply history_10_30_base|].
  split; [apply H1, history_10_30_base|]. split; [exact Hs|exact Hmin].
Defined.

(** ** Experience tiers (C6) *)

Lemma experience_tier_cases total :
  (total < 120 /\ experience_tier total = ("novice"%string, 1.2%R))
  \/ (120 <= total < 480
      /\ experience_tier total = ("intermediate"%string, 1.0%R))
  \/ (480 <= total < 1200
      /\ experience_tier total = ("experienced"%string, 0.85%R))
  \/ (1200 <= total /\ experience_tier total = ("expert"%string, 0.7%R)).
Proof.
  unfold experience_tier.
  destruct (Z.ltb_spec total 120); [left; split; [lia|reflexivity]|].
  destruct (Z.ltb_spec total 480); [right; left; split; [lia|reflexivity]|].
  destruct (Z.ltb_spec total 1200);
    [right; right; left; split; [lia|reflexivity]|].
  right; right; right. split; [lia|reflexivity].
Qed.

(** C6: the experience multiplier is a total, non-increasing step function
    of the accumulated minutes with steps at 120, 480 and 1200; at 0, 119,
    120, 479, 480, 1199, 1200 and 5000 minutes it is 1.2, 1.2, 1.0, 1.0,
    0.85, 0.85, 0.7 and 0.7 (novice, intermediate, experienced, expert);
    and the adjusted estimate is the base mean, minimum and maximum times
    that multiplier. *)
Theorem experience_tiers :
  map adjustment_factor [0; 119; 120; 479; 480; 1199; 1200; 5000]
  = [1.2; 1.2; 1.0; 1.0; 0.85; 0.85; 0.7; 0.7]%R
  /\ map experience_level [0; 119; 120; 479; 480; 1199; 1200; 5000]
     = ["novice"; "novice"; "intermediate"; "intermediate";
        "experienced"; "experienced"; "expert"; "expert"]%string
  /\ (forall total,
      (total < 120 /\ experience_tier total = ("novice"%string, 1.2%R))
      \/ (120 <= total < 480
          /\ experience_tier total = ("intermediate"%string, 1.0%R))
      \/ (480 <= total < 1200
          /\ experience_tier total = ("experienced"%string, 0.85%R))
      \/ (1200 <= total /\ experience_tier total = ("expert"%string, 0.7%R)))
  /\ (forall a b, a <= b -> (adjustment_factor b <= adjustment_factor a)%R)
  /\ (forall description wtype k krefs data base,
      generate_estimate description wtype (k :: krefs) data = Some base ->
      exists r,
        generate_experience_adjusted_estimate description wtype (k :: krefs)
          data = Some r
        /\ let factor :=
             adjustment_factor (total_experience_minutes (k :: krefs) data) in
           mean_minutes r = (mean_minutes base * factor)%R
           /\ min_estimate r = (min_estimate base * factor)%R
           /\ max_estimate r = (max_estimate base * factor)%R).
Proof.
  split; [reflexivity|]. split; [reflexivity|].
  split; [apply experience_tier_cases|]. split.
  - intros a b Hab. unfold adjustment_factor.
    destruct (experience_tier_cases a) as [[Ha ->]|[[Ha ->]|[[Ha ->]|[Ha ->]]]];
      destruct (experience_tier_cases b)
        as [[Hb ->]|[[Hb ->]|[[Hb ->]|[Hb ->]]]];
      cbn [snd]; try lra; lia.
  - intros description wtype k krefs data base Hb.
    unfold generate_experience_adjusted_estimate. rewrite Hb.
    eexists; split; [reflexivity|]. cbv zeta. repeat split.
Qed.

Lemma experience_tiers_witness :
  exists r,
    generate_experience_adjusted_estimate "estimate" "technical"
      ["K"%string] history_10_30 = Some r
    /\ mean_minutes r
       = (20 * adjustment_factor
                 (total_experience_minutes ["K"%string] history_10_30))%R
    /\ (adjustment_factor 5000 <= adjustment_factor 0)%R.
Proof.
  destruct experience_tiers as (_ & _ & _ & Hmono & Happly).
  destruct (Happly "estimate" "technical" "K" [] history_10_30 base_10_30
              history_10_30_base) as (r & Hr & Hmean & _).
  exists r. split; [exact Hr|]. split; [exact Hmean|].
  apply Hmono. lia.
Defined.

(** ** Distraction impact (C8) *)

Lemma completed_true ed :
  completed ed = true <-> duration_minutes (entry ed) <> None.
Proof.
  unfold completed. destruct (duration_minutes (entry ed)); split;
    congruence.
Qed.

Lemma has_distractions_flag ed flag :
  has_distractions ed = flag <-> (distractions (entry ed) <> [] <-> flag = true).
Proof.
  unfold has_distractions.
  destruct (distractions (entry ed)) as [|d l]; destruct flag;
    intuition congruence.
Qed.

Lemma distraction_split wtype flag data :
  filter (fun ed => has_distractions ed = flag)
    (match wtype with
     | None => filter (fun ed => completed ed = true) (entries data)
     | Some w =>
         filter (fun ed => String.eqb (work_type (entry ed)) w = true)
           (filter (fun ed => completed ed = true) (entries data))
     end)
  = filter (distracted wtype flag) (entries data).
Proof.
  destruct wtype as [w|]; rewrite !list_filter_filter;
    apply list_filter_iff; intros ed; unfold distracted;
    rewrite has_distractions_flag, completed_true, ?String.eqb_eq; tauto.
Qed.

Lemma calculate_distraction_impact_lists wtype data :
  let with_d := filter (distracted wtype true) (entries data) in
  let without_d := filter (distracted wtype false) (entries data) in
  let impact := calculate_distraction_impact wtype data in
  average_duration_with_distractions impact = average_duration with_d
  /\ average_duration_without_distractions impact = average_duration without_d
  /\ entries_with_distractions impact = length with_d
  /\ entries_without_distractions impact = length without_d
  /\ total_distraction_time impact
     = sumZ (flat_map
               (fun ed => map d_duration_minutes (distractions (entry ed)))
               with_d).
Proof.
  cbv zeta. unfold calculate_distraction_impact. cbv zeta.
  rewrite !distraction_split. repeat split.
Qed.

Lemma average_duration_value l total n :
  sumZ (omap (fun ed => duration_minutes (entry ed)) l) = total ->
  length l = S n ->
  average_duration l = (IZR total / IZR (Z.of_nat (S n)))%R.
Proof.
  intros Ht Hn. unfold average_duration, lenR. rewrite Ht, Hn.
  destruct l; [discriminate|reflexivity].
Qed.

(** C8: [calculate_distraction_impact] averages the durations of the
    completed entries of the work type that have a distraction and of
    those that have none, and reports the overhead [(avg_with -
    avg_without) / avg_without * 100] (0 when there is no positive average
    to divide by); in the scenario the averages are 60 and 40 and the
    overhead is 50 percent. *)
Theorem distraction_impact_overhead :
  (forall wtype data,
     let with_d := filter (distracted (Some wtype) true) (entries data) in
     let without_d := filter (distracted (Some wtype) false) (entries data) in
     let impact := calculate_distraction_impact (Some wtype) data in
     let avg_with := average_duration_with_distractions impact in
     let avg_without := average_duration_without_distractions impact in
     avg_with = average_duration with_d
     /\ avg_without = average_duration without_d
     /\ average_distraction_overhead_minutes impact
        = (avg_with - avg_without)%R
     /\ ((0 < avg_without)%R ->
         average_distraction_overhead_percentage impact
         = ((avg_with - avg_without) / avg_without * 100)%R)
     /\ ((avg_without <= 0)%R ->
         average_distraction_overhead_percentage impact = 0%R))
  /\ (let impact :=
        calculate_distraction_impact (Some "technical"%string)
          distraction_scenario in
      average_duration_with_distractions impact = 60%R
      /\ average_duration_without_distractions impact = 40%R
      /\ average_distraction_overhead_percentage impact = 50%R
      /\ average_distraction_overhead_minutes impact = 20%R
      /\ total_distraction_time impact = 15
      /\ entries_with_distractions impact = 1%nat
      /\ entries_without_distractions impact = 1%nat).
Proof.
  split.
  - intros wtype data. cbv zeta.
    destruct (calculate_distraction_impact_lists (Some wtype) data)
      as (Hw & Hwo & _).
    split; [exact Hw|]. split; [exact Hwo|].
    unfold calculate_distraction_impact; cbn.
    split; [reflexivity|].
    destruct (Rlt_dec 0 _) as [Hp|Hn]; split; intros H; try reflexivity; lra.
  - cbv zeta.
    destruct (calculate_distraction_impact_lists (Some "technical"%string)
                distraction_scenario) as (Hw & Hwo & Hnw & Hnwo & Ht).
    cbv zeta in Hw, Hwo, Hnw, Hnwo, Ht.
    assert (Ew : average_duration_with_distractions
                   (calculate_distraction_impact (Some "technical"%string)
                      distraction_scenario) = 60%R).
    { rewrite Hw, (average_duration_value _ 60 0) by (vm_compute; reflexivity).
      simpl. field. }
    assert (Ewo : average_duration_without_distractions
                    (calculate_distraction_impact (Some "technical"%string)
                       distraction_scenario) = 40%R).
    { rewrite Hwo, (average_duration_value _ 40 0) by (vm_compute; reflexivity).
      simpl. field. }
    split; [exact Ew|]. split; [exact Ewo|].
    split; [|split; [|split; [|split]]].
    + change (average_distraction_overhead_percentage _)
        with (let i := calculate_distraction_impact (Some "technical"%string)
                         distraction_scenario in
              if Rlt_dec 0 (average_duration_without_distractions i)
              then ((average_duration_with_distractions i
                     - average_duration_without_distractions i)
                    / average_duration_without_distractions i * 100)%R
              else 0%R).
      cbv zeta. rewrite Ew, Ewo. destruct (Rlt_dec 0 40); [field|lra].
    + change (average_distraction_overhead_minutes _)
        with (let i := calculate_distraction_impact (Some "technical"%string)
                         distraction_scenario in
              (average_duration_with_distractions i
               - average_duration_without_distractions i)%R).
      cbv zeta. rewrite Ew, Ewo. lra.
    + rewrite Ht. vm_compute. reflexivity.
    + rewrite Hnw. vm_compute. reflexivity.
    + rewrite Hnwo. vm_compute. reflexivity.
Qed.

Lemma distraction_impact_overhead_witness :
  let impact :=
    calculate_distraction_impact (Some "technical"%string)
      distraction_scenario in
  (0 < average_duration_without_distractions impact)%R
  /\ average_distraction_overhead_percentage impact
     = ((average_duration_with_distractions impact
         - average_duration_without_distractions impact)
        / average_duration_without_distractions impact * 100)%R.
Proof.
  destruct distraction_impact_overhead as [Hg (_ & Ewo & _)].
  destruct (Hg "technical"%string distraction_scenario)
    as (_ & _ & _ & Hp & _).
  cbv zeta in *. split; [rewrite Ewo; lra|]. apply Hp. rewrite Ewo. lra.
Defined.

(** ** Trend classification (C9) *)






(** *** The table of periods *)

Lemma durations_sum_cons ed l :
  durations_sum (ed :: l)
  = match duration_minutes (entry ed) with
    | Some d => d + durations_sum l
    | None => durations_sum l
    end.
Proof.
  unfold durations_sum.
  change (omap ?f (ed :: l))
    with (match f ed with
          | Some y => y :: omap f l
          | None => omap f l
          end).
  destruct (duration_minutes (entry ed)); [apply sumZ_cons|reflexivity].
Qed.

Lemma add_minutes_keys k m l x :
  x ∈ map fst (add_minutes k m l) -> x = k \/ x ∈ map fst l.
Proof.
  induction l as [|[k0 v] l IH]; cbn [add_minutes].
  - simpl. intros H. apply elem_of_cons in H. destruct H as [H|H]; auto.
  - destruct (String.eqb_spec k0 k) as [->|Hne]; cbn [map fst].
    + auto.
    + intros H. apply elem_of_cons in H. destruct H as [->|H].
      * right; left.
      * destruct (IH H); [auto|right; right; assumption].
Qed.

Lemma add_minutes_NoDup k m l :
  NoDup (map fst l) -> NoDup (map fst (add_minutes k m l)).
Proof.
  induction l as [|[k0 v] l IH]; cbn [add_minutes].
  - intros _. apply NoDup_singleton.
  - cbn [map fst]. intros Hnd.
    apply NoDup_cons in Hnd. destruct Hnd as [Hk0 Hnd].
    destruct (String.eqb_spec k0 k) as [->|Hne].
    + cbn [map fst]. apply NoDup_cons; auto.
    + cbn [map fst]. apply NoDup_cons. split; [|auto].
      intros H. apply add_minutes_keys in H. destruct H; [congruence|auto].
Qed.





(** *** The order of the periods *)



Lemma insert_period_perm p l : insert_period p l ≡ₚ p :: l.
Proof.
  induction l as [|q l IH]; simpl; [reflexivity|].
  destruct (String.ltb _ _); [reflexivity|].
  rewrite IH. apply Permutation_swap.
Qed.

Lemma sort_periods_perm l : sort_periods l ≡ₚ l.
Proof.
  unfold sort_periods.
  assert (H : forall acc,
             fold_left (fun sorted p => insert_period p sorted) l acc
             ≡ₚ acc ++ l).
  { induction l as [|p l IH]; intros acc; simpl.
    - rewrite app_nil_r. reflexivity.
    - rewrite IH, insert_period_perm.
      rewrite (Permutation_middle acc l p). reflexivity. }
  apply (H []).
Qed.







(** ** Linking knowledge (C10) *)

Lemma link_time_to_knowledge_found listing work_id refs data i ed :
  find_entry work_id (entries data) = Some (i, ed) ->
  let ed' :=
    mkEntryDict
      (set_knowledge_refs (entry ed)
         (listing (list_to_set (knowledge_refs (entry ed))
                   ∪ list_to_set refs)))
      (extra ed) in
  link_time_to_knowledge listing work_id refs data
  = (true, mkTimeData (<[i := ed']> (entries data)) (breakdowns data))
  /\ find_entry work_id (<[i := ed']> (entries data)) = Some (i, ed').
Proof.
  intros Hf ed'. unfold link_time_to_knowledge. rewrite Hf.
  split; [reflexivity|].
  destruct (find_entry_Some _ _ _ _ Hf) as [Hi _].
  rewrite (find_entry_insert _ _ _ ed) by (auto; reflexivity).
  rewrite Hf, Nat.eqb_refl. reflexivity.
Qed.

(** C10: for a stored identifier [link_time_to_knowledge] returns true and
    replaces the knowledge references of the entry (the first one with the
    identifier) by a duplicate-free listing of the union of the old and the
    new references; the other fields of the entry, the other entries and
    the breakdowns are unchanged; a second call with the same references
    returns true and leaves the set of references as it is.  For an unknown
    identifier it returns false and the store is unchanged. *)
Theorem link_time_to_knowledge_union
    (listing listing' : set_listing) (work_id : string)
    (refs : list string) (data : TimeData) :
  lists_sets listing -> lists_sets listing' ->
  let data1 := snd (link_time_to_knowledge listing work_id refs data) in
  let data2 := snd (link_time_to_knowledge listing' work_id refs data1) in
  (find_entry work_id (entries data) = None ->
   link_time_to_knowledge listing work_id refs data = (false, data))
  /\ (forall i ed,
      find_entry work_id (entries data) = Some (i, ed) ->
      fst (link_time_to_knowledge listing work_id refs data) = true
      /\ breakdowns data1 = breakdowns data
      /\ length (entries data1) = length (entries data)
      /\ (forall j, j <> i -> entries data1 !! j = entries data !! j)
      /\ (exists ed',
          entries data1 !! i = Some ed'
          /\ find_entry work_id (entries data1) = Some (i, ed')
          /\ extra ed' = extra ed
          /\ same_but_knowledge (entry ed) (entry ed')
          /\ NoDup (knowledge_refs (entry ed'))
          /\ (list_to_set (knowledge_refs (entry ed')) : gset string)
             = list_to_set (knowledge_refs (entry ed)) ∪ list_to_set refs)
      /\ fst (link_time_to_knowledge listing' work_id refs data1) = true
      /\ knowledge_set work_id data2 = knowledge_set work_id data1
      /\ knowledge_set work_id data1
         = Some (list_to_set (knowledge_refs (entry ed)) ∪ list_to_set refs)).
Proof.
  intros Hl Hl' data1 data2. split.
  { intros Hn. unfold link_time_to_knowledge. rewrite Hn. reflexivity. }
  intros i ed Hf.
  destruct (link_time_to_knowledge_found listing work_id refs data i ed Hf)
    as [Hlink Hfind].
  destruct (find_entry_Some _ _ _ _ Hf) as [Hi _].
  assert (Hlt : (i < length (entries data))%nat)
    by (eapply lookup_lt_Some; eauto).
  set (new_refs := listing (list_to_set (knowledge_refs (entry ed))
                            ∪ list_to_set refs)) in *.
  set (ed' := mkEntryDict (set_knowledge_refs (entry ed) new_refs) (extra ed))
    in *.
  assert (Hset : (list_to_set new_refs : gset string)
                 = list_to_set (knowledge_refs (entry ed)) ∪ list_to_set refs)
    by apply Hl.
  assert (E1 : data1
               = mkTimeData (<[i := ed']> (entries data)) (breakdowns data))
    by (subst data1; rewrite Hlink; reflexivity).
  destruct (link_time_to_knowledge_found listing' work_id refs data1 i ed')
    as [Hlink2 Hfind2]; [rewrite E1; exact Hfind|].
  split; [rewrite Hlink; reflexivity|].
  split; [rewrite E1; reflexivity|].
  split; [rewrite E1; simpl; apply length_insert|].
  split; [intros j Hj; rewrite E1; simpl;
          apply list_lookup_insert_ne; congruence|].
  split.
  { exists ed'. rewrite E1; simpl.
    split; [apply list_lookup_insert_eq; exact Hlt|].
    split; [exact Hfind|]. split; [reflexivity|].
    split; [repeat split|]. split; [apply Hl|exact Hset]. }
  split; [rewrite Hlink2; reflexivity|].
  assert (K1 : knowledge_set work_id data1
               = Some (list_to_set (knowledge_refs (entry ed))
                       ∪ list_to_set refs)).
  { unfold knowledge_set. rewrite E1; simpl. rewrite Hfind. simpl.
    rewrite Hset. reflexivity. }
  split; [|exact K1]. rewrite K1.
  unfold knowledge_set. subst data2. rewrite Hlink2.
  cbn [snd entries]. rewrite Hfind2.
  cbn [entry knowledge_refs set_knowledge_refs ed'].
  destruct (Hl' (list_to_set new_refs ∪ list_to_set refs)) as [_ ->].
  rewrite Hset, <- (assoc_L (∪)), (idemp_L (∪)). reflexivity.
Qed.

Lemma elements_lists_sets : lists_sets elements.
Proof.
  intros X. split; [apply NoDup_elements|apply list_to_set_elements_L].
Qed.

Lemma link_time_to_knowledge_union_witness :
  fst (link_time_to_knowledge elements "a" ["K"; "L"]%string history_10_30)
  = true
  /\ knowledge_set "a"
       (snd (link_time_to_knowledge elements "a" ["K"; "L"]%string
               history_10_30))
     = Some {["K"%string; "L"%string]}
  /\ link_time_to_knowledge elements "z" ["K"; "L"]%string history_10_30
     = (false, history_10_30).
Proof.
  destruct (link_time_to_knowledge_union elements elements "a"
              ["K"; "L"]%string history_10_30 elements_lists_sets
              elements_lists_sets) as [_ Hs].
  destruct (link_time_to_knowledge_union elements elements "z"
              ["K"; "L"]%string history_10_30 elements_lists_sets
              elements_lists_sets) as [Hn _].
  destruct (find_entry "a" (entries history_10_30)) as [[i ed]|] eqn:Hf;
    [|vm_compute in Hf; discriminate].
  destruct (Hs i ed eq_refl) as (Ht & _ & _ & _ & _ & _ & _ & Hk).
  split; [exact Ht|]. split.
  - rewrite Hk. f_equal. vm_compute in Hf. inversion Hf; subst.
    simpl. set_solver.
  - apply Hn. vm_compute. reflexivity.
Defined.

(** ** Breakdown gating (C2) *)

Lemma any_hit_app l1 l2 text :
  any_hit (l1 ++ l2) text = any_hit l1 text || any_hit l2 text.
Proof. apply existsb_app. Qed.

Lemma append_phase_nil cond prefix chunk_type wtype chunk_wtype description
    krefs data l :
  append_phase cond prefix chunk_type wtype chunk_wtype description krefs
    data l = []
  <-> cond = false /\ l = [].
Proof.
  unfold append_phase. destruct cond.
  - split; [|intros [H _]; discriminate].
    intros H. apply app_eq_nil in H. destruct H; discriminate.
  - tauto.
Qed.

Lemma complexity_level_cases description :
  let c := analyze_complexity description in
  (complexity_level c = "low"%string /\ (complexity_score c < 3)%nat)
  \/ (complexity_level c = "medium"%string /\ (3 <= complexity_score c < 5)%nat)
  \/ (complexity_level c = "high"%string /\ (5 <= complexity_score c)%nat).
Proof.
  cbv zeta. unfold analyze_complexity. cbv zeta.
  match goal with
  | |- context [Nat.leb 5 ?s] =>
      destruct (Nat.leb_spec 5 s); [right; right; split; [reflexivity|assumption]|];
      destruct (Nat.leb_spec 3 s);
        [right; left; split; [reflexivity|simpl; lia]
        |left; split; [reflexivity|simpl; lia]]
  end.
Qed.

Lemma generate_chunks_nil description wtype krefs complexity data :
  generate_chunks_by_type description wtype krefs complexity data = []
  <-> wtype = "technical"%string
      /\ complexity_level complexity <> "high"%string
      /\ any_hit phase_keywords (lower description) = false.
Proof.
  unfold generate_chunks_by_type.
  destruct (String.eqb_spec wtype "technical") as [Ht|Ht].
  - rewrite !append_phase_nil. unfold phase_keywords.
    rewrite !any_hit_app.
    destruct (String.eqb_spec (complexity_level complexity) "high") as [Hh|Hh].
    + rewrite !orb_true_r. split; [intros [H _]; discriminate|tauto].
    + rewrite !orb_false_r.
      repeat match goal with
             | |- context [any_hit ?l ?t] => destruct (any_hit l t)
             end; simpl; split; intros; try tauto; intuition discriminate.
  - split; [|tauto].
    destruct (String.eqb wtype "writing"); [discriminate|].
    destruct (String.eqb wtype "meeting"); [discriminate|].
    destruct (String.eqb (complexity_level complexity) "high"); discriminate.
Qed.

Lemma suggest_breakdown_None now new_id description wtype krefs data :
  suggest_breakdown now new_id description wtype krefs data = None
  <-> complexity_level (analyze_complexity description) = "low"%string
      \/ generate_chunks_by_type description wtype krefs
           (analyze_complexity description) data = [].
Proof.
  unfold suggest_breakdown. cbv zeta.
  destruct (String.eqb_spec
              (complexity_level (analyze_complexity description)) "low")
    as [Hl|Hl]; [tauto|].
  destruct (generate_chunks_by_type description wtype krefs
              (analyze_complexity description) data);
    split; intros H; try tauto; try discriminate.
  destruct H; [contradiction|discriminate].
Qed.

(** C2, refuted as stated: the description scores 4 (two action verbs, two
    conjunctions, one scope word), which is medium, and as technical work
    it gets no breakdown. *)
Lemma suggest_breakdown_medium_null :
  complexity_score (analyze_complexity unphased_description) = 4%nat
  /\ complexity_level (analyze_complexity unphased_description)
     = "medium"%string
  /\ forall now new_id krefs data,
       suggest_breakdown now new_id unphased_description "technical" krefs
         data = None.
Proof.
  split; [vm_compute; reflexivity|]. split; [vm_compute; reflexivity|].
  intros now new_id krefs data. apply suggest_breakdown_None. right.
  apply generate_chunks_nil.
  split; [reflexivity|]. split; vm_compute; [discriminate|reflexivity].
Qed.

(** C2, amended: [suggest_breakdown] returns null exactly when the
    complexity level is "low" or no chunk is generated, and no chunk is
    generated exactly for technical work that is not of high complexity
    and whose description contains none of the phase keywords.  So for
    every work type other than "technical" the result is null if and only
    if the level is "low", and for "high" complexity a breakdown is always
    returned. *)
Theorem suggest_breakdown_gating
    (now : timestamp) (new_id description wtype : string)
    (krefs : list string) (data : TimeData) :
  let level := complexity_level (analyze_complexity description) in
  (level = "low"%string \/ level = "medium"%string \/ level = "high"%string)
  /\ (suggest_breakdown now new_id description wtype krefs data = None
      <-> level = "low"%string
          \/ (wtype = "technical"%string /\ level = "medium"%string
              /\ any_hit phase_keywords (lower description) = false))
  /\ (wtype <> "technical"%string ->
      (suggest_breakdown now new_id description wtype krefs data = None
       <-> level = "low"%string))
  /\ (level = "high"%string ->
      suggest_breakdown now new_id description wtype krefs data <> None)
  /\ (level = "low"%string ->
      suggest_breakdown now new_id description wtype krefs data = None).
Proof.
  intros level.
  assert (Hcases : level = "low"%string \/ level = "medium"%string
                   \/ level = "high"%string).
  { destruct (complexity_level_cases description) as [[H _]|[[H _]|[H _]]];
      auto. }
  assert (Hmain :
    suggest_breakdown now new_id description wtype krefs data = None
    <-> level = "low"%string
        \/ (wtype = "technical"%string /\ level = "medium"%string
            /\ any_hit phase_keywords (lower description) = false)).
  { rewrite suggest_breakdown_None, generate_chunks_nil. fold level.
    destruct Hcases as [H|[H|H]]; rewrite H; intuition discriminate. }
  split; [exact Hcases|]. split; [exact Hmain|]. split; [|split].
  - intros Ht. rewrite Hmain. tauto.
  - intros Hh. rewrite Hmain, Hh. intuition discriminate.
  - intros Hl. apply Hmain. auto.
Qed.

Lemma suggest_breakdown_gating_witness :
  complexity_level (analyze_complexity compound_description) = "high"%string
  /\ suggest_breakdown 0 "breakdown_1" compound_description "technical" []
       empty_data <> None
  /\ (suggest_breakdown 0 "breakdown_1" unphased_description "writing" []
        empty_data = None
      <-> complexity_level (analyze_complexity unphased_description)
          = "low"%string).
Proof.
  assert (Hh : complexity_level (analyze_complexity compound_description)
               = "high"%string) by (vm_compute; reflexivity).
  split; [exact Hh|]. split.
  - apply (suggest_breakdown_gating 0 "breakdown_1" compound_description
             "technical" [] empty_data). exact Hh.
  - apply (suggest_breakdown_gating 0 "breakdown_1" unphased_description
             "writing" [] empty_data). discriminate.
Defined.

(** ** Failure paths (C3) *)

Lemma zero_duration_log_entries :
  entries zero_duration_log = [mkEntryDict log_a None; mkEntryDict log_b None].
Proof. vm_compute. reflexivity. Qed.

Lemma reachable_run ops : reachable (run ops empty_data).
Proof. exists ops. reflexivity. Qed.

(** The iteration that divides by a zero duration. *)
Lemma accuracy_step_zero tolerance prior_entries e s :
  fst (calculate_statistics
         (filter (fun p : TimeEntry =>
                    String.eqb (work_type p) (work_type e) = true)
            prior_entries)) <> 0%R ->
  duration_minutes e = Some 0 ->
  accuracy_step tolerance prior_entries e s = Raise ZeroDivisionError.
Proof.
  intros Hmean Hd. unfold accuracy_step.
  destruct prior_entries as [|p l]; [exfalso; apply Hmean; reflexivity|].
  destruct (filter _ (p :: l)) as [|q l'];
    [exfalso; apply Hmean; reflexivity|].
  destruct (Req_dec_T _ 0) as [E|E]; [contradiction|].
  rewrite Hd. reflexivity.
Qed.

(** [end_work] on an entry planned by [accept_breakdown]. *)
Lemma end_work_planned_raises now completion_notes pct new_id b c cs data :
  chunks b = c :: cs ->
  find_entry (new_id 0%nat) (entries data) = None ->
  end_work now (new_id 0%nat) completion_notes pct
    (snd (accept_breakdown new_id b data))
  = (Raise TypeError, snd (accept_breakdown new_id b data)).
Proof.
  intros Hc Hf. unfold end_work, accept_breakdown. rewrite Hc. simpl.
  rewrite find_entry_app, Hf. simpl. rewrite String.eqb_refl. reflexivity.
Qed.

(** C3, the code at the failing inputs.  On reachable stores
    [analyze_estimation_accuracy] raises [ZeroDivisionError] (a completed
    entry of zero minutes after one of the same type), [end_work] raises
    [TypeError] (an entry planned by [accept_breakdown], whose start time
    is null), and [generate_collaboration_adjusted_estimate] raises
    [ZeroDivisionError] (a base mean of zero). *)
Theorem failure_paths_raise :
  (reachable zero_duration_log
   /\ analyze_estimation_accuracy 20 zero_duration_log
      = Raise ZeroDivisionError)
  /\ (reachable planned_log
      /\ get_time_entry "p1" planned_log <> None
      /\ fst (end_work 60000000 "p1" "" None planned_log) = Raise TypeError)
  /\ (reachable collaboration_log
      /\ generate_collaboration_adjusted_estimate "pairing" "technical"
           ["P"%string] ["K"%string] collaboration_log
         = Raise ZeroDivisionError).
Proof.
  split; [|split].
  - split; [apply reachable_run|].
    unfold analyze_estimation_accuracy.
    rewrite zero_duration_log_entries.
    change (mapM unfiltered
              (filter (fun ed => completed ed = true)
                 [mkEntryDict log_a None; mkEntryDict log_b None]))
      with (Ok [log_a; log_b]).
    cbn [mbind result_bind length Nat.ltb Nat.leb accuracy_loop].
    change (accuracy_step 20 [] log_a (mkAccuracyState 0 0 0 0 [] []))
      with (Ok (mkAccuracyState 0 0 0 0 [] [])).
    cbn [mbind result_bind app].
    rewrite accuracy_step_zero; [reflexivity| |reflexivity].
    change (filter _ [log_a]) with [log_a].
    rewrite calculate_statistics_durations.
    change (durations_of [log_a]) with [5]. cbv beta iota zeta. eval_sums.
    cbn [fst]. lra.
  - split; [apply reachable_run|]. split; [vm_compute; discriminate|].
    unfold planned_log, run. cbn [fold_left step].
    pose proof (end_work_planned_raises 60000000 "" None
                  (fun _ => "p1"%string) one_chunk_breakdown _ [] empty_data
                  eq_refl eq_refl) as H.
    cbv beta in H. rewrite H. reflexivity.
  - split; [apply reachable_run|].
    unfold generate_collaboration_adjusted_estimate.
    rewrite generate_estimate_nonempty by (vm_compute; discriminate).
    replace (similar_collaborative_work "technical" ["P"%string]
               collaboration_log)
      with [mkTimeEntry "b" (Some 0) (Some 300000000) (Some 5) "second"
              "technical" [] ["P"%string] [] None ""]
      by (vm_compute; reflexivity).
    rewrite calculate_statistics_durations.
    change (durations_of [_]) with [5]. cbv beta iota zeta. eval_sums.
    cbn [fst].
    destruct (Rlt_dec 0 (5 / 1)) as [_|Hn]; [|exfalso; lra].
    set (l := find_similar_work "pairing" "technical" ["K"%string]
                collaboration_log).
    assert (Hd : durations_of l = [0]) by (vm_compute; reflexivity).
    assert (Hs : calculate_statistics l = ((0 / 1)%R, 0%R)).
    { rewrite calculate_statistics_durations, Hd. cbv zeta. eval_sums.
      reflexivity. }
    rewrite (estimate_from_statistics l _ _ Hs). cbn [mean_minutes].
    destruct (Req_dec_T (0 / 1) 0) as [_|Hn]; [reflexivity|exfalso; lra].
Qed.

(** * Further properties of the engine *)

(** ** How each operation rewrites the entries *)

(** Every public operation leaves the entries as they are, appends
    entries, or replaces the first entry of an identifier; a property of
    entries that those three rewrites keep holds after the operation. *)
Lemma step_Forall (P : EntryDict -> Prop) (o : op) (data : TimeData) :
  Forall P (entries data) ->
  (forall now work_id description wtype krefs prefs,
     P (mkEntryDict
          (opened_entry now work_id description wtype krefs prefs) None)) ->
  (forall ed t0 now completion_notes pct,
     P ed -> start_time (entry ed) = Some t0 ->
     P (mkEntryDict
          (close_entry (entry ed) now (elapsed_minutes t0 now)
             completion_notes pct) (extra ed))) ->
  (forall ed d,
     P ed -> P (mkEntryDict (add_distraction (entry ed) d) (extra ed))) ->
  (forall ed refs,
     P ed -> P (mkEntryDict (set_knowledge_refs (entry ed) refs) (extra ed))) ->
  (forall ed refs,
     P ed -> P (mkEntryDict (set_people_refs (entry ed) refs) (extra ed))) ->
  (forall b k new_id c, P (planned_entry b k new_id c)) ->
  Forall P (entries (step o data)).
Proof.
  intros HP Hopen Hclose Hdis Hk Hp Hplan.
  assert (Hat : forall w i ed,
             find_entry w (entries data) = Some (i, ed) -> P ed).
  { intros w i ed Hf. destruct (find_entry_Some _ _ _ _ Hf) as [Hi _].
    eapply Forall_lookup_1; eauto. }
  destruct o; simpl.
  - apply Forall_app. split; [exact HP|]. repeat constructor. apply Hopen.
  - unfold end_work.
    destruct (find_entry work_id (entries data)) as [[i ed]|] eqn:Hf;
      [|exact HP].
    destruct (start_time (entry ed)) as [t0|] eqn:Hs; [|exact HP].
    simpl. apply Forall_insert; [exact HP|]. apply Hclose; eauto.
  - unfold record_distraction.
    destruct (find_entry work_id (entries data)) as [[i ed]|] eqn:Hf;
      [|exact HP].
    simpl. apply Forall_insert; [exact HP|]. apply Hdis; eauto.
  - unfold link_time_to_knowledge.
    destruct (find_entry work_id (entries data)) as [[i ed]|] eqn:Hf;
      [|exact HP].
    simpl. apply Forall_insert; [exact HP|]. apply Hk; eauto.
  - unfold link_time_to_people.
    destruct (find_entry work_id (entries data)) as [[i ed]|] eqn:Hf;
      [|exact HP].
    simpl. apply Forall_insert; [exact HP|]. apply Hp; eauto.
  - apply Forall_app. split; [exact HP|].
    apply Forall_imap_any. intros k c. apply Hplan.
Qed.

Lemma run_Forall (P : EntryDict -> Prop) (ops : list op) (data : TimeData) :
  (forall o d, Forall P (entries d) -> Forall P (entries (step o d))) ->
  Forall P (entries data) -> Forall P (entries (run ops data)).
Proof.
  intros Hstep. revert data.
  induction ops as [|o ops IH]; intros data H; [exact H|].
  simpl. apply IH, Hstep, H.
Qed.

(** ** Shape of the stored entries *)

Lemma well_formed_step o data :
  Forall well_formed_entry (entries data) ->
  Forall well_formed_entry (entries (step o data)).
Proof.
  intros H. apply step_Forall; try exact H; unfold well_formed_entry; simpl.
  - intros now _ _ _ _ _. exists now. auto.
  - intros ed t0 now _ _ Hw Hs. destruct (extra ed).
    + destruct Hw as (Hn & _). congruence.
    + exists t0. split; [exact Hs|]. right. exists now. auto.
  - intros ed d Hw. exact Hw.
  - intros ed refs Hw. exact Hw.
  - intros ed refs Hw. exact Hw.
  - intros b k new_id c. auto.
Qed.

(** X1: in every store that the public operations produce, an entry
    planned by [accept_breakdown] has no start time, no end time and no
    duration, and any other entry has a start time and has a duration
    exactly when it has an end time, which is then [int] of the minutes
    between the two. *)
Theorem reachable_entries_well_formed (data : TimeData) (ed : EntryDict) :
  reachable data -> ed ∈ entries data ->
  (extra ed <> None ->
   start_time (entry ed) = None /\ end_time (entry ed) = None
   /\ duration_minutes (entry ed) = None)
  /\ (extra ed = None -> start_time (entry ed) <> None)
  /\ (duration_minutes (entry ed) <> None <-> end_time (entry ed) <> None)
  /\ (forall t0 t1 d,
        start_time (entry ed) = Some t0 -> end_time (entry ed) = Some t1 ->
        duration_minutes (entry ed) = Some d ->
        d = Z.quot (t1 - t0) 60000000).
Proof.
  intros [ops <-] Hin.
  assert (Hw : well_formed_entry ed).
  { eapply Forall_forall; [|exact Hin].
    apply run_Forall; [apply well_formed_step|constructor]. }
  unfold well_formed_entry in Hw. destruct (extra ed) as [m|].
  - destruct Hw as (Hs & He & Hd). rewrite Hs, He, Hd.
    repeat split; try congruence; intros; congruence.
  - destruct Hw as (t0 & Hs & [[He Hd]|(t1 & He & Hd)]); rewrite Hs, He, Hd;
      repeat split; try congruence; intros; try congruence.
    unfold elapsed_minutes in *. congruence.
Qed.

Lemma reachable_entries_well_formed_witness :
  exists ed,
    ed ∈ entries history_10_30
    /\ (duration_minutes (entry ed) <> None <-> end_time (entry ed) <> None).
Proof.
  destruct (entries history_10_30) as [|ed l] eqn:E;
    [vm_compute in E; discriminate|].
  assert (Hin : ed ∈ entries history_10_30) by (rewrite E; left).
  exists ed. split; [left|].
  apply (reachable_entries_well_formed history_10_30 ed
           (reachable_run _) Hin).
Defined.

(** ** Stores written under a clock that never runs backwards *)

Lemma ordered_entry_later t t' ed :
  t <= t' -> ordered_entry t ed -> ordered_entry t' ed.
Proof.
  intros Hle (Hs & He & Hse & Hd). repeat split; auto.
  - intros s E. specialize (Hs s E). lia.
  - intros e E. specialize (He e E). lia.
Qed.

Lemma ordered_step t o data :
  Forall (ordered_entry t) (entries data) ->
  match op_clock o with
  | Some now => t <= now -> Forall (ordered_entry now) (entries (step o data))
  | None => Forall (ordered_entry t) (entries (step o data))
  end.
Proof.
  intros H.
  assert (Hlater : forall now, t <= now ->
            Forall (ordered_entry now) (entries data)).
  { intros now Hle. eapply Forall_impl; [exact H|].
    intros ed. apply ordered_entry_later, Hle. }
  assert (Hkeep : forall t' (Q : TimeEntry -> TimeEntry) ed,
            start_time (Q (entry ed)) = start_time (entry ed) ->
            end_time (Q (entry ed)) = end_time (entry ed) ->
            duration_minutes (Q (entry ed)) = duration_minutes (entry ed) ->
            ordered_entry t' ed ->
            ordered_entry t' (mkEntryDict (Q (entry ed)) (extra ed))).
  { intros t' Q ed E1 E2 E3. unfold ordered_entry; simpl.
    rewrite E1, E2, E3. tauto. }
  destruct o; simpl op_clock; cbv iota; try intros Hle.
  - simpl. apply Forall_app. split; [apply Hlater, Hle|].
    repeat constructor; unfold ordered_entry; simpl;
      repeat split; intros; try discriminate.
    match goal with E : Some _ = Some _ |- _ => inversion E; lia end.
  - unfold step, end_work.
    destruct (find_entry work_id (entries data)) as [[i ed]|] eqn:Hf;
      [|apply Hlater, Hle].
    destruct (start_time (entry ed)) as [t0|] eqn:Hs; [|apply Hlater, Hle].
    simpl. apply Forall_insert; [apply Hlater, Hle|].
    destruct (find_entry_Some _ _ _ _ Hf) as [Hi _].
    assert (Ho : ordered_entry t ed) by (eapply Forall_lookup_1; eauto).
    destruct Ho as (H1 & _). specialize (H1 t0 Hs).
    unfold ordered_entry; simpl. rewrite Hs. repeat split.
    + intros s E; inversion E; lia.
    + intros e E; inversion E; lia.
    + intros s e E1 E2; inversion E1; inversion E2; lia.
    + intros d E; inversion E. unfold elapsed_minutes.
      apply Z.quot_pos; lia.
  - unfold step, record_distraction.
    destruct (find_entry work_id (entries data)) as [[i ed]|] eqn:Hf;
      [|apply Hlater, Hle].
    simpl. apply Forall_insert; [apply Hlater, Hle|].
    destruct (find_entry_Some _ _ _ _ Hf) as [Hi _].
    apply (Hkeep now (fun e => add_distraction e _)); try reflexivity.
    eapply Forall_lookup_1; [apply Hlater, Hle|exact Hi].
  - unfold step, link_time_to_knowledge.
    destruct (find_entry work_id (entries data)) as [[i ed]|] eqn:Hf;
      [|exact H].
    simpl. apply Forall_insert; [exact H|].
    destruct (find_entry_Some _ _ _ _ Hf) as [Hi _].
    apply (Hkeep t (fun e => set_knowledge_refs e _)); try reflexivity.
    eapply Forall_lookup_1; eauto.
  - unfold step, link_time_to_people.
    destruct (find_entry work_id (entries data)) as [[i ed]|] eqn:Hf;
      [|exact H].
    simpl. apply Forall_insert; [exact H|].
    destruct (find_entry_Some _ _ _ _ Hf) as [Hi _].
    apply (Hkeep t (fun e => set_people_refs e _)); try reflexivity.
    eapply Forall_lookup_1; eauto.
  - simpl. apply Forall_app. split; [exact H|].
    apply Forall_imap_any. intros k c.
    unfold ordered_entry; simpl. repeat split; intros; discriminate.
Qed.

Lemma ordered_run ops t data :
  monotone_clock t ops -> Forall (ordered_entry t) (entries data) ->
  exists t', Forall (ordered_entry t') (entries (run ops data)).
Proof.
  revert t data; induction ops as [|o ops IH]; intros t data Hm Ht; simpl.
  - exists t. exact Ht.
  - simpl in Hm. pose proof (ordered_step t o data Ht) as Hstep.
    destruct (op_clock o) as [now|].
    + destruct Hm as [Hle Hm]. apply (IH now); [exact Hm|apply Hstep, Hle].
    + apply (IH t); assumption.
Qed.

(** X2: when the operations read a clock that never runs backwards, every
    stored entry that has both times ends no earlier than it starts, and
    no stored duration is negative. *)
Theorem monotone_clock_orders_entries
    (t : timestamp) (ops : list op) (ed : EntryDict) :
  monotone_clock t ops -> ed ∈ entries (run ops empty_data) ->
  (forall s e,
     start_time (entry ed) = Some s -> end_time (entry ed) = Some e -> s <= e)
  /\ (forall d, duration_minutes (entry ed) = Some d -> 0 <= d).
Proof.
  intros Hm Hin.
  destruct (ordered_run ops t empty_data Hm) as [t' Ht']; [constructor|].
  assert (Ho : ordered_entry t' ed) by (eapply Forall_forall; eauto).
  destruct Ho as (_ & _ & Hse & Hd). split; assumption.
Qed.

Lemma monotone_clock_orders_entries_witness :
  exists ed,
    ed ∈ entries history_10_30
    /\ (forall d, duration_minutes (entry ed) = Some d -> 0 <= d).
Proof.
  destruct (entries history_10_30) as [|ed l] eqn:E;
    [vm_compute in E; discriminate|].
  assert (Hin : ed ∈ entries history_10_30) by (rewrite E; left).
  exists ed. split; [left|].
  apply (monotone_clock_orders_entries 0
           [StartWork 0 "a" "first" "technical" ["K"%string] [];
            EndWork 600000000 "a" "" None;
            StartWork 600000000 "b" "second" "technical" ["K"%string] [];
            EndWork 2400000000 "b" "" None] ed).
  - simpl. lia.
  - exact Hin.
Defined.

(** ** Appending and replacing entries *)

Lemma get_time_entry_find work_id data :
  get_time_entry work_id data
  = match find_entry work_id (entries data) with
    | Some (_, ed) => Some (entry ed)
    | None => None
    end.
Proof. reflexivity. Qed.

(** Replacing the first entry of an identifier by an entry of the same
    identifier changes the lookup of that identifier only. *)
Lemma replace_first_lookup work_id data i ed ed' :
  find_entry work_id (entries data) = Some (i, ed) ->
  id (entry ed') = id (entry ed) ->
  let data' := set_entries data (<[i := ed']> (entries data)) in
  get_time_entry work_id data' = Some (entry ed')
  /\ (forall w, w <> work_id -> get_time_entry w data' = get_time_entry w data)
  /\ length (entries data') = length (entries data)
  /\ (forall j, j <> i -> entries data' !! j = entries data !! j)
  /\ entries data' !! i = Some ed'
  /\ breakdowns data' = breakdowns data.
Proof.
  intros Hf Hid data'.
  destruct (find_entry_Some _ _ _ _ Hf) as [Hi Hw].
  assert (Hlt : (i < length (entries data))%nat)
    by (eapply lookup_lt_Some; eauto).
  split; [|split; [|split; [|split; [|split]]]].
  - rewrite get_time_entry_find. subst data'; simpl.
    rewrite (find_entry_insert _ _ _ ed), Hf, Nat.eqb_refl by assumption.
    reflexivity.
  - intros w Hne. rewrite !get_time_entry_find. subst data'; simpl.
    rewrite (find_entry_insert _ _ _ ed) by assumption.
    destruct (find_entry w (entries data)) as [[j x]|] eqn:Hfw; [|reflexivity].
    destruct (Nat.eqb_spec j i) as [E|E]; [|reflexivity].
    subst j. destruct (find_entry_Some _ _ _ _ Hfw) as [Hj Hx].
    assert (x = ed) by congruence. subst x. congruence.
  - apply length_insert.
  - intros j Hj. apply list_lookup_insert_ne. congruence.
  - apply list_lookup_insert_eq, Hlt.
  - reflexivity.
Qed.

(** X3: [start_work] returns the identifier it was given by the
    environment and appends one open entry (no end time, no duration, no
    distraction, empty notes) after the stored ones; the other identifiers
    look up as before.  The new entry is the one found under its
    identifier when the identifier was unused; when it was already in the
    store, the older entry keeps answering for it. *)
Theorem start_work_appends
    (now : timestamp) (work_id description wtype : string)
    (krefs prefs : list string) (data : TimeData) :
  let e := opened_entry now work_id description wtype krefs prefs in
  let data' :=
    snd (start_work now work_id description wtype krefs prefs data) in
  fst (start_work now work_id description wtype krefs prefs data) = work_id
  /\ get_all_entries data' = get_all_entries data ++ [e]
  /\ breakdowns data' = breakdowns data
  /\ (forall w, w <> work_id ->
      get_time_entry w data' = get_time_entry w data)
  /\ (get_time_entry work_id data = None ->
      get_time_entry work_id data' = Some e)
  /\ (forall old, get_time_entry work_id data = Some old ->
      get_time_entry work_id data' = Some old).
Proof.
  intros e data'. subst data'. unfold start_work; simpl.
  split; [reflexivity|]. split.
  { unfold get_all_entries; simpl. rewrite map_app. reflexivity. }
  split; [reflexivity|].
  assert (Hfind : forall w,
             find_entry w (entries data ++ [mkEntryDict e None])
             = match find_entry w (entries data) with
               | Some r => Some r
               | None =>
                   if String.eqb work_id w
                   then Some (length (entries data) + 0, mkEntryDict e None)%nat
                   else None
               end).
  { intros w. rewrite find_entry_app. simpl.
    destruct (find_entry w (entries data)); [reflexivity|].
    destruct (String.eqb work_id w); reflexivity. }
  split; [|split].
  - intros w Hne. rewrite !get_time_entry_find; simpl. rewrite Hfind.
    destruct (find_entry w (entries data)) as [[i x]|]; [reflexivity|].
    destruct (String.eqb_spec work_id w); [congruence|reflexivity].
  - rewrite !get_time_entry_find; simpl. rewrite Hfind.
    destruct (find_entry work_id (entries data)) as [[i x]|];
      [discriminate|].
    rewrite String.eqb_refl. reflexivity.
  - intros old. rewrite !get_time_entry_find; simpl. rewrite Hfind.
    destruct (find_entry work_id (entries data)) as [[i x]|];
      [auto|discriminate].
Qed.

Lemma start_work_appends_witness :
  get_time_entry "c"
    (snd (start_work 5 "c" "third" "writing" [] [] history_10_30))
  = Some (opened_entry 5 "c" "third" "writing" [] [])
  /\ get_time_entry "a"
       (snd (start_work 5 "a" "third" "writing" [] [] history_10_30))
     = get_time_entry "a" history_10_30.
Proof.
  split.
  - destruct (start_work_appends 5 "c" "third" "writing" [] [] history_10_30)
      as (_ & _ & _ & _ & Hnew & _).
    apply Hnew. vm_compute. reflexivity.
  - destruct (start_work_appends 5 "a" "third" "writing" [] [] history_10_30)
      as (_ & _ & _ & _ & _ & Hold).
    destruct (get_time_entry "a" history_10_30) as [old|] eqn:E;
      [|vm_compute in E; discriminate].
    apply Hold. reflexivity.
Defined.

(** X4: [end_work] on an unknown identifier returns null and leaves the
    store as it is.  On a started entry it sets the end time to the clock
    reading, the duration to the whole minutes from the start to that
    reading (whether or not the entry was closed before: an earlier end
    time and duration are overwritten), the notes to the given notes, and
    the completion percentage only when one is given; the identifier,
    start time, description, work type, references and distractions of
    the entry, every other entry and the breakdowns are unchanged, and
    the returned entry is the stored one. *)
Theorem end_work_frame
    (now : timestamp) (work_id completion_notes : string) (pct : option Z)
    (data : TimeData) :
  (get_time_entry work_id data = None ->
   end_work now work_id completion_notes pct data = (Ok None, data))
  /\ (forall i ed t0,
      find_entry work_id (entries data) = Some (i, ed) ->
      start_time (entry ed) = Some t0 -> extra ed = None ->
      let data' := snd (end_work now work_id completion_notes pct data) in
      exists e',
        fst (end_work now work_id completion_notes pct data) = Ok (Some e')
        /\ get_time_entry work_id data' = Some e'
        /\ entries data' !! i = Some (mkEntryDict e' None)
        /\ id e' = id (entry ed) /\ start_time e' = Some t0
        /\ end_time e' = Some now
        /\ duration_minutes e' = Some (Z.quot (now - t0) 60000000)
        /\ work_description e' = work_description (entry ed)
        /\ work_type e' = work_type (entry ed)
        /\ knowledge_refs e' = knowledge_refs (entry ed)
        /\ people_refs e' = people_refs (entry ed)
        /\ distractions e' = distractions (entry ed)
        /\ notes e' = completion_notes
        /\ completion_percentage e'
           = match pct with
             | Some p => Some p
             | None => completion_percentage (entry ed)
             end
        /\ length (entries data') = length (entries data)
        /\ (forall j, j <> i -> entries data' !! j = entries data !! j)
        /\ (forall w, w <> work_id ->
            get_time_entry w data' = get_time_entry w data)
        /\ breakdowns data' = breakdowns data).
Proof.
  split.
  - rewrite get_time_entry_find. unfold end_work.
    destruct (find_entry work_id (entries data)) as [[i ed]|];
      [discriminate|reflexivity].
  - intros i ed t0 Hf Hs He data'. subst data'. unfold end_work.
    rewrite Hf, Hs. cbv zeta. unfold unfiltered. cbn [extra snd fst].
    rewrite He. cbn [mbind result_bind entry].
    set (e' := close_entry (entry ed) now (elapsed_minutes t0 now)
                 completion_notes pct).
    destruct (replace_first_lookup work_id data i ed (mkEntryDict e' None)
                Hf eq_refl) as (H1 & H2 & H3 & H4 & H5 & H6).
    exists e'. repeat split; try assumption; try reflexivity.
Qed.

Lemma end_work_frame_witness :
  end_work 7 "z" "" None history_10_30 = (Ok None, history_10_30)
  /\ duration_minutes <$> get_time_entry "a" history_10_30 = Some (Some 10)
  /\ exists e',
       fst (end_work 3000000000 "a" "again" (Some 50) history_10_30)
       = Ok (Some e')
       /\ duration_minutes e' = Some 50
       /\ notes e' = "again"%string
       /\ completion_percentage e' = Some 50.
Proof.
  destruct (end_work_frame 7 "z" "" None history_10_30) as [Hn _].
  split; [apply Hn; vm_compute; reflexivity|].
  split; [vm_compute; reflexivity|].
  destruct (end_work_frame 3000000000 "a" "again" (Some 50) history_10_30)
    as [_ Hs].
  destruct (find_entry "a" (entries history_10_30)) as [[i ed]|] eqn:Hf;
    [|vm_compute in Hf; discriminate].
  assert (E : start_time (entry ed) = Some 0 /\ extra ed = None).
  { vm_compute in Hf. inversion Hf. split; reflexivity. }
  destruct E as [E1 E2].
  destruct (Hs i ed 0 eq_refl E1 E2)
    as (e' & H1 & _ & _ & _ & _ & _ & Hd & _ & _ & _ & _ & _ & H2 & H3 & _).
  exists e'. repeat split; assumption.
Defined.

(** X5: [record_distraction] returns false on an unknown identifier and
    leaves the store as it is.  Otherwise it returns true and appends the
    distraction, stamped with the clock reading, after the distractions of
    the entry; nothing else in the entry changes, so an entry that is
    already closed accepts the distraction and keeps its end time and
    duration. *)
Theorem record_distraction_appends
    (now : timestamp) (work_id distraction_type : string) (minutes : Z)
    (description : string) (data : TimeData) :
  (get_time_entry work_id data = None ->
   record_distraction now work_id distraction_type minutes description data
   = (false, data))
  /\ (forall e,
      get_time_entry work_id data = Some e ->
      let data' :=
        snd (record_distraction now work_id distraction_type minutes
               description data) in
      fst (record_distraction now work_id distraction_type minutes
             description data) = true
      /\ get_time_entry work_id data'
         = Some (add_distraction e
                   (mkDistraction distraction_type minutes description now))
      /\ (forall e', get_time_entry work_id data' = Some e' ->
          distractions e'
          = distractions e
            ++ [mkDistraction distraction_type minutes description now]
          /\ end_time e' = end_time e
          /\ duration_minutes e' = duration_minutes e
          /\ start_time e' = start_time e /\ id e' = id e
          /\ knowledge_refs e' = knowledge_refs e
          /\ people_refs e' = people_refs e /\ notes e' = notes e)
      /\ length (entries data') = length (entries data)
      /\ (forall w, w <> work_id ->
          get_time_entry w data' = get_time_entry w data)
      /\ breakdowns data' = breakdowns data).
Proof.
  split.
  - rewrite get_time_entry_find. unfold record_distraction.
    destruct (find_entry work_id (entries data)) as [[i ed]|];
      [discriminate|reflexivity].
  - intros e. rewrite get_time_entry_find. unfold record_distraction.
    destruct (find_entry work_id (entries data)) as [[i ed]|] eqn:Hf;
      [|discriminate].
    intros E; inversion E; subst e. cbv zeta. cbn [fst snd].
    set (d := mkDistraction distraction_type minutes description now).
    destruct (replace_first_lookup work_id data i ed
                (mkEntryDict (add_distraction (entry ed) d) (extra ed))
                Hf eq_refl) as (H1 & H2 & H3 & _ & _ & H6).
    split; [reflexivity|]. split; [exact H1|].
    split; [|split; [exact H3|split; [exact H2|exact H6]]].
    intros e' He'. rewrite H1 in He'. inversion He'; subst e'.
    repeat split.
Qed.

Lemma record_distraction_appends_witness :
  record_distraction 9 "z" "email" 3 "" history_10_30
  = (false, history_10_30)
  /\ fst (record_distraction 9 "a" "email" 3 "" history_10_30) = true.
Proof.
  destruct (record_distraction_appends 9 "z" "email" 3 "" history_10_30)
    as [Hn _].
  destruct (record_distraction_appends 9 "a" "email" 3 "" history_10_30)
    as [_ Hs].
  split; [apply Hn; vm_compute; reflexivity|].
  destruct (get_time_entry "a" history_10_30) as [e|] eqn:E;
    [|vm_compute in E; discriminate].
  apply (Hs e eq_refl).
Defined.

(** ** Bounds on the statistics and on the base estimate *)

Lemma sumR_nonneg l : Forall (fun x => (0 <= x)%R) l -> (0 <= sumR l)%R.
Proof.
  induction 1 as [|x l Hx _ IH]; [unfold sumR; simpl; lra|].
  rewrite sumR_cons. lra.
Qed.

Lemma sumZ_bounds lo hi l :
  Forall (fun d => lo <= d <= hi) l ->
  lo * Z.of_nat (length l) <= sumZ l <= hi * Z.of_nat (length l).
Proof.
  induction 1 as [|x l Hx _ IH]; [unfold sumZ; simpl; lia|].
  rewrite sumZ_cons. cbn [length]. lia.
Qed.

Lemma mean_bounds lo hi d ds :
  Forall (fun x => lo <= x <= hi) (d :: ds) ->
  (IZR lo <= IZR (sumZ (d :: ds)) / lenR (d :: ds) <= IZR hi)%R.
Proof.
  intros H. pose proof (sumZ_bounds lo hi _ H) as [Hlo Hhi].
  pose proof (lenR_pos d ds) as Hn. unfold lenR in *.
  apply IZR_le in Hlo, Hhi. rewrite mult_IZR in Hlo, Hhi.
  set (n := IZR (Z.of_nat (length (d :: ds)))) in *.
  set (s := IZR (sumZ (d :: ds))) in *.
  split.
  - apply (Rmult_le_reg_r n); [exact Hn|].
    replace (s / n * n)%R with s by (field; lra). exact Hlo.
  - apply (Rmult_le_reg_r n); [exact Hn|].
    replace (s / n * n)%R with s by (field; lra). exact Hhi.
Qed.

Lemma variance_nonneg (l : list TimeEntry) :
  (0 <= snd (calculate_statistics l))%R.
Proof.
  rewrite calculate_statistics_durations.
  destruct (durations_of l) as [|d ds]; [simpl; lra|].
  cbv zeta. cbn [fst snd].
  destruct (Nat.eqb (length (d :: ds)) 1); [lra|].
  apply Rmult_le_pos.
  - apply sumR_nonneg. apply Forall_forall. intros x Hx.
    apply list_elem_of_fmap in Hx. destruct Hx as (y & -> & _).
    apply pow2_ge_0.
  - left. apply Rinv_0_lt_compat, lenR_pos.
Qed.

(** X6: the variance computed by [calculate_statistics] is never negative,
    and when every duration of the entries lies between two bounds the
    mean lies between them too. *)
Theorem calculate_statistics_bounds (l : list TimeEntry) :
  (0 <= snd (calculate_statistics l))%R
  /\ (forall lo hi,
        durations_of l <> [] ->
        Forall (fun d => lo <= d <= hi) (durations_of l) ->
        (IZR lo <= fst (calculate_statistics l) <= IZR hi)%R).
Proof.
  split; [apply variance_nonneg|].
  rewrite calculate_statistics_durations.
  destruct (durations_of l) as [|d ds]; [congruence|].
  cbv zeta. cbn [fst snd].
  intros lo hi _ H. apply mean_bounds, H.
Qed.

Lemma calculate_statistics_bounds_witness :
  (IZR 10 <= fst (calculate_statistics sample_entries) <= IZR 30)%R.
Proof.
  destruct (calculate_statistics_bounds sample_entries) as [_ H].
  apply H; [simpl; discriminate|].
  simpl. repeat constructor; lia.
Defined.

Lemma durations_of_filtered (l : list EntryDict) :
  durations_of (map filtered l)
  = omap (fun ed => duration_minutes (entry ed)) l.
Proof.
  unfold durations_of. induction l as [|ed l IH]; [reflexivity|].
  simpl. change (list_omap _ _ duration_minutes (map filtered l))
    with (omap duration_minutes (map filtered l)).
  rewrite IH. reflexivity.
Qed.

Lemma omap_durations_nonneg (l : list EntryDict) :
  Forall (fun ed => forall d, duration_minutes (entry ed) = Some d -> 0 <= d) l ->
  Forall (fun d => 0 <= d)
    (omap (fun ed => duration_minutes (entry ed)) l).
Proof.
  induction 1 as [|ed l Hx _ IH]; [constructor|]. simpl.
  destruct (duration_minutes (entry ed)) as [d|] eqn:E; [|exact IH].
  constructor; [apply Hx; reflexivity|exact IH].
Qed.

Lemma similar_mean_nonneg description wtype krefs data :
  nonneg_durations data ->
  (0 <= fst (calculate_statistics
               (find_similar_work description wtype krefs data)))%R.
Proof.
  intros Hn. rewrite calculate_statistics_durations.
  unfold find_similar_work. rewrite find_similar_work_fold. simpl.
  rewrite durations_of_filtered.
  pose proof (omap_durations_nonneg _
                (Forall_filter_keep _ (candidate wtype krefs) _ Hn)) as Hd.
  destruct (omap _ _) as [|d ds]; [simpl; lra|]. cbv zeta. cbn [fst].
  apply Rmult_le_pos.
  - apply IZR_le, sumZ_nonneg, Hd.
  - left. apply Rinv_0_lt_compat, lenR_pos.
Qed.

(** X7: [generate_estimate] returns null exactly when no stored entry is a
    candidate of the query, so always on an empty store.  A returned
    estimate counts at least one similar work item and lists as many
    identifiers; its variance is not negative, its standard deviation is
    the square root of the variance, its mean is at most its maximum, and
    when no stored duration is negative its mean is not negative and its
    minimum is at most its mean. *)
Theorem generate_estimate_sound
    (description wtype : string) (krefs : list string) (data : TimeData) :
  (generate_estimate description wtype krefs data = None
   <-> forall ed, ed ∈ entries data -> ~ candidate wtype krefs ed)
  /\ generate_estimate description wtype krefs empty_data = None
  /\ (forall r,
      generate_estimate description wtype krefs data = Some r ->
      similar_work_count r = length (similar_work_ids r)
      /\ (1 <= similar_work_count r)%nat
      /\ similar_work_ids r
         = map id (find_similar_work description wtype krefs data)
      /\ (0 <= variance r)%R
      /\ std_dev r = sqrt (variance r)
      /\ (0 <= std_dev r)%R
      /\ (mean_minutes r <= max_estimate r)%R
      /\ (nonneg_durations data ->
          (0 <= mean_minutes r)%R /\ (min_estimate r <= mean_minutes r)%R)).
Proof.
  split; [|split; [reflexivity|]].
  - unfold generate_estimate, find_similar_work.
    rewrite find_similar_work_fold. simpl.
    destruct (filter (candidate wtype krefs) (entries data)) as [|x l] eqn:E.
    + split; [|reflexivity]. intros _ ed Hin Hc.
      assert (Hx : ed ∈ filter (candidate wtype krefs) (entries data))
        by (apply list_elem_of_filter; auto).
      rewrite E in Hx. inversion Hx.
    + split; [discriminate|]. intros H. exfalso.
      assert (Hx : x ∈ filter (candidate wtype krefs) (entries data))
        by (rewrite E; left).
      apply list_elem_of_filter in Hx. destruct Hx as [Hc Hin].
      exact (H x Hin Hc).
  - intros r Hr.
    pose proof (similar_mean_nonneg description wtype krefs data) as Hmean.
    pose proof (variance_nonneg
                  (find_similar_work description wtype krefs data))
      as Hvar.
    unfold generate_estimate in Hr.
    destruct (find_similar_work description wtype krefs data) as [|x l] eqn:E;
      [discriminate|].
    inversion Hr; subst r; clear Hr. unfold estimate_from.
    destruct (calculate_statistics (x :: l)) as [m v].
    cbn [fst snd] in *. cbn.
    pose proof (sqrt_pos v) as Hs.
    split; [rewrite length_map; reflexivity|]. split; [lia|].
    split; [reflexivity|]. split; [exact Hvar|]. split; [reflexivity|].
    split; [exact Hs|]. split; [lra|].
    intros Hn. specialize (Hmean Hn). split; [exact Hmean|].
    unfold max0. destruct (Rlt_dec 0 (m - sqrt v)); lra.
Qed.

Lemma generate_estimate_sound_witness :
  exists r,
    generate_estimate "estimate" "technical" ["K"%string] history_10_30
    = Some r
    /\ (0 <= mean_minutes r)%R /\ (min_estimate r <= mean_minutes r)%R.
Proof.
  destruct (generate_estimate_sound "estimate" "technical" ["K"%string]
              history_10_30) as (_ & _ & H).
  exists base_10_30. split; [apply history_10_30_base|].
  apply (H base_10_30 history_10_30_base). apply history_10_30_nonneg.
Defined.

(** ** The adjusted estimates and their base *)

(** X8: each adjusted estimate is null exactly when the base estimate of
    [generate_estimate] is null; without knowledge references the
    experience adjustment, without people references the collaboration
    adjustment, and without distracted history the distraction adjustment
    return the base estimate itself; the two scaling adjustments keep the
    count and identifiers of the similar work; and the collaboration
    adjustment raises nothing but [ZeroDivisionError], only for a query
    that names people and whose base estimate has mean zero. *)
Theorem adjusted_estimates_follow_base
    (description wtype : string) (krefs prefs : list string)
    (data : TimeData) :
  let base := generate_estimate description wtype krefs data in
  (generate_estimate_with_distraction_overhead description wtype krefs data
   = None <-> base = None)
  /\ (generate_experience_adjusted_estimate description wtype krefs data
      = None <-> base = None)
  /\ (generate_collaboration_adjusted_estimate description wtype prefs krefs
        data = Ok None <-> base = None)
  /\ (krefs = [] ->
      generate_experience_adjusted_estimate description wtype krefs data
      = base)
  /\ (prefs = [] ->
      generate_collaboration_adjusted_estimate description wtype prefs krefs
        data = Ok base)
  /\ (entries_with_distractions
        (calculate_distraction_impact (Some wtype) data) = 0%nat ->
      generate_estimate_with_distraction_overhead description wtype krefs
        data = base)
  /\ (forall r b,
      base = Some b ->
      generate_estimate_with_distraction_overhead description wtype krefs
        data = Some r
      \/ generate_experience_adjusted_estimate description wtype krefs data
         = Some r ->
      similar_work_count r = similar_work_count b
      /\ similar_work_ids r = similar_work_ids b
      /\ variance r = variance b /\ std_dev r = std_dev b)
  /\ (forall e,
      generate_collaboration_adjusted_estimate description wtype prefs krefs
        data = Raise e ->
      e = ZeroDivisionError /\ prefs <> []
      /\ exists b, base = Some b /\ mean_minutes b = 0%R).
Proof.
  intros base. subst base.
  unfold generate_estimate_with_distraction_overhead,
    generate_experience_adjusted_estimate,
    generate_collaboration_adjusted_estimate.
  destruct (generate_estimate description wtype krefs data) as [b|].
  - split.
    { destruct (Nat.ltb 0 _); split; discriminate. }
    split.
    { destruct krefs; split; discriminate. }
    split.
    { destruct prefs as [|p prefs]; [split; discriminate|].
      destruct (similar_collaborative_work wtype (p :: prefs) data);
        [split; discriminate|].
      destruct (Rlt_dec 0 _); [|split; discriminate].
      destruct (Req_dec_T _ _); split; discriminate. }
    split; [intros ->; reflexivity|].
    split; [intros ->; reflexivity|].
    split; [intros ->; reflexivity|].
    split.
    { intros r b' Hb [H|H]; inversion Hb; subst b'.
      - destruct (Nat.ltb 0 _); inversion H; subst r; repeat split.
      - destruct krefs; inversion H; subst r; repeat split. }
    intros e.
    destruct prefs as [|p prefs]; [discriminate|].
    destruct (similar_collaborative_work wtype (p :: prefs) data);
      [discriminate|].
    destruct (Rlt_dec 0 _); [|discriminate].
    destruct (Req_dec_T (mean_minutes b) 0) as [E|E]; [|discriminate].
    intros H; inversion H. split; [reflexivity|]. split; [discriminate|].
    exists b. split; [reflexivity|exact E].
  - repeat split; try reflexivity; try discriminate; intros; try reflexivity;
      try discriminate.
Qed.

Lemma adjusted_estimates_follow_base_witness :
  generate_experience_adjusted_estimate "estimate" "technical" []
    history_10_30
  = generate_estimate "estimate" "technical" [] history_10_30
  /\ generate_estimate_with_distraction_overhead "estimate" "technical"
       ["K"%string] history_10_30
     = generate_estimate "estimate" "technical" ["K"%string] history_10_30.
Proof.
  split.
  - apply (adjusted_estimates_follow_base "estimate" "technical" [] []
             history_10_30). reflexivity.
  - apply (adjusted_estimates_follow_base "estimate" "technical"
             ["K"%string] [] history_10_30). vm_compute. reflexivity.
Defined.

(** ** Estimation accuracy *)

Lemma accuracy_step_counted tolerance prior_entries e s s' :
  accuracy_step tolerance prior_entries e s = Ok s' ->
  counted s ->
  counted s' /\ (acc_total s <= acc_total s' <= S (acc_total s))%nat
  /\ (prior_entries = [] -> s' = s).
Proof.
  unfold accuracy_step, counted. intros H (H1 & H2 & H3).
  destruct prior_entries as [|p l]; [inversion H; subst; auto with lia|].
  destruct (filter _ (p :: l)) as [|q l']; [inversion H; subst; auto with lia|].
  destruct (Req_dec_T _ 0); [inversion H; subst; auto with lia|].
  destruct (duration_minutes e) as [actual|]; [|discriminate].
  destruct (Z.eqb actual 0); [discriminate|].
  destruct (Rle_dec _ tolerance);
    [|destruct (Rgt_dec _ _)]; inversion H; subst s'; simpl;
    rewrite ?length_app; simpl;
    (split; [|split; [lia|intros; discriminate]]);
    repeat split; lia.
Qed.

Lemma accuracy_loop_counted tolerance rest prior_entries s s' :
  accuracy_loop tolerance prior_entries rest s = Ok s' ->
  counted s ->
  counted s' /\ (acc_total s' <= acc_total s + length rest)%nat.
Proof.
  revert prior_entries s; induction rest as [|e rest IH];
    intros prior_entries s H Hc; simpl in H.
  - inversion H; subst. split; [exact Hc|lia].
  - destruct (accuracy_step tolerance prior_entries e s) as [s1|x] eqn:E;
      [|discriminate].
    simpl in H.
    destruct (accuracy_step_counted _ _ _ _ _ E Hc) as (Hc1 & Hle & _).
    destruct (IH _ _ H Hc1) as [Hc' Hle']. split; [exact Hc'|].
    simpl. lia.
Qed.

Lemma mapM_unfiltered_Ok (l : list EntryDict) (l' : list TimeEntry) :
  mapM unfiltered l = Ok l' -> l' = map entry l.
Proof.
  revert l'; induction l as [|ed l IH]; intros l' H.
  - inversion H. reflexivity.
  - change (mapM unfiltered (ed :: l))
      with (unfiltered ed ≫= fun y =>
            mapM unfiltered l ≫= fun k => mret (y :: k)) in H.
    assert (Hu : unfiltered ed
                 = match extra ed with
                   | Some _ => Raise TypeError
                   | None => Ok (entry ed)
                   end) by reflexivity.
    destruct (extra ed); rewrite Hu in H; cbn [mbind result_bind] in H;
      [discriminate|].
    destruct (mapM unfiltered l) as [k|]; cbn [mbind result_bind] in H;
      [|discriminate].
    inversion H. rewrite (IH k eq_refl). reflexivity.
Qed.

(** The accuracy of the history of 10 and 30 minutes: the second item is
    estimated at the 10 minutes of the first and takes 30, an
    underestimate. *)
Lemma history_10_30_accuracy :
  exists r,
    analyze_estimation_accuracy 20 history_10_30 = Ok r
    /\ total_estimates r = 1%nat /\ underestimates r = 1%nat.
Proof.
  unfold analyze_estimation_accuracy.
  change (mapM unfiltered (filter _ (entries history_10_30)))
    with (Ok [mkTimeEntry "a" (Some 0) (Some 600000000) (Some 10) "first"
                "technical" ["K"%string] [] [] None "";
              mkTimeEntry "b" (Some 600000000) (Some 2400000000) (Some 30)
                "second" "technical" ["K"%string] [] [] None ""]).
  cbn [mbind result_bind length Nat.ltb Nat.leb accuracy_loop app].
  change (accuracy_step 20 [] _ (mkAccuracyState 0 0 0 0 [] []))
    with (Ok (mkAccuracyState 0 0 0 0 [] [])).
  cbn [mbind result_bind].
  unfold accuracy_step.
  change (filter _ [?a]) with [a]. cbv beta iota zeta.
  rewrite calculate_statistics_durations.
  change (durations_of [_]) with [10]. cbv beta iota zeta. eval_sums.
  cbn [fst duration_minutes work_type acc_total acc_accurate acc_over
       acc_under acc_errors acc_deviations app].
  destruct (Req_dec_T (10 / 1) 0) as [E|_]; [exfalso; lra|].
  change (30 =? 0) with false. cbv iota.
  assert (Herr : (Rabs (30 - 10 / 1) / 30 * 100 > 20)%R).
  { rewrite Rabs_pos_eq by lra. lra. }
  destruct (Rle_dec (Rabs (30 - 10 / 1) / 30 * 100) 20) as [Hle|_];
    [exfalso; lra|].
  destruct (Rgt_dec (10 / 1) 30) as [Hgt|_]; [exfalso; lra|].
  cbn [mbind result_bind].
  eexists. split; [reflexivity|]. split; reflexivity.
Qed.

(** X9: when [analyze_estimation_accuracy] returns, its total is the sum
    of the accurate estimates, the overestimates and the underestimates
    and is less than the number of completed entries (the first one has no
    history); with fewer than two completed entries every count and the
    average error are zero and no pattern is reported. *)
Theorem estimation_accuracy_counts
    (tolerance : R) (data : TimeData) (r : EstimationAccuracy) :
  analyze_estimation_accuracy tolerance data = Ok r ->
  total_estimates r
  = (accurate_estimates r + overestimates r + underestimates r)%nat
  /\ (total_estimates r <= length (completed_entries_of data) - 1)%nat
  /\ ((length (completed_entries_of data) < 2)%nat ->
      r = mkEstimationAccuracy 0 0 0 0 0%R [])
  /\ (total_estimates r = 0%nat -> average_error_percentage r = 0%R).
Proof.
  unfold analyze_estimation_accuracy, completed_entries_of.
  destruct (mapM unfiltered (filter _ (entries data))) as [l|] eqn:E;
    [|discriminate].
  apply mapM_unfiltered_Ok in E. cbn [mbind result_bind].
  assert (Hlen : length l
                 = length (filter (fun ed => completed ed = true)
                             (entries data)))
    by (rewrite E; apply length_map).
  rewrite <- Hlen.
  destruct (Nat.ltb_spec (length l) 2) as [Hlt|Hge].
  - intros H; inversion H; subst r; simpl. repeat split; lia.
  - destruct (accuracy_loop tolerance [] l _) as [s|] eqn:El; [|discriminate].
    cbn [mbind result_bind]. intros H; inversion H; subst r; simpl.
    destruct l as [|e l']; [simpl in Hge; lia|].
    simpl in El.
    destruct (accuracy_loop_counted _ _ _ _ _ El)
      as [(H1 & H2 & H3) Hle]; [repeat split|].
    simpl in Hle. split; [exact H1|]. split; [simpl; lia|].
    split; [simpl in *; lia|].
    intros H0. destruct (acc_errors s); [reflexivity|].
    simpl in H2. lia.
Qed.

Lemma estimation_accuracy_counts_witness :
  exists r,
    analyze_estimation_accuracy 20 history_10_30 = Ok r
    /\ total_estimates r = 1%nat /\ underestimates r = 1%nat
    /\ total_estimates r
       = (accurate_estimates r + overestimates r + underestimates r)%nat
    /\ (total_estimates r <= length (completed_entries_of history_10_30) - 1)%nat.
Proof.
  destruct history_10_30_accuracy as (r & Hr & Ht & Hu).
  exists r. split; [exact Hr|]. split; [exact Ht|]. split; [exact Hu|].
  destruct (estimation_accuracy_counts 20 history_10_30 r Hr)
    as (H1 & H2 & _).
  split; assumption.
Defined.

Lemma insert_pattern_perm p l : insert_pattern p l ≡ₚ p :: l.
Proof.
  induction l as [|q l IH]; simpl; [reflexivity|].
  destruct (Nat.ltb _ _); [reflexivity|].
  rewrite IH. apply Permutation_swap.
Qed.

Lemma sort_patterns_perm l : sort_patterns l ≡ₚ l.
Proof.
  unfold sort_patterns.
  assert (H : forall acc, fold_left (fun sorted p => insert_pattern p sorted)
                            l acc ≡ₚ acc ++ l).
  { induction l as [|p l IH]; intros acc; simpl.
    - rewrite app_nil_r. reflexivity.
    - rewrite IH, insert_pattern_perm.
      rewrite (Permutation_middle acc l p). reflexivity. }
  apply (H []).
Qed.

Lemma insert_pattern_descending p l :
  descending (fun q => Z.of_nat (cp_occurrence_count q)) l ->
  descending (fun q => Z.of_nat (cp_occurrence_count q)) (insert_pattern p l).
Proof.
  induction l as [|q l IH]; intros H; simpl; [auto|].
  destruct H as [Hq Hl].
  destruct (Nat.ltb_spec (cp_occurrence_count q) (cp_occurrence_count p)).
  - simpl. split; [|split; assumption].
    constructor; [lia|].
    eapply Forall_impl; [exact Hq|]. simpl. intros; lia.
  - simpl. split; [|apply IH, Hl].
    rewrite insert_pattern_perm. constructor; [lia|exact Hq].
Qed.

Lemma sort_patterns_descending l :
  descending (fun q => Z.of_nat (cp_occurrence_count q)) (sort_patterns l).
Proof.
  unfold sort_patterns.
  assert (H : forall acc,
             descending (fun q => Z.of_nat (cp_occurrence_count q)) acc ->
             descending (fun q => Z.of_nat (cp_occurrence_count q))
               (fold_left (fun sorted p => insert_pattern p sorted) l acc)).
  { induction l as [|p l IH]; intros acc Ha; simpl; [exact Ha|].
    apply IH, insert_pattern_descending, Ha. }
  apply H. exact I.
Qed.

(** The occurrences counted by the groups of [patterns_by_key]. *)
Lemma add_pattern_count key err groups :
  sum_list (map (fun g : pattern_group => fst (snd g))
              (add_pattern key err groups))
  = S (sum_list (map (fun g : pattern_group => fst (snd g)) groups)).
Proof.
  induction groups as [|[k [count total]] rest IH]; simpl; [reflexivity|].
  destruct (_ && _); simpl; [reflexivity|]. rewrite IH. lia.
Qed.

(** X10: the patterns reported by [_identify_common_patterns] each occur
    at least twice, are listed by occurrence count from the greatest down,
    and together count no more occurrences than there are deviation
    records. *)
Theorem common_patterns_sorted (devs : list Deviation) :
  let l := identify_common_patterns devs in
  Forall (fun p => (2 <= cp_occurrence_count p)%nat) l
  /\ descending (fun p => Z.of_nat (cp_occurrence_count p)) l
  /\ (sum_list (map cp_occurrence_count l) <= length devs)%nat.
Proof.
  cbv zeta. unfold identify_common_patterns.
  set (groups := fold_left _ devs []).
  set (keep := fun g : pattern_group =>
                 let '(wt, dt, (count, total)) := g in
                 if Nat.leb 2 count
                 then Some (mkCommonPattern wt dt count
                              (total / IZR (Z.of_nat count))%R)
                 else None).
  assert (Hsum : sum_list (map (fun g : pattern_group => fst (snd g)) groups)
                 = length devs).
  { subst groups.
    assert (H : forall acc,
               sum_list (map (fun g : pattern_group => fst (snd g))
                           (fold_left
                              (fun g d =>
                                 add_pattern (dev_work_type d, dev_type d)
                                   (dev_error_percentage d) g) devs acc))
               = (sum_list (map (fun g : pattern_group => fst (snd g)) acc)
                  + length devs)%nat).
    { induction devs as [|d devs IH]; intros acc; simpl; [lia|].
      rewrite IH, add_pattern_count. lia. }
    apply (H []). }
  assert (Hkeep : Forall (fun p => (2 <= cp_occurrence_count p)%nat)
                    (omap keep groups)
                  /\ (sum_list (map cp_occurrence_count (omap keep groups))
                      <= sum_list (map (fun g : pattern_group => fst (snd g))
                                     groups))%nat).
  { clear Hsum. clearbody groups.
    induction groups as [|[[wt dt] [count total]] rest IH].
    { split; [constructor|simpl; lia]. }
    destruct IH as [IH1 IH2].
    assert (Hc : omap keep (((wt, dt, (count, total)) : pattern_group)
                            :: rest)
                 = match keep (wt, dt, (count, total)) with
                   | Some y => y :: omap keep rest
                   | None => omap keep rest
                   end) by reflexivity.
    rewrite Hc.
    destruct (keep (wt, dt, (count, total))) as [y|] eqn:Ek.
    - unfold keep in Ek. destruct (Nat.leb_spec 2 count); [|discriminate].
      inversion Ek; subst y. split; [constructor; [simpl; lia|exact IH1]|].
      simpl. simpl in IH2. lia.
    - split; [exact IH1|]. simpl. simpl in IH2. lia. }
  destruct Hkeep as [Hk1 Hk2].
  split; [rewrite sort_patterns_perm; exact Hk1|].
  split; [apply sort_patterns_descending|].
  rewrite sort_patterns_perm, <- Hsum. exact Hk2.
Qed.

Lemma mapM_unfiltered_all (l : list EntryDict) :
  Forall (fun ed => extra ed = None) l ->
  mapM unfiltered l = Ok (map entry l).
Proof.
  induction 1 as [|ed l Hx _ IH]; [reflexivity|].
  change (mapM unfiltered (ed :: l))
    with (unfiltered ed ≫= fun y =>
          mapM unfiltered l ≫= fun k => mret (y :: k)).
  rewrite IH. unfold unfiltered. rewrite Hx. reflexivity.
Qed.

Lemma accuracy_step_cases tolerance prior_entries e s actual :
  duration_minutes e = Some actual ->
  (exists s', accuracy_step tolerance prior_entries e s = Ok s')
  \/ (accuracy_step tolerance prior_entries e s = Raise ZeroDivisionError
      /\ actual = 0).
Proof.
  intros Hd. unfold accuracy_step.
  destruct prior_entries as [|p l]; [eauto|].
  destruct (filter _ (p :: l)) as [|q l']; [eauto|].
  destruct (Req_dec_T _ 0); [eauto|]. rewrite Hd.
  destruct (Z.eqb_spec actual 0); [right; auto|].
  destruct (Rle_dec _ tolerance); [eauto|].
  destruct (Rgt_dec _ _); eauto.
Qed.

Lemma accuracy_loop_cases tolerance rest prior_entries s :
  Forall (fun e => duration_minutes e <> None) rest ->
  (exists s', accuracy_loop tolerance prior_entries rest s = Ok s')
  \/ (accuracy_loop tolerance prior_entries rest s = Raise ZeroDivisionError
      /\ exists e, e ∈ rest /\ duration_minutes e = Some 0).
Proof.
  intros H. revert prior_entries s.
  induction H as [|e rest He _ IH]; intros prior_entries s; simpl; [eauto|].
  destruct (duration_minutes e) as [actual|] eqn:Hd; [|congruence].
  destruct (accuracy_step_cases tolerance prior_entries e s actual Hd)
    as [[s' ->]|[-> Hz]].
  - cbn [mbind result_bind].
    destruct (IH (prior_entries ++ [e]) s') as [Hok|[Hr (x & Hx & Hx0)]];
      [left; exact Hok|].
    right. split; [exact Hr|]. exists x. split; [right; exact Hx|exact Hx0].
  - right. split; [reflexivity|]. exists e. subst actual.
    split; [left|exact Hd].
Qed.

(** X11: on a store that the public operations produce,
    [analyze_estimation_accuracy] either returns a value or raises
    [ZeroDivisionError], and it raises only when some stored entry was
    completed with a duration of zero minutes. *)
Theorem estimation_accuracy_raises_only_on_zero
    (tolerance : R) (data : TimeData) :
  reachable data ->
  (exists r, analyze_estimation_accuracy tolerance data = Ok r)
  \/ (analyze_estimation_accuracy tolerance data = Raise ZeroDivisionError
      /\ exists ed, ed ∈ entries data /\ duration_minutes (entry ed) = Some 0).
Proof.
  intros [ops <-]. set (data := run ops empty_data).
  assert (Hw : Forall well_formed_entry (entries data))
    by (apply run_Forall; [apply well_formed_step|constructor]).
  unfold analyze_estimation_accuracy.
  set (done := filter (fun ed => completed ed = true) (entries data)).
  assert (Hdone : Forall (fun ed => extra ed = None
                                    /\ duration_minutes (entry ed) <> None
                                    /\ ed ∈ entries data) done).
  { apply Forall_forall. intros ed Hin.
    apply list_elem_of_filter in Hin. destruct Hin as [Hc Hin].
    apply completed_true in Hc.
    assert (Hwf : well_formed_entry ed) by (eapply Forall_forall; eauto).
    unfold well_formed_entry in Hwf. destruct (extra ed); [|auto].
    destruct Hwf as (_ & _ & Hd). contradiction. }
  rewrite (mapM_unfiltered_all done)
    by (eapply Forall_impl; [exact Hdone|]; simpl; tauto).
  cbn [mbind result_bind].
  destruct (Nat.ltb (length (map entry done)) 2); [eauto|].
  destruct (accuracy_loop_cases tolerance (map entry done) []
              (mkAccuracyState 0 0 0 0 [] []))
    as [[s' ->]|[-> (e & He & He0)]].
  - apply Forall_fmap. eapply Forall_impl; [exact Hdone|]. simpl. tauto.
  - left. cbn [mbind result_bind]. eauto.
  - right. split; [reflexivity|].
    apply list_elem_of_fmap in He. destruct He as (ed & -> & Hed).
    exists ed. split; [|exact He0].
    eapply (proj1 (Forall_forall _ _) Hdone) in Hed. tauto.
Qed.

Lemma estimation_accuracy_raises_only_on_zero_witness :
  (exists r, analyze_estimation_accuracy 20 history_10_30 = Ok r)
  \/ (analyze_estimation_accuracy 20 history_10_30 = Raise ZeroDivisionError
      /\ exists ed,
           ed ∈ entries history_10_30
           /\ duration_minutes (entry ed) = Some 0).
Proof.
  apply (estimation_accuracy_raises_only_on_zero 20 history_10_30).
  apply reachable_run.
Defined.

(** ** Complexity scores *)

Lemma length_rule_shape description : rule_shape (length_rule description).
Proof.
  unfold length_rule, rule_shape.
  destruct (Nat.ltb 100 _); [right; simpl; lia|].
  destruct (Nat.ltb 50 _); [right; simpl; lia|left; auto].
Qed.

Lemma verb_rule_shape text : rule_shape (verb_rule text).
Proof.
  unfold verb_rule, rule_shape. cbv zeta.
  destruct (Nat.leb 3 _); [right; simpl; lia|].
  destruct (Nat.leb 2 _); [right; simpl; lia|left; auto].
Qed.

Lemma conjunction_rule_shape text : rule_shape (conjunction_rule text).
Proof.
  unfold conjunction_rule, rule_shape. cbv zeta.
  destruct (Nat.leb 2 _); [right; simpl; lia|].
  destruct (Nat.leb 1 _); [right; simpl; lia|left; auto].
Qed.

Lemma scope_rule_shape text : rule_shape (scope_rule text).
Proof.
  unfold scope_rule, rule_shape. cbv zeta.
  destruct (Nat.leb 2 _); [right; simpl; lia|].
  destruct (Nat.leb 1 _); [right; simpl; lia|left; auto].
Qed.

(** X12: the complexity score is at most 8; every indicator stands for
    one or two points of it, so there are at most four indicators, at
    least a third one behind a "high" level and a second one behind a
    "medium" level; and the level is "high" from 5 points, "medium" from
    3, "low" below. *)
Theorem analyze_complexity_bounds (description : string) :
  let c := analyze_complexity description in
  (complexity_score c <= 8)%nat
  /\ (length (indicators c) <= 4)%nat
  /\ (length (indicators c) <= complexity_score c
      <= 2 * length (indicators c))%nat
  /\ (complexity_level c = "high"%string <-> (5 <= complexity_score c)%nat)
  /\ (complexity_level c = "medium"%string
      <-> (3 <= complexity_score c < 5)%nat)
  /\ (complexity_level c = "low"%string <-> (complexity_score c < 3)%nat)
  /\ (complexity_level c = "high"%string -> (3 <= length (indicators c))%nat)
  /\ (complexity_level c = "medium"%string ->
      (2 <= length (indicators c))%nat).
Proof.
  cbv zeta.
  assert (Hshape :
    (length (indicators (analyze_complexity description))
     <= complexity_score (analyze_complexity description)
     <= 2 * length (indicators (analyze_complexity description)))%nat
    /\ (length (indicators (analyze_complexity description)) <= 4)%nat).
  { unfold analyze_complexity. cbv zeta.
    pose proof (length_rule_shape description) as H1.
    pose proof (verb_rule_shape (lower description)) as H2.
    pose proof (conjunction_rule_shape (lower description)) as H3.
    pose proof (scope_rule_shape (lower description)) as H4.
    unfold rule_shape in *.
    destruct (length_rule description) as [p1 i1],
      (verb_rule (lower description)) as [p2 i2],
      (conjunction_rule (lower description)) as [p3 i3],
      (scope_rule (lower description)) as [p4 i4].
    cbn [fst snd] in *.
    assert (Hlen : length (i1 ++ i2 ++ i3 ++ i4)
                   = (length i1 + length i2 + length i3 + length i4)%nat)
      by (rewrite !length_app; lia).
    assert (Hb : (length i1 <= p1 <= 2 * length i1 /\ length i1 <= 1)%nat
                 /\ (length i2 <= p2 <= 2 * length i2 /\ length i2 <= 1)%nat
                 /\ (length i3 <= p3 <= 2 * length i3 /\ length i3 <= 1)%nat
                 /\ (length i4 <= p4 <= 2 * length i4 /\ length i4 <= 1)%nat).
    { repeat split;
        repeat match goal with
               | H : _ \/ _ |- _ => destruct H as [[? ?]|[? ?]]
               end; subst; simpl in *; lia. }
    destruct (Nat.leb 5 _); [|destruct (Nat.leb 3 _)];
      cbn [complexity_score indicators]; rewrite Hlen; lia. }
  destruct Hshape as [Hs H4].
  pose proof (complexity_level_cases description) as Hl. cbv zeta in Hl.
  split; [lia|]. split; [exact H4|]. split; [exact Hs|].
  destruct Hl as [[-> Hl]|[[-> Hl]|[-> Hl]]];
    repeat split; intros; try discriminate; try lia.
Qed.

(** ** Generated chunks *)

Lemma chained_nil : chained [].
Proof. intros i c H. destruct i; discriminate. Qed.

Lemma last_id_chained l :
  chained l ->
  last_id l = match length l with
              | O => []
              | S _ => [chunk_name (length l)]
              end.
Proof.
  intros H. unfold last_id.
  destruct l as [|c0 l0] using rev_ind; [reflexivity|].
  rewrite last_snoc, length_app. simpl.
  destruct (H (length l0) c0) as [Hid _].
  { rewrite lookup_app_r by lia. rewrite Nat.sub_diag. reflexivity. }
  rewrite Hid, Nat.add_comm. reflexivity.
Qed.

Lemma append_phase_chained cond prefix chunk_type wtype chunk_wtype
    description krefs data l :
  chained l ->
  chained (append_phase cond prefix chunk_type wtype chunk_wtype description
             krefs data l).
Proof.
  intros H. unfold append_phase. destruct cond; [|exact H].
  intros i c Hi.
  destruct (Nat.lt_ge_cases i (length l)) as [Hlt|Hge].
  - rewrite lookup_app_l in Hi by exact Hlt. apply H, Hi.
  - rewrite lookup_app_r in Hi by exact Hge.
    destruct (i - length l)%nat as [|k] eqn:E; [|destruct k; discriminate].
    assert (i = length l) by lia. subst i.
    inversion Hi; subst c; simpl. split; [reflexivity|].
    rewrite (last_id_chained l H). destruct (length l); reflexivity.
Qed.

Lemma generic_phases_chained wtype description krefs data n :
  chained (map (generic_phase wtype description krefs data) (seq 0 n)).
Proof.
  intros i c Hi. rewrite list_lookup_fmap in Hi.
  destruct (seq 0 n !! i) as [k|] eqn:E; [|discriminate].
  apply lookup_seq in E. destruct E as [-> _].
  inversion Hi; subst c; simpl. split; [reflexivity|].
  destruct i; reflexivity.
Qed.

(** X13: whatever the work type, the chunks of a generated breakdown are
    named chunk_1, chunk_2, ... in order, the first has no dependency and
    every other one depends on the chunk just before it; each carries the
    knowledge references of the request. *)
Theorem generated_chunks_chained
    (description wtype : string) (krefs : list string)
    (complexity : Complexity) (data : TimeData) :
  let l := generate_chunks_by_type description wtype krefs complexity data in
  (forall i c,
     l !! i = Some c ->
     chunk_id c = chunk_name (i + 1)
     /\ dependencies c = match i with
                         | O => []
                         | S _ => [chunk_name i]
                         end)
  /\ Forall (fun c => chunk_knowledge_refs c = krefs) l
  /\ (forall now new_id b,
      suggest_breakdown now new_id description wtype krefs data = Some b ->
      complexity = analyze_complexity description ->
      chunks b = l).
Proof.
  cbv zeta. split; [|split].
  - change (chained
              (generate_chunks_by_type description wtype krefs complexity
                 data)).
    unfold generate_chunks_by_type.
    destruct (String.eqb wtype "technical").
    { repeat apply append_phase_chained. apply chained_nil. }
    destruct (String.eqb wtype "writing").
    { intros i c Hi.
      destruct i as [|[|[|i]]]; inversion Hi; subst c; split; reflexivity. }
    destruct (String.eqb wtype "meeting").
    { intros i c Hi.
      destruct i as [|[|[|i]]]; inversion Hi; subst c; split; reflexivity. }
    apply generic_phases_chained.
  - unfold generate_chunks_by_type.
    destruct (String.eqb wtype "technical").
    { unfold append_phase.
      repeat match goal with
             | |- context [if ?b then _ else _] => destruct b
             end;
        repeat (apply Forall_app; split); repeat constructor. }
    destruct (String.eqb wtype "writing"); [repeat constructor|].
    destruct (String.eqb wtype "meeting"); [repeat constructor|].
    apply Forall_fmap, Forall_forall. intros k _. reflexivity.
  - intros now new_id b H ->. unfold suggest_breakdown in H. cbv zeta in H.
    destruct (String.eqb _ "low"); [discriminate|].
    destruct (generate_chunks_by_type description wtype krefs
                (analyze_complexity description) data);
      [discriminate|].
    inversion H. reflexivity.
Qed.

Lemma generated_chunks_chained_witness :
  exists c,
    generate_chunks_by_type compound_description "writing" []
      (analyze_complexity compound_description) empty_data !! 1%nat = Some c
    /\ chunk_id c = "chunk_2"%string
    /\ dependencies c = ["chunk_1"%string].
Proof.
  eexists. split; [reflexivity|].
  destruct (generated_chunks_chained compound_description "writing" []
              (analyze_complexity compound_description) empty_data)
    as [H _].
  apply (H 1%nat). reflexivity.
Defined.

Lemma heuristics_pos chunk_type : 0 < heuristics chunk_type.
Proof.
  unfold heuristics.
  repeat match goal with
         | |- context [String.eqb ?a ?b] => destruct (String.eqb a b)
         end; lia.
Qed.

Lemma estimate_chunk_pos chunk_type wtype krefs data :
  (0 < estimate_chunk chunk_type wtype krefs data)%R.
Proof.
  pose proof (heuristics_pos chunk_type) as Hh. apply IZR_lt in Hh.
  unfold estimate_chunk.
  destruct (find_similar_work chunk_type wtype krefs data); [exact Hh|].
  destruct (Rlt_dec 0 _); assumption.
Qed.

Lemma sumR_pos x l :
  Forall (fun y => (0 < y)%R) (x :: l) -> (0 < sumR (x :: l))%R.
Proof.
  intros H. inversion H as [|? ? Hx Hl]; subst. rewrite sumR_cons.
  assert (0 <= sumR l)%R; [|lra].
  apply sumR_nonneg. eapply Forall_impl; [exact Hl|]. simpl. intros; lra.
Qed.

Lemma append_phase_estimates cond prefix chunk_type wtype chunk_wtype
    description krefs data l :
  Forall (fun c => (0 < chunk_estimated_minutes c)%R) l ->
  Forall (fun c => (0 < chunk_estimated_minutes c)%R)
    (append_phase cond prefix chunk_type wtype chunk_wtype description krefs
       data l)
  /\ (length l
      <= length (append_phase cond prefix chunk_type wtype chunk_wtype
                   description krefs data l)
      <= S (length l))%nat.
Proof.
  intros H. unfold append_phase. destruct cond; [|split; [exact H|lia]].
  split.
  - apply Forall_app. split; [exact H|]. repeat constructor; simpl.
    apply estimate_chunk_pos.
  - rewrite length_app. simpl. lia.
Qed.

Lemma generated_chunks_estimates description wtype krefs complexity data :
  let l := generate_chunks_by_type description wtype krefs complexity data in
  Forall (fun c => (0 < chunk_estimated_minutes c)%R) l
  /\ (length l <= 4)%nat
  /\ (wtype = "writing"%string \/ wtype = "meeting"%string ->
      length l = 3%nat)
  /\ (wtype <> "technical"%string -> wtype <> "writing"%string ->
      wtype <> "meeting"%string ->
      length l
      = if String.eqb (complexity_level complexity) "high" then 4%nat
        else 2%nat).
Proof.
  cbv zeta. unfold generate_chunks_by_type.
  destruct (String.eqb_spec wtype "technical") as [Ht|Ht].
  { subst wtype.
    match goal with
    | |- context [append_phase ?c4 ?p4 ?t4 ?w4 ?cw4 ?d ?k ?dt
                    (append_phase ?c3 ?p3 ?t3 ?w3 ?cw3 ?d ?k ?dt
                       (append_phase ?c2 ?p2 ?t2 ?w2 ?cw2 ?d ?k ?dt
                          (append_phase ?c1 ?p1 ?t1 ?w1 ?cw1 ?d ?k ?dt [])))] =>
        destruct (append_phase_estimates c1 p1 t1 w1 cw1 d k dt [])
          as [F1 L1]; [constructor|];
        destruct (append_phase_estimates c2 p2 t2 w2 cw2 d k dt _ F1)
          as [F2 L2];
        destruct (append_phase_estimates c3 p3 t3 w3 cw3 d k dt _ F2)
          as [F3 L3];
        destruct (append_phase_estimates c4 p4 t4 w4 cw4 d k dt _ F3)
          as [F4 L4]
    end.
    change (length (@nil WorkChunk)) with 0%nat in L1.
    split; [exact F4|]. split; [lia|].
    split; [intros [H|H]; discriminate|]. congruence. }
  destruct (String.eqb_spec wtype "writing") as [Hw|Hw].
  { split; [repeat constructor; simpl; apply estimate_chunk_pos|].
    split; [simpl; lia|]. split; [reflexivity|]. congruence. }
  destruct (String.eqb_spec wtype "meeting") as [Hm|Hm].
  { split; [repeat constructor; simpl; apply estimate_chunk_pos|].
    split; [simpl; lia|]. split; [reflexivity|]. congruence. }
  split.
  { apply Forall_fmap, Forall_forall. intros k _. simpl.
    apply estimate_chunk_pos. }
  rewrite length_map, length_seq.
  split; [destruct (String.eqb _ "high"); lia|].
  split; [intros [H|H]; contradiction|]. reflexivity.
Qed.

(** X14: a breakdown returned by [suggest_breakdown] records the
    description, the generated identifier and the clock reading, and no
    completed chunk.  It has between one and four chunks (three for
    writing and for meeting work; four or two, by complexity, for a type
    other than technical, writing and meeting), every chunk has a positive
    estimate, and the estimated total is the sum of the chunk estimates,
    hence positive. *)
Theorem suggest_breakdown_estimates
    (now : timestamp) (new_id description wtype : string)
    (krefs : list string) (data : TimeData) (b : WorkBreakdown) :
  suggest_breakdown now new_id description wtype krefs data = Some b ->
  original_work b = description /\ breakdown_id b = new_id
  /\ created_at b = now /\ completed_chunks b = []
  /\ (1 <= length (chunks b) <= 4)%nat
  /\ Forall (fun c => (0 < chunk_estimated_minutes c)%R) (chunks b)
  /\ estimated_total b = sumR (map chunk_estimated_minutes (chunks b))
  /\ (0 < estimated_total b)%R
  /\ (wtype = "writing"%string \/ wtype = "meeting"%string ->
      length (chunks b) = 3%nat)
  /\ (wtype <> "technical"%string -> wtype <> "writing"%string ->
      wtype <> "meeting"%string ->
      length (chunks b)
      = if String.eqb (complexity_level (analyze_complexity description))
             "high"
        then 4%nat else 2%nat).
Proof.
  intros H. unfold suggest_breakdown in H. cbv zeta in H.
  destruct (String.eqb _ "low"); [discriminate|].
  pose proof (generated_chunks_estimates description wtype krefs
                (analyze_complexity description) data) as G.
  cbv zeta in G.
  destruct (generate_chunks_by_type description wtype krefs
              (analyze_complexity description) data) as [|c l];
    [discriminate|].
  destruct G as (GF & GL & GW & GO).
  inversion H; subst b; clear H. cbn.
  repeat split; try assumption; try (simpl; lia).
  apply (sumR_pos (chunk_estimated_minutes c)
           (map chunk_estimated_minutes l)).
  change (Forall (fun y => (0 < y)%R)
            (map chunk_estimated_minutes (c :: l))).
  apply Forall_fmap. exact GF.
Qed.

Lemma suggest_breakdown_estimates_witness :
  exists b,
    suggest_breakdown 0 "breakdown_1" compound_description "meeting" []
      empty_data = Some b
    /\ length (chunks b) = 3%nat /\ (0 < estimated_total b)%R.
Proof.
  destruct (suggest_breakdown 0 "breakdown_1" compound_description "meeting"
              [] empty_data) as [b|] eqn:E.
  - exists b. split; [reflexivity|].
    destruct (suggest_breakdown_estimates 0 "breakdown_1"
                compound_description "meeting" [] empty_data b E)
      as (_ & _ & _ & _ & _ & _ & _ & Hpos & H3 & _).
    split; [apply H3; right; reflexivity|exact Hpos].
  - exfalso. apply suggest_breakdown_None in E.
    destruct E as [E|E]; [vm_compute in E; discriminate|].
    apply generate_chunks_nil in E. destruct E as [E _]. discriminate.
Defined.

(** ** Accepted breakdowns *)

Lemma find_breakdown_app bid l l' :
  List.find (fun b => String.eqb (breakdown_id b) bid) (l ++ l')
  = match List.find (fun b => String.eqb (breakdown_id b) bid) l with
    | Some b => Some b
    | None => List.find (fun b => String.eqb (breakdown_id b) bid) l'
    end.
Proof.
  induction l as [|x l IH]; simpl; [reflexivity|].
  destruct (String.eqb (breakdown_id x) bid); [reflexivity|exact IH].
Qed.

Lemma find_breakdown_None bid data :
  find_breakdown bid data = None
  <-> forall b, b ∈ breakdowns data -> breakdown_id b <> bid.
Proof.
  unfold find_breakdown.
  induction (breakdowns data) as [|x l IH]; simpl.
  - split; [intros _ b Hb; inversion Hb|reflexivity].
  - destruct (String.eqb_spec (breakdown_id x) bid) as [E|E].
    + split; [discriminate|]. intros H. exfalso. apply (H x); [left|exact E].
    + rewrite IH. split.
      * intros H b Hb. inversion Hb; subst; auto.
      * intros H b Hb. apply H. right. exact Hb.
Qed.

(** X15: [accept_breakdown] returns one identifier per chunk, in chunk
    order, appends the breakdown after the stored breakdowns and one entry
    per chunk after the stored entries.  The entry of a chunk carries the
    identifier generated for it, the description, work type and knowledge
    references of the chunk and the three breakdown keys; it has no start
    time, end time or duration, no people and no distraction.  Stored
    entries and breakdowns keep answering for their identifiers, and the
    accepted breakdown answers for its own when that was unused. *)
Theorem accept_breakdown_plans
    (new_id : nat -> string) (b : WorkBreakdown) (data : TimeData) :
  let ids := fst (accept_breakdown new_id b data) in
  let data' := snd (accept_breakdown new_id b data) in
  ids = map new_id (seq 0 (length (chunks b)))
  /\ breakdowns data' = breakdowns data ++ [b]
  /\ length (entries data')
     = (length (entries data) + length (chunks b))%nat
  /\ (forall j, (j < length (entries data))%nat ->
      entries data' !! j = entries data !! j)
  /\ (forall k c,
      chunks b !! k = Some c ->
      exists ed,
        entries data' !! (length (entries data) + k)%nat = Some ed
        /\ id (entry ed) = new_id k
        /\ start_time (entry ed) = None /\ end_time (entry ed) = None
        /\ duration_minutes (entry ed) = None
        /\ work_description (entry ed) = chunk_description c
        /\ work_type (entry ed) = chunk_work_type c
        /\ knowledge_refs (entry ed) = chunk_knowledge_refs c
        /\ people_refs (entry ed) = [] /\ distractions (entry ed) = []
        /\ extra ed
           = Some (mkBreakdownMeta (breakdown_id b) (chunk_id c)
                     (chunk_estimated_minutes c)))
  /\ (forall w e,
      get_time_entry w data = Some e -> get_time_entry w data' = Some e)
  /\ (forall bid old,
      find_breakdown bid data = Some old ->
      find_breakdown bid data' = Some old)
  /\ (find_breakdown (breakdown_id b) data = None ->
      find_breakdown (breakdown_id b) data' = Some b).
Proof.
  cbv zeta. unfold accept_breakdown. cbn [fst snd entries breakdowns].
  split.
  { apply list_eq. intros i.
    rewrite !list_lookup_fmap, list_lookup_imap.
    destruct (chunks b !! i) as [c|] eqn:E; simpl.
    - rewrite (proj2 (lookup_seq 0 (length (chunks b)) i i)); [reflexivity|].
      split; [reflexivity|]. eapply lookup_lt_Some; eauto.
    - rewrite lookup_ge_None_2; [reflexivity|].
      rewrite length_seq. apply lookup_ge_None. exact E. }
  split; [reflexivity|].
  split; [rewrite length_app, length_imap; reflexivity|].
  split; [intros j Hj; apply lookup_app_l; exact Hj|].
  split.
  { intros k c Hc. eexists. split.
    - rewrite lookup_app_r by lia.
      replace (length (entries data) + k - length (entries data))%nat
        with k by lia.
      rewrite list_lookup_imap, Hc. reflexivity.
    - repeat split. }
  split.
  { intros w e. rewrite !get_time_entry_find. cbn [entries].
    rewrite find_entry_app.
    destruct (find_entry w (entries data)) as [[i ed]|];
      [auto|discriminate]. }
  unfold find_breakdown; cbn [breakdowns]. split.
  - intros bid old H. rewrite find_breakdown_app, H. reflexivity.
  - intros H. rewrite find_breakdown_app, H. simpl.
    rewrite String.eqb_refl. reflexivity.
Qed.

Lemma accept_breakdown_plans_witness :
  find_breakdown "breakdown_1" planned_log = Some one_chunk_breakdown
  /\ exists ed,
       entries planned_log !! 0%nat = Some ed
       /\ id (entry ed) = "p1"%string /\ start_time (entry ed) = None.
Proof.
  destruct (accept_breakdown_plans (fun _ => "p1"%string)
              one_chunk_breakdown empty_data)
    as (_ & _ & _ & _ & Hc & _ & _ & Hb).
  split; [apply Hb; reflexivity|].
  destruct (Hc 0%nat _ eq_refl) as (ed & H1 & H2 & H3 & _).
  exists ed. repeat split; assumption.
Defined.

(** ** Progress of a breakdown *)

Lemma planned_entries_open bid (l : list EntryDict) :
  Forall well_formed_entry l ->
  List.filter completed (List.filter (of_breakdown bid) l) = []
  /\ omap (fun ed => duration_minutes (entry ed))
       (List.filter (of_breakdown bid) l) = []
  /\ Forall (fun ed => duration_minutes (entry ed) = None)
       (List.filter (of_breakdown bid) l).
Proof.
  induction 1 as [|ed l Hw _ IH]; [repeat split; constructor|].
  destruct IH as (IH1 & IH2 & IH3). simpl.
  destruct (of_breakdown bid ed) eqn:E; [|auto].
  unfold of_breakdown in E. unfold well_formed_entry in Hw.
  destruct (extra ed); [|discriminate]. destruct Hw as (_ & _ & Hd).
  simpl. unfold completed. rewrite Hd. auto.
Qed.

(** X16: [get_breakdown_progress] returns null exactly when no stored
    breakdown has the identifier.  On a store that the public operations
    produce the progress of a breakdown never advances: no chunk is
    completed, the actual minutes and the progress percentage are zero,
    the remaining estimate is the whole estimated total (or zero if that
    is negative), and no variance is reported unless the breakdown has no
    chunk. *)
Theorem breakdown_progress_never_advances (bid : string) (data : TimeData) :
  (get_breakdown_progress bid data = None
   <-> forall b, b ∈ breakdowns data -> breakdown_id b <> bid)
  /\ (reachable data ->
      forall p,
        get_breakdown_progress bid data = Some p ->
        exists b,
          find_breakdown bid data = Some b
          /\ bp_total_chunks p = length (chunks b)
          /\ bp_estimated_total_minutes p = estimated_total b
          /\ bp_completed_chunks p = 0%nat
          /\ bp_actual_total_minutes p = 0
          /\ bp_progress_percentage p = 0%R
          /\ bp_remaining_estimated_minutes p = Rmax 0 (estimated_total b)
          /\ (chunks b <> [] -> bp_variance_minutes p = None)).
Proof.
  split.
  - rewrite <- find_breakdown_None. unfold get_breakdown_progress.
    destruct (find_breakdown bid data); split; congruence.
  - intros [ops <-] p. set (data := run ops empty_data).
    assert (Hw : Forall well_formed_entry (entries data))
      by (apply run_Forall; [apply well_formed_step|constructor]).
    destruct (planned_entries_open bid _ Hw) as (H1 & H2 & _).
    unfold get_breakdown_progress, breakdown_entries.
    destruct (find_breakdown bid data) as [b|]; [|discriminate].
    rewrite H1, H2. intros H; inversion H; subst p; clear H. cbn.
    exists b. split; [reflexivity|]. split; [reflexivity|].
    split; [reflexivity|]. split; [reflexivity|]. split; [reflexivity|].
    split.
    { destruct (length (chunks b)); [reflexivity|].
      change (Z.of_nat 0) with 0.
      unfold Rdiv. rewrite !Rmult_0_l. reflexivity. }
    split.
    { rewrite Rminus_0_r. apply max0_Rmax. }
    intros Hne. destruct (chunks b); [congruence|reflexivity].
Qed.

Lemma breakdown_progress_never_advances_witness :
  exists p,
    get_breakdown_progress "breakdown_1" planned_log = Some p
    /\ bp_total_chunks p = 1%nat /\ bp_completed_chunks p = 0%nat
    /\ bp_variance_minutes p = None.
Proof.
  destruct (breakdown_progress_never_advances "breakdown_1" planned_log)
    as [_ H].
  destruct (get_breakdown_progress "breakdown_1" planned_log) as [p|] eqn:E;
    [|discriminate].
  destruct (H (reachable_run _) p eq_refl)
    as (b & Hb & Ht & _ & Hc & _ & _ & _ & Hv).
  assert (b = one_chunk_breakdown) by (inversion Hb; reflexivity). subst b.
  exists p. split; [reflexivity|]. split; [exact Ht|]. split; [exact Hc|].
  apply Hv. discriminate.
Defined.

Lemma omap_cons_match {A B : Type} (f : A -> option B) x l :
  omap f (x :: l)
  = match f x with
    | Some y => y :: omap f l
    | None => omap f l
    end.
Proof. reflexivity. Qed.

Lemma omap_length_le {A B : Type} (f : A -> option B) l :
  (length (omap f l) <= length l)%nat.
Proof.
  induction l as [|x l IH]; [reflexivity|].
  rewrite omap_cons_match. destruct (f x); simpl; lia.
Qed.

Lemma chunk_results_open (l : list EntryDict) (cs : list WorkChunk) :
  Forall (fun ed => duration_minutes (entry ed) = None) l ->
  Forall (fun r => cr_actual_minutes r = None /\ cr_completed r = false
                   /\ cr_variance_minutes r = None
                   /\ cr_variance_percentage r = None)
    (omap (fun c =>
             match List.find (of_chunk c) l with
             | Some ed => Some (chunk_result c ed)
             | None => None
             end) cs).
Proof.
  intros Hl. induction cs as [|c cs IH]; [constructor|].
  rewrite omap_cons_match.
  destruct (List.find (of_chunk c) l) as [ed|] eqn:E; [|exact IH].
  constructor; [|exact IH].
  apply find_some in E. destruct E as [Hin _].
  assert (Hd : duration_minutes (entry ed) = None).
  { eapply (proj1 (Forall_forall _ _) Hl). apply list_elem_of_In, Hin. }
  unfold chunk_result. rewrite Hd. repeat split.
Qed.

Lemma open_results_totals (results : list ChunkResult) :
  Forall (fun r => cr_actual_minutes r = None /\ cr_completed r = false
                   /\ cr_variance_minutes r = None
                   /\ cr_variance_percentage r = None) results ->
  omap cr_actual_minutes results = []
  /\ List.filter cr_completed results = [].
Proof.
  induction 1 as [|r l (Ha & Hc & _) _ [IH1 IH2]]; [split; reflexivity|].
  rewrite omap_cons_match, Ha. simpl. rewrite Hc. split; assumption.
Qed.

(** X17: [aggregate_breakdown_results] returns null exactly when no
    stored breakdown has the identifier; its estimated total is the sum of
    the chunk estimates and it reports at most one result per chunk.  On a
    store that the public operations produce no chunk result is completed
    or has actual minutes or a variance, the completed count and the
    actual total are zero, and all chunks are reported completed only for
    a breakdown without chunks. *)
Theorem aggregate_breakdown_never_completes
    (bid : string) (data : TimeData) :
  (aggregate_breakdown_results bid data = None
   <-> forall b, b ∈ breakdowns data -> breakdown_id b <> bid)
  /\ (forall r,
      aggregate_breakdown_results bid data = Some r ->
      exists b,
        find_breakdown bid data = Some b
        /\ br_total_chunks r = length (chunks b)
        /\ br_total_estimated_minutes r
           = sumR (map chunk_estimated_minutes (chunks b))
        /\ (length (br_chunk_results r) <= br_total_chunks r)%nat
        /\ (reachable data ->
            Forall (fun c => cr_actual_minutes c = None
                             /\ cr_completed c = false
                             /\ cr_variance_minutes c = None
                             /\ cr_variance_percentage c = None)
              (br_chunk_results r)
            /\ br_completed_chunks r = 0%nat
            /\ br_total_actual_minutes r = 0
            /\ br_total_variance_minutes r
               = (- br_total_estimated_minutes r)%R
            /\ (br_all_chunks_completed r = true <-> chunks b = []))).
Proof.
  split.
  - rewrite <- find_breakdown_None. unfold aggregate_breakdown_results.
    destruct (find_breakdown bid data); split; congruence.
  - intros r. unfold aggregate_breakdown_results.
    destruct (find_breakdown bid data) as [b|]; [|discriminate].
    cbv zeta. intros H; inversion H; subst r; clear H. cbn.
    exists b. split; [reflexivity|]. split; [reflexivity|].
    split; [reflexivity|].
    set (results := omap _ (chunks b)).
    split; [apply omap_length_le|].
    intros [ops Hops].
    assert (Hw : Forall well_formed_entry (entries data)).
    { rewrite <- Hops. apply run_Forall; [apply well_formed_step|constructor]. }
    destruct (planned_entries_open bid _ Hw) as (_ & _ & Hopen).
    pose proof (chunk_results_open _ (chunks b) Hopen) as Hres.
    fold (breakdown_entries bid data) in Hres. fold results in Hres.
    destruct (open_results_totals results Hres) as [Ha Hc].
    rewrite Ha, Hc. split; [exact Hres|]. split; [reflexivity|].
    split; [reflexivity|]. split; [change (sumZ []) with 0; lra|].
    simpl. destruct (chunks b); simpl; split; congruence.
Qed.

Lemma aggregate_breakdown_never_completes_witness :
  exists r,
    aggregate_breakdown_results "breakdown_1" planned_log = Some r
    /\ br_completed_chunks r = 0%nat /\ br_total_actual_minutes r = 0.
Proof.
  destruct (aggregate_breakdown_never_completes "breakdown_1" planned_log)
    as [_ H].
  destruct (aggregate_breakdown_results "breakdown_1" planned_log)
    as [r|] eqn:E; [|discriminate].
  destruct (H r eq_refl) as (b & _ & _ & _ & _ & Hr).
  destruct (Hr (reachable_run _)) as (_ & Hc & Ha & _).
  exists r. repeat split; assumption.
Defined.

(** ** Distraction patterns *)

Lemma hour_of_lt t : (hour_of t < 24)%nat.
Proof.
  unfold hour_of.
  pose proof (Z.mod_pos_bound (t / 3600000000) 24 ltac:(lia)). lia.
Qed.

Lemma weekday_of_lt t : (weekday_of t < 7)%nat.
Proof.
  unfold weekday_of.
  pose proof (Z.mod_pos_bound (t / 86400000000 + 3) 7 ltac:(lia)). lia.
Qed.

Lemma sum_list_alter_S i (l : list nat) :
  (i < length l)%nat -> sum_list (alter S i l) = S (sum_list l).
Proof.
  revert i; induction l as [|x l IH]; intros i Hi; simpl in Hi; [lia|].
  destruct i as [|i]; [reflexivity|].
  change (sum_list (alter S (S i) (x :: l)))
    with (x + sum_list (alter S i l))%nat.
  rewrite IH by lia. simpl. lia.
Qed.

Lemma bump_sum key l :
  sum_list (map snd (bump key l)) = S (sum_list (map snd l)).
Proof.
  induction l as [|[k n] l IH]; simpl; [reflexivity|].
  destruct (String.eqb k key); simpl; [reflexivity|]. rewrite IH. lia.
Qed.

Lemma tally_balanced w s d : balanced s -> balanced (tally w s d).
Proof.
  intros (H1 & H2 & H3 & H4 & H5 & H6). unfold balanced, tally; simpl.
  rewrite !length_alter, !bump_sum.
  rewrite !sum_list_alter_S
    by (rewrite ?H1, ?H2; auto using hour_of_lt, weekday_of_lt).
  repeat split; congruence.
Qed.

Lemma tally_entries_balanced l s :
  balanced s ->
  balanced (fold_left tally_entry l s)
  /\ t_total (fold_left tally_entry l s)
     = (t_total s
        + length (flat_map (fun ed => distractions (entry ed)) l))%nat.
Proof.
  revert s; induction l as [|ed l IH]; intros s Hs; simpl.
  - split; [exact Hs|lia].
  - assert (He : balanced (tally_entry s ed)
                 /\ t_total (tally_entry s ed)
                    = (t_total s + length (distractions (entry ed)))%nat).
    { unfold tally_entry. generalize (distractions (entry ed)) as ds.
      intros ds. revert s Hs.
      induction ds as [|d ds IHd]; intros s Hs; simpl; [split; [auto|lia]|].
      destruct (IHd (tally (work_type (entry ed)) s d))
        as [Hb Ht]; [apply tally_balanced, Hs|].
      split; [exact Hb|]. rewrite Ht. simpl. lia. }
    destruct He as [Hb Ht]. destruct (IH _ Hb) as [Hb' Ht'].
    split; [exact Hb'|]. rewrite Ht', Ht, length_app. lia.
Qed.

(** X18: in the result of [analyze_distraction_patterns] the hour table
    has 24 counts and the day table 7; the counts by hour, by day, by work
    type and by distraction type each add up to the total, which is the
    number of distractions recorded on the selected entries. *)
Theorem distraction_patterns_add_up
    (now : timestamp) (days : option Z) (wtype : option string)
    (data : TimeData) :
  let p := analyze_distraction_patterns now days wtype data in
  let selected :=
    List.filter
      (fun ed =>
         match wtype with
         | Some w => String.eqb (work_type (entry ed)) w
         | None => true
         end)
      (recent_entries now days data) in
  length (by_time_of_day p) = 24%nat
  /\ length (by_day_of_week p) = 7%nat
  /\ sum_list (by_time_of_day p) = total_distractions p
  /\ sum_list (by_day_of_week p) = total_distractions p
  /\ sum_list (map snd (by_work_type p)) = total_distractions p
  /\ sum_list (map snd (by_distraction_type p)) = total_distractions p
  /\ total_distractions p
     = length (flat_map (fun ed => distractions (entry ed)) selected).
Proof.
  cbv zeta. unfold analyze_distraction_patterns. cbv zeta.
  cbn [by_time_of_day by_day_of_week by_work_type by_distraction_type
       total_distractions].
  assert (Hsel :
    match wtype with
    | Some w =>
        List.filter (fun ed => String.eqb (work_type (entry ed)) w)
          (recent_entries now days data)
    | None => recent_entries now days data
    end
    = List.filter
        (fun ed =>
           match wtype with
           | Some w => String.eqb (work_type (entry ed)) w
           | None => true
           end)
        (recent_entries now days data)).
  { destruct wtype; [reflexivity|].
    induction (recent_entries now days data) as [|x l IH]; [reflexivity|].
    simpl. rewrite <- IH. reflexivity. }
  rewrite Hsel.
  match goal with
  | |- context [fold_left tally_entry ?l ?s0] =>
      destruct (tally_entries_balanced l s0)
        as [(H1 & H2 & H3 & H4 & H5 & H6) Ht]
  end.
  { repeat split. }
  repeat split; assumption.
Qed.

(** The first item with the greatest count. *)
Lemma max_from_first {A : Type} (best : A * nat) (l : list (A * nat)) :
  exists i,
    (best :: l) !! i = Some (max_from best l)
    /\ (forall j x, (best :: l) !! j = Some x ->
        (snd x <= snd (max_from best l))%nat)
    /\ (forall j x, (j < i)%nat -> (best :: l) !! j = Some x ->
        (snd x < snd (max_from best l))%nat).
Proof.
  revert best; induction l as [|x l IH]; intros best; simpl.
  - exists 0%nat. split; [reflexivity|]. split.
    + intros [|j] y Hy; inversion Hy; subst; lia.
    + intros j y Hj; lia.
  - destruct (Nat.ltb_spec (snd best) (snd x)) as [Hlt|Hge].
    + destruct (IH x) as (i & Hi & Hall & Hbefore).
      assert (Hx : (snd x <= snd (max_from x l))%nat)
        by (apply (Hall 0%nat); reflexivity).
      exists (S i). split; [exact Hi|]. split.
      * intros [|j] y Hy; [inversion Hy; subst; lia|].
        apply (Hall j). exact Hy.
      * intros [|j] y Hj Hy; [inversion Hy; subst; lia|].
        apply (Hbefore j); [lia|exact Hy].
    + destruct (IH best) as (i & Hi & Hall & Hbefore).
      assert (Hb : (snd best <= snd (max_from best l))%nat)
        by (apply (Hall 0%nat); reflexivity).
      destruct i as [|i].
      * exists 0%nat. split; [exact Hi|]. split; [|intros; lia].
        intros [|[|j]] y Hy.
        -- inversion Hy; subst; lia.
        -- inversion Hy; subst. simpl in Hi. injection Hi as Hi'.
           rewrite <- Hi'. lia.
        -- apply (Hall (S j)). exact Hy.
      * exists (S (S i)). split; [exact Hi|]. split.
        -- intros [|[|j]] y Hy.
           ++ inversion Hy; subst; lia.
           ++ inversion Hy; subst.
              assert (snd best < snd (max_from best l))%nat
                by (apply (Hbefore 0%nat); [lia|reflexivity]).
              lia.
           ++ apply (Hall (S j)). exact Hy.
        -- intros [|[|j]] y Hj Hy.
           ++ inversion Hy; subst. apply (Hbefore 0%nat); [lia|reflexivity].
           ++ inversion Hy; subst.
              assert (snd best < snd (max_from best l))%nat
                by (apply (Hbefore 0%nat); [lia|reflexivity]).
              lia.
           ++ apply (Hbefore (S j)); [lia|exact Hy].
Qed.

Lemma max_by_count_indexed (counts : list nat) (h : nat) :
  max_by_count (imap (fun i n => (i, n)) counts) = Some h ->
  exists m,
    counts !! h = Some m
    /\ (forall j n, counts !! j = Some n -> (n <= m)%nat)
    /\ (forall j n, (j < h)%nat -> counts !! j = Some n -> (n < m)%nat).
Proof.
  unfold max_by_count.
  destruct (imap (fun i n => (i, n)) counts) as [|best l] eqn:E;
    [discriminate|].
  intros H; inversion H; clear H.
  destruct (max_from_first best l) as (i & Hi & Hall & Hbefore).
  rewrite <- E in Hi, Hall, Hbefore.
  assert (Hlook : forall j y,
             imap (fun i n => (i, n)) counts !! j = Some y
             <-> counts !! j = Some (snd y) /\ fst y = j).
  { intros j [a n]. rewrite list_lookup_imap.
    destruct (counts !! j) as [n'|]; simpl; split.
    - intros Hy; inversion Hy; auto.
    - intros [Hy <-]; inversion Hy; reflexivity.
    - discriminate.
    - intros [Hy _]; discriminate. }
  apply Hlook in Hi. destruct Hi as [Hi Hfst].
  exists (snd (max_from best l)). rewrite Hfst. split; [exact Hi|]. split.
  - intros j n Hn. apply (Hall j (j, n)). apply Hlook. auto.
  - intros j n Hj Hn. apply (Hbefore j (j, n)); [lia|]. apply Hlook. auto.
Qed.

(** X19: [analyze_distraction_patterns] names a most disruptive hour and
    day exactly when some distraction was counted.  The hour it names is
    below 24 and has the greatest count, every earlier hour having a
    strictly smaller one; the day it names is below 7, is the first with
    the greatest count, and its name is read from the table that starts
    at Monday. *)
Theorem distraction_patterns_first_maximum
    (now : timestamp) (days : option Z) (wtype : option string)
    (data : TimeData) :
  let p := analyze_distraction_patterns now days wtype data in
  (total_distractions p = 0%nat <-> most_disruptive_hour p = None)
  /\ (total_distractions p = 0%nat <-> most_disruptive_day p = None)
  /\ (forall h,
      most_disruptive_hour p = Some h ->
      (h < 24)%nat
      /\ exists m,
           by_time_of_day p !! h = Some m
           /\ (forall j n, by_time_of_day p !! j = Some n -> (n <= m)%nat)
           /\ (forall j n, (j < h)%nat -> by_time_of_day p !! j = Some n ->
               (n < m)%nat))
  /\ (forall d,
      most_disruptive_day p = Some d ->
      (d < 7)%nat
      /\ most_disruptive_day_name p = day_names !! d
      /\ exists m,
           by_day_of_week p !! d = Some m
           /\ (forall j n, by_day_of_week p !! j = Some n -> (n <= m)%nat)
           /\ (forall j n, (j < d)%nat -> by_day_of_week p !! j = Some n ->
               (n < m)%nat)).
Proof.
  cbv zeta. unfold analyze_distraction_patterns. cbv zeta.
  cbn [by_time_of_day by_day_of_week total_distractions most_disruptive_hour
       most_disruptive_day most_disruptive_day_name].
  match goal with
  | |- context [fold_left tally_entry ?l ?s0] =>
      destruct (tally_entries_balanced l s0) as [(L24 & L7 & _) _];
        [repeat split|];
      set (s := fold_left tally_entry l s0) in *
  end.
  assert (Hsome : forall (counts : list nat),
             counts <> [] ->
             max_by_count (imap (fun i n => (i, n)) counts) <> None).
  { intros [|c cs] Hne; [congruence|]. discriminate. }
  assert (H24 : t_by_time_of_day s <> [])
    by (intros E; rewrite E in L24; discriminate).
  assert (H7 : t_by_day_of_week s <> [])
    by (intros E; rewrite E in L7; discriminate).
  destruct (Nat.ltb_spec 0 (t_total s)) as [Hpos|Hzero].
  - split; [split; [lia|intros E; exfalso; exact (Hsome _ H24 E)]|].
    split; [split; [lia|intros E; exfalso; exact (Hsome _ H7 E)]|].
    split.
    + intros h Hh. destruct (max_by_count_indexed _ _ Hh) as (m & Hm & Hr).
      split; [|exists m; split; [exact Hm|exact Hr]].
      rewrite <- L24. eapply lookup_lt_Some; eauto.
    + intros d Hd. rewrite Hd.
      destruct (max_by_count_indexed _ _ Hd) as (m & Hm & Hr).
      split; [rewrite <- L7; eapply lookup_lt_Some; eauto|].
      split; [reflexivity|]. exists m. split; [exact Hm|exact Hr].
  - split; [split; [reflexivity|lia]|]. split; [split; [reflexivity|lia]|].
    split; intros x Hx; discriminate.
Qed.

Lemma distraction_patterns_first_maximum_witness :
  exists h,
    most_disruptive_hour
      (analyze_distraction_patterns 0 None None distraction_scenario)
    = Some h
    /\ (h < 24)%nat.
Proof.
  destruct (most_disruptive_hour
              (analyze_distraction_patterns 0 None None distraction_scenario))
    as [h|] eqn:E; [|vm_compute in E; discriminate].
  exists h. split; [reflexivity|].
  destruct (distraction_patterns_first_maximum 0 None None
              distraction_scenario) as (_ & _ & H & _).
  apply (H h E).
Defined.

(** ** Aggregation tables and rankings *)

Lemma time_of_add_time k k' m l :
  time_of k (add_time k' m l)
  = if String.eqb k' k then Some (bumped m (time_of k l)) else time_of k l.
Proof.
  induction l as [|[k0 [t c]] l IH].
  - unfold time_of; simpl. destruct (String.eqb k' k); reflexivity.
  - unfold time_of in *. cbn [add_time].
    destruct (String.eqb_spec k0 k') as [->|Hne]; cbn [List.find fst snd].
    + destruct (String.eqb k' k); reflexivity.
    + destruct (String.eqb_spec k0 k) as [->|Hne'].
      * destruct (String.eqb_spec k' k); [congruence|reflexivity].
      * exact IH.
Qed.

Lemma add_time_keys k m l x :
  x ∈ map fst (add_time k m l) -> x = k \/ x ∈ map fst l.
Proof.
  induction l as [|[k0 [t c]] l IH]; cbn [add_time].
  - simpl. intros H. apply elem_of_cons in H. destruct H as [H|H]; auto.
  - destruct (String.eqb_spec k0 k) as [->|Hne]; cbn [map fst].
    + auto.
    + intros H. apply elem_of_cons in H. destruct H as [->|H].
      * right; left.
      * destruct (IH H); [auto|right; right; assumption].
Qed.

(** A table with one row per key, each row counting at least one item. *)
Lemma add_time_table k m l :
  NoDup (map fst l) /\ Forall (fun p => (1 <= snd (snd p))%nat) l ->
  NoDup (map fst (add_time k m l))
  /\ Forall (fun p => (1 <= snd (snd p))%nat) (add_time k m l).
Proof.
  induction l as [|[k0 [t c]] l IH]; cbn [add_time].
  - intros _. split; [apply NoDup_singleton|]. repeat constructor.
  - intros [Hnd Hc]. cbn [map fst] in Hnd.
    apply NoDup_cons in Hnd. destruct Hnd as [Hk0 Hnd].
    apply Forall_cons in Hc. destruct Hc as [Hc0 Hc].
    destruct (String.eqb_spec k0 k) as [->|Hne].
    + split; [cbn [map fst]; apply NoDup_cons; auto|].
      constructor; [simpl; lia|exact Hc].
    + destruct (IH (conj Hnd Hc)) as [Hnd' Hc'].
      split; [|constructor; assumption].
      cbn [map fst]. apply NoDup_cons. split; [|exact Hnd'].
      intros H. apply add_time_keys in H. destruct H; [congruence|auto].
Qed.

Lemma fold_add_time_table d refs acc :
  NoDup (map fst acc) /\ Forall (fun p => (1 <= snd (snd p))%nat) acc ->
  NoDup (map fst (fold_left (fun acc' k => add_time k d acc') refs acc))
  /\ Forall (fun p => (1 <= snd (snd p))%nat)
       (fold_left (fun acc' k => add_time k d acc') refs acc).
Proof.
  revert acc; induction refs as [|k rs IH]; intros acc H; simpl; [exact H|].
  apply IH, add_time_table, H.
Qed.

Lemma knowledge_time_table data :
  NoDup (map fst (knowledge_time data))
  /\ Forall (fun p => (1 <= snd (snd p))%nat) (knowledge_time data).
Proof.
  unfold knowledge_time.
  assert (H : NoDup (map fst (@nil (string * (Z * nat))))
              /\ Forall (fun p : string * (Z * nat) => (1 <= snd (snd p))%nat)
                   [])
    by (split; constructor).
  revert H. generalize (@nil (string * (Z * nat))) as acc.
  induction (entries data) as [|ed es IH]; intros acc H; simpl; [exact H|].
  apply IH. destruct (duration_minutes (entry ed)); [|exact H].
  apply fold_add_time_table, H.
Qed.

Lemma time_of_elem k v l : time_of k l = Some v -> (k, v) ∈ l.
Proof.
  unfold time_of. induction l as [|[k0 v0] l IH]; simpl; [discriminate|].
  destruct (String.eqb_spec k0 k) as [->|Hne]; simpl.
  - intros H; inversion H; left.
  - intros H; right; auto.
Qed.

Lemma elem_time_of k v l :
  NoDup (map fst l) -> (k, v) ∈ l -> time_of k l = Some v.
Proof.
  unfold time_of. induction l as [|[k0 v0] l IH]; intros Hnd Hin.
  - apply elem_of_nil in Hin. contradiction.
  - cbn [map fst] in Hnd. apply NoDup_cons in Hnd. destruct Hnd as [Hk0 Hnd].
    cbn [List.find fst].
    apply elem_of_cons in Hin. destruct Hin as [E|Hin].
    + inversion E; subst. rewrite String.eqb_refl. reflexivity.
    + destruct (String.eqb_spec k0 k) as [->|Hne]; [|auto].
      exfalso. apply Hk0.
      apply list_elem_of_fmap. exists (k, v). split; [reflexivity|exact Hin].
Qed.

Lemma insert_by_total_perm p l : insert_by_total p l ≡ₚ p :: l.
Proof.
  induction l as [|q l IH]; simpl; [reflexivity|].
  destruct (_ <? _); [reflexivity|].
  rewrite IH. apply Permutation_swap.
Qed.

Lemma sort_by_total_perm l : sort_by_total l ≡ₚ l.
Proof.
  unfold sort_by_total.
  assert (H : forall acc,
             fold_left (fun sorted p => insert_by_total p sorted) l acc
             ≡ₚ acc ++ l).
  { induction l as [|p l IH]; intros acc; simpl.
    - rewrite app_nil_r. reflexivity.
    - rewrite IH, insert_by_total_perm.
      rewrite (Permutation_middle acc l p). reflexivity. }
  apply (H []).
Qed.

Lemma insert_by_total_descending p l :
  descending (fun q : string * (Z * nat) => fst (snd q)) l ->
  descending (fun q : string * (Z * nat) => fst (snd q))
    (insert_by_total p l).
Proof.
  induction l as [|q l IH]; intros H; simpl; [auto|].
  destruct H as [Hq Hl].
  destruct (Z.ltb_spec (fst (snd q)) (fst (snd p))).
  - simpl. split; [|split; assumption].
    constructor; [lia|].
    eapply Forall_impl; [exact Hq|]. simpl. intros; lia.
  - simpl. split; [|apply IH, Hl].
    rewrite insert_by_total_perm. constructor; [lia|exact Hq].
Qed.

Lemma sort_by_total_descending l :
  descending (fun q : string * (Z * nat) => fst (snd q)) (sort_by_total l).
Proof.
  unfold sort_by_total.
  assert (H : forall acc,
             descending (fun q : string * (Z * nat) => fst (snd q)) acc ->
             descending (fun q : string * (Z * nat) => fst (snd q))
               (fold_left (fun sorted p => insert_by_total p sorted) l acc)).
  { induction l as [|p l IH]; intros acc Ha; simpl; [exact Ha|].
    apply IH, insert_by_total_descending, Ha. }
  apply H. exact I.
Qed.

Lemma with_ranks_lookup l i r :
  with_ranks l !! i = Some r <->
  exists p,
    l !! i = Some p
    /\ r = mkRanked (fst p) (fst (snd p)) (snd (snd p)) (i + 1).
Proof.
  unfold with_ranks. rewrite list_lookup_imap.
  destruct (l !! i) as [p|]; simpl; split.
  - intros H; inversion H. exists p; auto.
  - intros (q & Hq & ->). inversion Hq; reflexivity.
  - discriminate.
  - intros (q & Hq & _); discriminate.
Qed.

Lemma with_ranks_elem l r :
  r ∈ with_ranks l ->
  (ranked_ref r, (ranked_total_minutes r, ranked_work_item_count r)) ∈ l.
Proof.
  intros H. apply list_elem_of_lookup in H. destruct H as [i Hi].
  apply with_ranks_lookup in Hi. destruct Hi as ([k [t c]] & Hp & ->).
  simpl. apply list_elem_of_lookup. exists i. exact Hp.
Qed.

Lemma elem_with_ranks l k t c :
  (k, (t, c)) ∈ l ->
  exists r,
    r ∈ with_ranks l
    /\ ranked_ref r = k /\ ranked_total_minutes r = t
    /\ ranked_work_item_count r = c.
Proof.
  intros H. apply list_elem_of_lookup in H. destruct H as [i Hi].
  exists (mkRanked k t c (i + 1)). split; [|auto].
  apply list_elem_of_lookup. exists i. apply with_ranks_lookup.
  exists (k, (t, c)). auto.
Qed.

Lemma ranked_imap_refs (f : nat -> nat) (l : list (string * (Z * nat))) :
  map ranked_ref
    (imap (fun i p => mkRanked (fst p) (fst (snd p)) (snd (snd p)) (f i)) l)
  = map fst l.
Proof.
  revert f; induction l as [|p l IH]; intros f; [reflexivity|].
  cbn [imap map ranked_ref]. f_equal. apply (IH (fun i => f (S i))).
Qed.

Lemma with_ranks_refs l : map ranked_ref (with_ranks l) = map fst l.
Proof. apply ranked_imap_refs. Qed.

Lemma with_ranks_descending l :
  descending (fun q : string * (Z * nat) => fst (snd q)) l ->
  descending ranked_total_minutes (with_ranks l).
Proof.
  unfold with_ranks.
  assert (H : forall (f : nat -> nat),
             descending (fun q : string * (Z * nat) => fst (snd q)) l ->
             descending ranked_total_minutes
               (imap (fun i p => mkRanked (fst p) (fst (snd p))
                                   (snd (snd p)) (f i)) l)).
  { induction l as [|p l IH]; intros f Hd; [exact I|].
    destruct Hd as [Hp Hl]. cbn [imap descending]. split.
    - apply Forall_forall. intros r Hr.
      apply list_elem_of_lookup in Hr. destruct Hr as [i Hi].
      rewrite list_lookup_imap in Hi.
      destruct (l !! i) as [q|] eqn:Eq; [|discriminate].
      simpl in Hi. inversion Hi; subst. simpl.
      rewrite Forall_forall in Hp. apply Hp.
      apply list_elem_of_lookup. exists i. exact Eq.
    - apply (IH (fun i => f (S i))). exact Hl. }
  apply (H (fun i => (i + 1)%nat)).
Qed.

Lemma filter_keys_NoDup (f : string * (Z * nat) -> bool) l :
  NoDup (map fst l) -> NoDup (map fst (List.filter f l)).
Proof.
  induction l as [|p l IH]; intros Hnd; [constructor|].
  cbn [map] in Hnd. apply NoDup_cons in Hnd. destruct Hnd as [Hp Hl].
  cbn [List.filter]. destruct (f p); [|auto].
  cbn [map]. apply NoDup_cons. split; [|auto].
  intros H. apply Hp. apply list_elem_of_fmap in H.
  destruct H as (q & Hq & Hin).
  apply list_elem_of_In, filter_In in Hin. destruct Hin as [Hin _].
  apply list_elem_of_fmap. exists q. split; [exact Hq|].
  apply list_elem_of_In, Hin.
Qed.

(** X20: [rank_expertise_by_time] lists every knowledge area once; the
    areas are numbered 1, 2, 3, ... in the order of the list, their totals
    never increase along it, each total reaches the threshold and each
    area counts at least one work item. *)
Theorem rank_expertise_ranked (min_minutes : Z) (data : TimeData) :
  let ranking := rank_expertise_by_time min_minutes data in
  (forall i r, ranking !! i = Some r -> ranked_rank r = (i + 1)%nat)
  /\ descending ranked_total_minutes ranking
  /\ NoDup (map ranked_ref ranking)
  /\ Forall
       (fun r =>
          min_minutes <= ranked_total_minutes r
          /\ (1 <= ranked_work_item_count r)%nat)
       ranking.
Proof.
  cbv zeta. unfold rank_expertise_by_time.
  destruct (knowledge_time_table data) as [Hnd Hc].
  set (kept := List.filter (fun p => min_minutes <=? fst (snd p))
                 (knowledge_time data)).
  assert (Hkept : forall p, p ∈ sort_by_total kept ->
                   p ∈ knowledge_time data /\ min_minutes <= fst (snd p)).
  { intros p Hp. rewrite sort_by_total_perm in Hp.
    apply list_elem_of_In, filter_In in Hp. destruct Hp as [Hin Hle].
    split; [apply list_elem_of_In, Hin|lia]. }
  split; [|split; [|split]].
  - intros i r Hr. apply with_ranks_lookup in Hr.
    destruct Hr as (p & _ & ->). reflexivity.
  - apply with_ranks_descending, sort_by_total_descending.
  - rewrite with_ranks_refs.
    change (map fst ?x) with (fst <$> x).
    rewrite sort_by_total_perm.
    apply (filter_keys_NoDup _ _ Hnd).
  - apply Forall_forall. intros r Hr.
    apply with_ranks_elem, Hkept in Hr. destruct Hr as [Hin Hle].
    split; [exact Hle|].
    rewrite Forall_forall in Hc. apply (Hc _ Hin).
Qed.

Lemma fold_add_time_time_of k d refs acc :
  NoDup refs ->
  time_of k (fold_left (fun acc' k' => add_time k' d acc') refs acc)
  = if bool_decide (k ∈ refs) then Some (bumped d (time_of k acc))
    else time_of k acc.
Proof.
  revert acc; induction refs as [|k' rs IH]; intros acc Hnd.
  - rewrite bool_decide_eq_false_2 by apply not_elem_of_nil. reflexivity.
  - apply NoDup_cons in Hnd. destruct Hnd as [Hk' Hrs].
    cbn [fold_left]. rewrite IH by assumption. rewrite time_of_add_time.
    destruct (String.eqb_spec k' k) as [->|Hne].
    + rewrite (bool_decide_eq_false_2 (k ∈ rs)) by assumption.
      rewrite bool_decide_eq_true_2 by left. reflexivity.
    + destruct (decide (k ∈ rs)) as [Hin|Hout].
      * rewrite (bool_decide_eq_true_2 (k ∈ rs)) by assumption.
        rewrite bool_decide_eq_true_2 by (right; assumption). reflexivity.
      * rewrite (bool_decide_eq_false_2 (k ∈ rs)) by assumption.
        rewrite bool_decide_eq_false_2; [reflexivity|].
        intros H. apply elem_of_cons in H. destruct H; [congruence|auto].
Qed.

(** What the table holds for a key after the durations [ds] were added
    to it one by one. *)
Lemma bumped_fold ds o :
  fold_left (fun o' d => Some (bumped d o')) ds o
  = match ds with
    | [] => o
    | _ :: _ =>
        Some (fst (default (0%Z, 0%nat) o) + sumZ ds,
              (snd (default (0%Z, 0%nat) o) + length ds)%nat)
    end.
Proof.
  revert o; induction ds as [|d ds IH]; intros o; [reflexivity|].
  cbn [fold_left]. rewrite IH.
  destruct ds as [|d' ds].
  - destruct o as [[t c]|]; cbn [bumped from_option id fst snd length];
      rewrite sumZ_cons; change (sumZ []) with 0;
      f_equal; f_equal; unfold Datatypes.id; cbn [fst snd]; lia.
  - destruct o as [[t c]|]; cbn [bumped from_option id fst snd length];
      rewrite (sumZ_cons d); f_equal; f_equal; unfold Datatypes.id; cbn [fst snd]; lia.
Qed.

Lemma knowledge_time_time_of k es acc :
  Forall (fun ed => NoDup (knowledge_refs (entry ed))) es ->
  time_of k
    (fold_left
       (fun acc ed =>
          match duration_minutes (entry ed) with
          | None => acc
          | Some duration =>
              fold_left (fun acc' k => add_time k duration acc')
                (knowledge_refs (entry ed)) acc
          end)
       es acc)
  = fold_left (fun o' d => Some (bumped d o'))
      (omap (fun ed => duration_minutes (entry ed))
         (filter
            (fun ed => bool_decide (k ∈ knowledge_refs (entry ed))) es))
      (time_of k acc).
Proof.
  revert acc; induction es as [|ed es IH]; intros acc Hnd; [reflexivity|].
  apply Forall_cons in Hnd. destruct Hnd as [Hed Hes].
  cbn [fold_left]. rewrite IH by assumption. rewrite filter_cons.
  destruct (decide (bool_decide (k ∈ knowledge_refs (entry ed)))) as [Hin|Hout].
  - rewrite omap_cons_match.
    destruct (duration_minutes (entry ed)) as [d|]; [|reflexivity].
    cbn [fold_left]. rewrite fold_add_time_time_of by assumption.
    apply Is_true_true in Hin. rewrite Hin. reflexivity.
  - destruct (duration_minutes (entry ed)) as [d|]; [|reflexivity].
    rewrite fold_add_time_time_of by assumption.
    apply Is_true_false in Hout. rewrite Hout. reflexivity.
Qed.

Lemma investment_fields k data :
  total_minutes (get_knowledge_time_investment k data)
  = sumZ (durations_of (get_entries_by_knowledge k data))
  /\ work_item_count (get_knowledge_time_investment k data)
     = length (durations_of (get_entries_by_knowledge k data)).
Proof.
  split; [apply total_minutes_investment|].
  unfold get_knowledge_time_investment.
  assert (H : forall l : list TimeEntry,
             length (filter (fun e : TimeEntry => is_Some (duration_minutes e))
                       l)
             = length (durations_of l)).
  { induction l as [|e l IH]; [reflexivity|].
    rewrite filter_cons. unfold durations_of in *. rewrite omap_cons_match.
    destruct (decide (is_Some (duration_minutes e))) as [Hs|Hn].
    - destruct Hs as [d Hd]. rewrite Hd. simpl. rewrite IH. reflexivity.
    - destruct (duration_minutes e) eqn:E; [exfalso; apply Hn; eauto|].
      exact IH. }
  rewrite <- H.
  destruct (filter _ (get_entries_by_knowledge k data)); reflexivity.
Qed.

Lemma knowledge_time_of k data :
  Forall (fun ed => NoDup (knowledge_refs (entry ed))) (entries data) ->
  time_of k (knowledge_time data)
  = match durations_of (get_entries_by_knowledge k data) with
    | [] => None
    | _ :: _ =>
        Some (total_minutes (get_knowledge_time_investment k data),
              work_item_count (get_knowledge_time_investment k data))
    end.
Proof.
  intros Hnd. destruct (investment_fields k data) as [-> ->].
  unfold knowledge_time. rewrite knowledge_time_time_of by assumption.
  rewrite bumped_fold. unfold get_entries_by_knowledge.
  rewrite durations_of_filtered.
  destruct (omap _ _); [reflexivity|].
  cbn [time_of List.find default fst snd]. f_equal.
Qed.

(** X21: when no entry lists a knowledge reference twice, the ranking
    agrees with [get_knowledge_time_investment]: a knowledge area is
    ranked exactly when its investment counts a work item and its total
    reaches the threshold, and the ranked total and count are those of
    the investment. *)
Theorem rank_expertise_matches_investment
    (min_minutes : Z) (k : string) (data : TimeData) :
  Forall (fun ed => NoDup (knowledge_refs (entry ed))) (entries data) ->
  let investment := get_knowledge_time_investment k data in
  ((exists r, r ∈ rank_expertise_by_time min_minutes data /\ ranked_ref r = k)
   <-> (1 <= work_item_count investment)%nat
       /\ min_minutes <= total_minutes investment)
  /\ (forall r,
        r ∈ rank_expertise_by_time min_minutes data -> ranked_ref r = k ->
        ranked_total_minutes r = total_minutes investment
        /\ ranked_work_item_count r = work_item_count investment).
Proof.
  intros Hnd. cbv zeta.
  pose proof (knowledge_time_of k data Hnd) as Htime.
  destruct (investment_fields k data) as [_ Hcount].
  destruct (knowledge_time_table data) as [Hkeys _].
  assert (Hranked : forall r,
             r ∈ rank_expertise_by_time min_minutes data ->
             ranked_ref r = k ->
             time_of k (knowledge_time data)
             = Some (ranked_total_minutes r, ranked_work_item_count r)
             /\ min_minutes <= ranked_total_minutes r).
  { intros r Hr Hk. unfold rank_expertise_by_time in Hr.
    apply with_ranks_elem in Hr. rewrite sort_by_total_perm in Hr.
    apply list_elem_of_In, filter_In in Hr. destruct Hr as [Hin Hle].
    rewrite Hk in Hin. cbn [fst snd] in Hle.
    split; [|lia]. apply elem_time_of; [exact Hkeys|].
    apply list_elem_of_In, Hin. }
  split; [split|].
  - intros (r & Hr & Hk). destruct (Hranked r Hr Hk) as [Ht Hle].
    rewrite Htime in Ht.
    destruct (durations_of (get_entries_by_knowledge k data));
      [discriminate|].
    inversion Ht. rewrite Hcount. simpl. split; lia.
  - intros [Hone Hle]. rewrite Hcount in Hone.
    destruct (durations_of (get_entries_by_knowledge k data)) as [|d ds];
      [simpl in Hone; lia|].
    apply time_of_elem in Htime.
    assert (Hin : (k, (total_minutes (get_knowledge_time_investment k data),
                       work_item_count (get_knowledge_time_investment k data)))
                  ∈ sort_by_total
                      (List.filter (fun p => min_minutes <=? fst (snd p))
                         (knowledge_time data))).
    { rewrite sort_by_total_perm. apply list_elem_of_In, filter_In.
      split; [apply list_elem_of_In, Htime|]. cbn [fst snd]. lia. }
    apply elem_with_ranks in Hin. destruct Hin as (r & Hr & Hk & _).
    exists r. split; [exact Hr|exact Hk].
  - intros r Hr Hk. destruct (Hranked r Hr Hk) as [Ht _].
    rewrite Htime in Ht.
    destruct (durations_of (get_entries_by_knowledge k data));
      [discriminate|].
    inversion Ht. split; reflexivity.
Qed.

(** ** Solo and collaborative work *)

Lemma durations_sum_split (f : EntryDict -> bool) l :
  durations_sum (List.filter f l)
  + durations_sum (List.filter (fun ed => negb (f ed)) l)
  = durations_sum l.
Proof.
  induction l as [|ed l IH]; [reflexivity|].
  cbn [List.filter]. destruct (f ed); cbn [negb];
    rewrite !durations_sum_cons; destruct (duration_minutes (entry ed)); lia.
Qed.

Lemma durations_sum_completed (f : EntryDict -> bool) l :
  durations_sum (List.filter f (List.filter completed l))
  = durations_sum (List.filter f l).
Proof.
  induction l as [|ed l IH]; [reflexivity|].
  cbn [List.filter]. unfold completed at 1.
  destruct (duration_minutes (entry ed)) as [d|] eqn:E.
  - cbn [List.filter]. destruct (f ed); [|exact IH].
    rewrite !durations_sum_cons, E, IH. reflexivity.
  - destruct (f ed); [|exact IH].
    rewrite durations_sum_cons, E. exact IH.
Qed.

Lemma durations_sum_nonneg l :
  Forall (fun ed => forall d, duration_minutes (entry ed) = Some d -> 0 <= d)
    l ->
  0 <= durations_sum l.
Proof. apply sumZ_omap_nonneg. Qed.

Lemma filter_lengths {A : Type} (f : A -> bool) (l : list A) :
  (length (List.filter (fun x => negb (f x)) l) + length (List.filter f l)
   = length l)%nat.
Proof.
  induction l as [|x l IH]; [reflexivity|].
  cbn [List.filter]. destruct (f x); cbn [negb length]; lia.
Qed.

Lemma Forall_list_filter {A : Type} (P : A -> Prop) (f : A -> bool) l :
  Forall P l -> Forall P (List.filter f l).
Proof.
  induction 1 as [|x l Hx _ IH]; [constructor|].
  cbn [List.filter]. destruct (f x); [constructor; assumption|exact IH].
Qed.

Lemma add_minutes_sum k d l :
  sumZ (map snd (add_minutes k d l)) = sumZ (map snd l) + d.
Proof.
  induction l as [|[k0 v] l IH]; cbn [add_minutes].
  - cbn [map snd]. rewrite sumZ_cons. change (sumZ []) with 0. lia.
  - destruct (String.eqb k0 k); cbn [map snd]; rewrite !sumZ_cons;
      [lia|rewrite IH; lia].
Qed.

Lemma minutes_fold_sum l acc :
  sumZ (map snd
          (fold_left
             (fun acc ed =>
                match duration_minutes (entry ed) with
                | Some duration =>
                    add_minutes (work_type (entry ed)) duration acc
                | None => acc
                end)
             l acc))
  = sumZ (map snd acc) + durations_sum l.
Proof.
  revert acc; induction l as [|ed l IH]; intros acc.
  - change (durations_sum []) with 0. cbn [fold_left]. lia.
  - cbn [fold_left]. rewrite IH, durations_sum_cons.
    destruct (duration_minutes (entry ed)); [|reflexivity].
    rewrite add_minutes_sum. lia.
Qed.

Lemma minutes_fold_completed (f : EntryDict -> bool) l acc :
  fold_left
    (fun acc ed =>
       match duration_minutes (entry ed) with
       | Some duration => add_minutes (work_type (entry ed)) duration acc
       | None => acc
       end)
    (List.filter f (List.filter completed l)) acc
  = fold_left
      (fun acc ed =>
         match duration_minutes (entry ed) with
         | Some duration => add_minutes (work_type (entry ed)) duration acc
         | None => acc
         end)
      (List.filter f l) acc.
Proof.
  revert acc; induction l as [|ed l IH]; intros acc; [reflexivity|].
  cbn [List.filter]. unfold completed at 1.
  destruct (duration_minutes (entry ed)) as [d|] eqn:E.
  - cbn [List.filter]. destruct (f ed); [|apply IH].
    cbn [fold_left]. rewrite E. apply IH.
  - destruct (f ed); [|apply IH].
    cbn [fold_left]. rewrite E. apply IH.
Qed.

(** The four accumulators of the loop of [identify_collaboration_patterns]
    after the loop. *)
Lemma collaboration_fold l pt bt c s :
  fold_left collaboration_step l (pt, bt, c, s)
  = (fold_left
       (fun acc ed =>
          match duration_minutes (entry ed) with
          | Some duration =>
              fold_left (fun acc' p => add_time p duration acc')
                (people_refs (entry ed)) acc
          | None => acc
          end)
       l pt,
     fold_left
       (fun acc ed =>
          match duration_minutes (entry ed) with
          | Some duration => add_minutes (work_type (entry ed)) duration acc
          | None => acc
          end)
       (List.filter is_collaborative l) bt,
     c + durations_sum (List.filter is_collaborative l),
     s + durations_sum (List.filter (fun ed => negb (is_collaborative ed)) l)).
Proof.
  revert pt bt c s; induction l as [|ed l IH]; intros pt bt c s.
  - change (durations_sum (List.filter _ [])) with 0. cbn [fold_left List.filter].
    rewrite !Z.add_0_r. reflexivity.
  - cbn [fold_left List.filter].
    assert (Hs : collaboration_step (pt, bt, c, s) ed
                 = match duration_minutes (entry ed) with
                   | None => (pt, bt, c, s)
                   | Some duration =>
                       match people_refs (entry ed) with
                       | [] => (pt, bt, c, s + duration)
                       | prefs =>
                           (fold_left (fun acc p => add_time p duration acc)
                              prefs pt,
                            add_minutes (work_type (entry ed)) duration bt,
                            c + duration, s)
                       end
                   end) by reflexivity.
    rewrite Hs; clear Hs.
    destruct (is_collaborative ed) eqn:Hc; unfold is_collaborative in Hc;
      destruct (people_refs (entry ed)) as [|p ps] eqn:Ep; try discriminate;
      destruct (duration_minutes (entry ed)) as [d|] eqn:E; cbn [negb];
      rewrite IH, ?durations_sum_cons, ?E; cbn [fold_left];
      rewrite ?E, ?Ep, ?Z.add_assoc; reflexivity.
Qed.

Lemma people_time_table l acc :
  NoDup (map fst acc) /\ Forall (fun p => (1 <= snd (snd p))%nat) acc ->
  NoDup
    (map fst
       (fold_left
          (fun acc ed =>
             match duration_minutes (entry ed) with
             | Some duration =>
                 fold_left (fun acc' p => add_time p duration acc')
                   (people_refs (entry ed)) acc
             | None => acc
             end)
          l acc)).
Proof.
  revert acc; induction l as [|ed l IH]; intros acc H; [apply H|].
  cbn [fold_left]. apply IH.
  destruct (duration_minutes (entry ed)); [|exact H].
  apply fold_add_time_table, H.
Qed.

Lemma percentage_bounds (part total : Z) :
  0 <= part <= total ->
  (0 <= (if 0 <? total then IZR part / IZR total * 100 else 0) <= 100)%R.
Proof.
  intros [H0 H1]. destruct (Z.ltb_spec 0 total) as [Hpos|_]; [|lra].
  assert (Ht : (0 < IZR total)%R) by (apply IZR_lt; exact Hpos).
  assert (Hp : (0 <= IZR part)%R) by (apply IZR_le; exact H0).
  assert (Hle : (IZR part <= IZR total)%R) by (apply IZR_le; exact H1).
  assert (Hq : (0 <= IZR part / IZR total <= 1)%R).
  { split.
    - apply Rmult_le_pos; [exact Hp|]. left. apply Rinv_0_lt_compat, Ht.
    - apply (Rmult_le_reg_r (IZR total)); [exact Ht|].
      replace (IZR part / IZR total * IZR total)%R with (IZR part)
        by (field; lra).
      lra. }
  lra.
Qed.

(** X22: [identify_collaboration_patterns] splits the minutes of the
    entries in its window: the collaboration time is the total of the
    entries with people, the solo time the total of those without, and the
    two add up to the total of the window; the breakdown by work type adds
    up to the collaboration time; the collaborators are listed once each,
    numbered from 1, by total from the greatest down; and when no stored
    duration is negative the percentage lies between 0 and 100. *)
Theorem collaboration_patterns_split
    (now : timestamp) (days : option Z) (data : TimeData) :
  let p := identify_collaboration_patterns now days data in
  let recent := recent_entries now days data in
  total_collaboration_time p
  = durations_sum (List.filter is_collaborative recent)
  /\ solo_work_time p
     = durations_sum (List.filter (fun ed => negb (is_collaborative ed)) recent)
  /\ total_collaboration_time p + solo_work_time p = durations_sum recent
  /\ sumZ (map snd (collaboration_by_work_type p)) = total_collaboration_time p
  /\ (forall i r,
        frequent_collaborators p !! i = Some r -> ranked_rank r = (i + 1)%nat)
  /\ descending ranked_total_minutes (frequent_collaborators p)
  /\ NoDup (map ranked_ref (frequent_collaborators p))
  /\ (nonneg_durations data ->
      (0 <= collaboration_percentage p <= 100)%R).
Proof.
  cbv zeta. unfold identify_collaboration_patterns.
  rewrite collaboration_fold.
  cbn [total_collaboration_time solo_work_time collaboration_by_work_type
       frequent_collaborators collaboration_percentage].
  set (recent := recent_entries now days data).
  rewrite !Z.add_0_l.
  split; [reflexivity|]. split; [reflexivity|].
  split; [apply durations_sum_split|].
  split; [rewrite minutes_fold_sum; reflexivity|].
  split.
  { intros i r Hr. apply with_ranks_lookup in Hr.
    destruct Hr as (q & _ & ->). reflexivity. }
  split; [apply with_ranks_descending, sort_by_total_descending|].
  split.
  { rewrite with_ranks_refs. change (map fst ?x) with (fst <$> x).
    rewrite sort_by_total_perm. apply people_time_table.
    split; constructor. }
  intros Hnn.
  assert (Hrecent :
    Forall (fun ed => forall d, duration_minutes (entry ed) = Some d -> 0 <= d)
      recent).
  { subst recent. unfold recent_entries.
    destruct days; [apply Forall_list_filter|]; exact Hnn. }
  apply percentage_bounds.
  pose proof (durations_sum_nonneg _
                (Forall_list_filter _ is_collaborative _ Hrecent)).
  pose proof (durations_sum_nonneg _
                (Forall_list_filter _ (fun ed => negb (is_collaborative ed)) _
                   Hrecent)).
  lia.
Qed.

Lemma collaboration_patterns_split_witness :
  (0 <= collaboration_percentage
          (identify_collaboration_patterns 0%Z None collaboration_log)
   <= 100)%R.
Proof.
  destruct (collaboration_patterns_split 0 None collaboration_log)
    as (_ & _ & _ & _ & _ & _ & _ & H).
  apply H. apply (monotone_clock_nonneg_durations _ 0).
  vm_compute. repeat split; discriminate.
Defined.

(** X23: the analysis of all work by
    [categorize_work_type_by_collaboration] partitions the completed
    entries: the two counts add up to their number and the two totals to
    the sum of their durations; in each category the breakdown by work
    type adds up to the category's total; when no stored duration is
    negative each percentage lies between 0 and 100, both are 0 when the
    total is not positive, and the solo one is 100 when the total is
    positive and no time is collaborative; and the totals, the
    collaborative breakdown and the collaborative percentage are those of
    [identify_collaboration_patterns] over all time. *)
Theorem categorize_all_work_partition (now : timestamp) (data : TimeData) :
  let solo := fst (fst (categorize_all_work data)) in
  let collaborative := snd (fst (categorize_all_work data)) in
  let total_time := fst (snd (categorize_all_work data)) in
  let total_count := snd (snd (categorize_all_work data)) in
  let p := identify_collaboration_patterns now None data in
  total_count = length (List.filter completed (entries data))
  /\ (share_work_item_count solo + share_work_item_count collaborative)%nat
     = total_count
  /\ total_time = durations_sum (entries data)
  /\ share_total_minutes solo + share_total_minutes collaborative = total_time
  /\ sumZ (map snd (share_by_work_type solo)) = share_total_minutes solo
  /\ sumZ (map snd (share_by_work_type collaborative))
     = share_total_minutes collaborative
  /\ (nonneg_durations data ->
      (0 <= share_percentage_of_total_time solo <= 100)%R
      /\ (0 <= share_percentage_of_total_time collaborative <= 100)%R)
  /\ (total_time <= 0 ->
      share_percentage_of_total_time solo = 0%R
      /\ share_percentage_of_total_time collaborative = 0%R)
  /\ (0 < total_time -> share_total_minutes collaborative = 0 ->
      share_percentage_of_total_time solo = 100%R
      /\ share_percentage_of_total_time collaborative = 0%R)
  /\ share_total_minutes solo = solo_work_time p
  /\ share_total_minutes collaborative = total_collaboration_time p
  /\ share_by_work_type collaborative = collaboration_by_work_type p
  /\ share_percentage_of_total_time collaborative = collaboration_percentage p.
Proof.
  cbv zeta. unfold categorize_all_work, identify_collaboration_patterns.
  cbv zeta. rewrite collaboration_fold.
  cbn [fst snd work_share share_total_minutes share_work_item_count
       share_by_work_type share_percentage_of_total_time
       total_collaboration_time solo_work_time collaboration_by_work_type
       collaboration_percentage recent_entries].
  unfold minutes_by_type. rewrite !minutes_fold_completed.
  rewrite !minutes_fold_sum, !durations_sum_completed, !Z.add_0_l.
  change (sumZ (map snd [])) with 0. rewrite ?Z.add_0_l.
  pose proof (durations_sum_split is_collaborative (entries data)) as Hsplit.
  split; [apply filter_lengths|]. split; [reflexivity|].
  split; [lia|]. split; [reflexivity|]. split; [reflexivity|].
  split; [reflexivity|].
  set (solo_time :=
         durations_sum
           (List.filter (fun ed => negb (is_collaborative ed)) (entries data)))
    in *.
  set (collaborative_time :=
         durations_sum (List.filter is_collaborative (entries data))) in *.
  split.
  { intros Hnn.
    assert (H1 : 0 <= solo_time)
      by (apply durations_sum_nonneg, Forall_list_filter, Hnn).
    assert (H2 : 0 <= collaborative_time)
      by (apply durations_sum_nonneg, Forall_list_filter, Hnn).
    split; apply percentage_bounds; lia. }
  split.
  { intros Hle.
    destruct (Z.ltb_spec 0 (solo_time + collaborative_time)); [lia|].
    split; reflexivity. }
  split.
  { intros Hpos Hzero. rewrite Hzero in *. rewrite Z.add_0_r in *.
    destruct (Z.ltb_spec 0 solo_time); [|lia].
    assert (IZR solo_time <> 0%R) by (apply not_0_IZR; lia).
    split; field; assumption. }
  split; [reflexivity|]. split; [reflexivity|]. split; [reflexivity|].
  rewrite (Z.add_comm solo_time). reflexivity.
Qed.

Lemma categorize_all_work_partition_witness :
  (0 <= share_percentage_of_total_time
          (snd (fst (categorize_all_work collaboration_log)))
   <= 100)%R
  /\ share_total_minutes (snd (fst (categorize_all_work collaboration_log)))
     = 5
  /\ share_total_minutes (fst (fst (categorize_all_work collaboration_log)))
     = 0.
Proof.
  destruct (categorize_all_work_partition 0 collaboration_log)
    as (_ & _ & _ & _ & _ & _ & H & _).
  split; [|split; vm_compute; reflexivity].
  apply H. apply (monotone_clock_nonneg_durations _ 0).
  vm_compute. repeat split; discriminate.
Defined.

Lemma rank_expertise_matches_investment_witness :
  exists r,
    r ∈ rank_expertise_by_time 30 history_10_30
    /\ ranked_ref r = "K"%string.
Proof.
  assert (Hnd : Forall (fun ed => NoDup (knowledge_refs (entry ed)))
                  (entries history_10_30)).
  { vm_compute. repeat constructor; intros H; inversion H. }
  destruct (rank_expertise_matches_investment 30 "K" history_10_30 Hnd)
    as [[_ H] _].
  apply H. destruct (investment_fields "K" history_10_30) as [-> ->].
  vm_compute. split; [lia|discriminate].
Defined.

(** ** Links and the queries that read them *)

Lemma link_time_to_people_found listing work_id refs data i ed :
  find_entry work_id (entries data) = Some (i, ed) ->
  let ed' :=
    mkEntryDict
      (set_people_refs (entry ed)
         (listing (list_to_set (people_refs (entry ed)) ∪ list_to_set refs)))
      (extra ed) in
  link_time_to_people listing work_id refs data
  = (true, mkTimeData (<[i := ed']> (entries data)) (breakdowns data))
  /\ find_entry work_id (<[i := ed']> (entries data)) = Some (i, ed').
Proof.
  intros Hf ed'. unfold link_time_to_people. rewrite Hf.
  split; [reflexivity|].
  destruct (find_entry_Some _ _ _ _ Hf) as [Hi _].
  rewrite (find_entry_insert _ _ _ ed) by (auto; reflexivity).
  rewrite Hf, Nat.eqb_refl. reflexivity.
Qed.

Lemma listing_empty (listing : set_listing) (X : gset string) :
  lists_sets listing -> (listing X = [] <-> X = ∅).
Proof.
  intros Hl. destruct (Hl X) as [_ HX]. split.
  - intros E. rewrite E in HX. simpl in HX. congruence.
  - intros ->. destruct (listing ∅) as [|x l] eqn:E; [reflexivity|].
    exfalso. destruct (Hl ∅) as [_ H0]. rewrite E in H0.
    assert (Hx : x ∈ (list_to_set (x :: l) : gset string))
      by (apply elem_of_list_to_set; left).
    rewrite H0 in Hx. apply elem_of_empty in Hx. exact Hx.
Qed.

(** X24: [link_time_to_people] decides how
    [categorize_work_type_by_collaboration] sees the entry afterwards.
    For an unknown identifier nothing is linked and the category is an
    error.  Otherwise the entry is solo exactly when it had no people and
    none are linked; else it is collaborative, its people are the old and
    the new ones, once each, and their count is the size of that set; and
    [get_entries_by_person] returns the entry for each of them. *)
Theorem link_people_then_categorize
    (listing : set_listing) (work_id : string) (refs : list string)
    (data : TimeData) :
  lists_sets listing ->
  let data1 := snd (link_time_to_people listing work_id refs data) in
  (find_entry work_id (entries data) = None ->
   link_time_to_people listing work_id refs data = (false, data)
   /\ categorize_work_entry work_id data
      = CategoryError "Work entry not found")
  /\ (forall i ed,
      find_entry work_id (entries data) = Some (i, ed) ->
      let people : gset string :=
        list_to_set (people_refs (entry ed)) ∪ list_to_set refs in
      fst (link_time_to_people listing work_id refs data) = true
      /\ (people = ∅ ->
          categorize_work_entry work_id data1 = Category work_id "solo" [] 0)
      /\ (people <> ∅ ->
          exists involved,
            categorize_work_entry work_id data1
            = Category work_id "collaborative" involved (size people)
            /\ NoDup involved
            /\ (list_to_set involved : gset string) = people)
      /\ (forall p,
          p ∈ people ->
          exists e',
            get_time_entry work_id data1 = Some e'
            /\ e' ∈ get_entries_by_person p data1)).
Proof.
  intros Hl data1. split.
  { intros Hn. unfold link_time_to_people, categorize_work_entry.
    rewrite Hn. auto. }
  intros i ed Hf people.
  destruct (link_time_to_people_found listing work_id refs data i ed Hf)
    as [Hlink Hfind].
  fold people in Hlink, Hfind.
  set (ed' := mkEntryDict (set_people_refs (entry ed) (listing people))
                (extra ed)) in *.
  assert (E1 : data1
               = mkTimeData (<[i := ed']> (entries data)) (breakdowns data))
    by (subst data1; rewrite Hlink; reflexivity).
  destruct (Hl people) as [Hnd Hset].
  split; [rewrite Hlink; reflexivity|].
  split; [|split].
  - intros He. unfold categorize_work_entry. rewrite E1.
    cbn [entries]. rewrite Hfind. cbn [ed' entry set_people_refs people_refs].
    apply (listing_empty listing people Hl) in He. rewrite He. reflexivity.
  - intros Hne. exists (listing people).
    split; [|split; [exact Hnd|exact Hset]].
    unfold categorize_work_entry. rewrite E1.
    cbn [entries]. rewrite Hfind. cbn [ed' entry set_people_refs people_refs].
    assert (Hsize : size people = length (listing people)).
    { rewrite <- Hset at 1. apply size_list_to_set, Hnd. }
    rewrite Hsize.
    destruct (listing people) as [|x l] eqn:E; [|reflexivity].
    exfalso. apply Hne. apply (listing_empty listing people Hl). exact E.
  - intros p Hp. exists (entry ed'). split.
    + rewrite E1. unfold get_time_entry. cbn [entries]. rewrite Hfind.
      reflexivity.
    + unfold get_entries_by_person. rewrite E1. cbn [entries].
      apply list_elem_of_fmap. exists ed'. split; [reflexivity|].
      apply list_elem_of_filter. split.
      * apply bool_decide_pack.
        cbn [ed' entry set_people_refs people_refs].
        rewrite <- Hset in Hp. apply elem_of_list_to_set in Hp. exact Hp.
      * apply list_elem_of_lookup. exists i.
        destruct (find_entry_Some _ _ _ _ Hfind) as [Hi _]. exact Hi.
Qed.

Lemma link_people_then_categorize_witness :
  exists involved,
    categorize_work_entry "a"
      (snd (link_time_to_people elements "a" ["P"%string] history_10_30))
    = Category "a" "collaborative" involved
        (size (list_to_set [] ∪ list_to_set ["P"%string] : gset string)).
Proof.
  destruct (link_people_then_categorize elements "a" ["P"%string]
              history_10_30 elements_lists_sets) as [_ H].
  destruct (find_entry "a" (entries history_10_30)) as [[i ed]|] eqn:Hf;
    [|vm_compute in Hf; discriminate].
  assert (Hp : people_refs (entry ed) = []).
  { vm_compute in Hf. inversion Hf. reflexivity. }
  destruct (H i ed eq_refl) as (_ & _ & Hc & _). rewrite Hp in Hc.
  destruct Hc as (involved & Hc & _).
  - intros E.
    assert (Hin : "P"%string ∈ (list_to_set [] ∪ list_to_set ["P"%string]
                                : gset string)) by set_solver.
    rewrite E in Hin. apply elem_of_empty in Hin. exact Hin.
  - exists involved. exact Hc.
Defined.

(** The durations that count for a knowledge area. *)
Lemma knowledge_durations_app k (l1 l2 : list EntryDict) :
  omap (fun ed => duration_minutes (entry ed))
    (filter (fun ed => bool_decide (k ∈ knowledge_refs (entry ed)))
       (l1 ++ l2))
  = omap (fun ed => duration_minutes (entry ed))
      (filter (fun ed => bool_decide (k ∈ knowledge_refs (entry ed))) l1)
    ++ omap (fun ed => duration_minutes (entry ed))
         (filter (fun ed => bool_decide (k ∈ knowledge_refs (entry ed))) l2).
Proof. rewrite filter_app. apply omap_app. Qed.

Lemma investment_durations k data :
  total_minutes (get_knowledge_time_investment k data)
  = sumZ (omap (fun ed => duration_minutes (entry ed))
            (filter (fun ed => bool_decide (k ∈ knowledge_refs (entry ed)))
               (entries data)))
  /\ work_item_count (get_knowledge_time_investment k data)
     = length (omap (fun ed => duration_minutes (entry ed))
                 (filter
                    (fun ed => bool_decide (k ∈ knowledge_refs (entry ed)))
                    (entries data))).
Proof.
  destruct (investment_fields k data) as [-> ->].
  unfold get_entries_by_knowledge. rewrite durations_of_filtered. auto.
Qed.

(** X25: what [link_time_to_knowledge] does to
    [get_knowledge_time_investment].  The investment of a knowledge area
    that the entry already had, or that is not among the linked
    references, is unchanged; so is every investment when the entry is not
    completed.  For a newly linked area of a completed entry the total
    grows by the duration of the entry and the count by one. *)
Theorem link_knowledge_then_investment
    (listing : set_listing) (work_id : string) (refs : list string)
    (k : string) (data : TimeData) (i : nat) (ed : EntryDict) :
  lists_sets listing ->
  find_entry work_id (entries data) = Some (i, ed) ->
  let data1 := snd (link_time_to_knowledge listing work_id refs data) in
  let before := get_knowledge_time_investment k data in
  let after := get_knowledge_time_investment k data1 in
  (k ∈ knowledge_refs (entry ed) \/ k ∉ refs
   \/ duration_minutes (entry ed) = None ->
   total_minutes after = total_minutes before
   /\ work_item_count after = work_item_count before)
  /\ (forall d,
      k ∉ knowledge_refs (entry ed) -> k ∈ refs ->
      duration_minutes (entry ed) = Some d ->
      total_minutes after = total_minutes before + d
      /\ work_item_count after = S (work_item_count before)).
Proof.
  intros Hl Hf data1 before after.
  destruct (link_time_to_knowledge_found listing work_id refs data i ed Hf)
    as [Hlink _].
  set (new_refs := listing (list_to_set (knowledge_refs (entry ed))
                            ∪ list_to_set refs)) in *.
  set (ed' := mkEntryDict (set_knowledge_refs (entry ed) new_refs) (extra ed))
    in *.
  assert (Hnew : forall x, x ∈ new_refs
                           <-> x ∈ knowledge_refs (entry ed) \/ x ∈ refs).
  { intros x. destruct (Hl (list_to_set (knowledge_refs (entry ed))
                            ∪ list_to_set refs)) as [_ Hset].
    fold new_refs in Hset.
    rewrite <- (elem_of_list_to_set (C := gset string) x new_refs), Hset.
    rewrite elem_of_union, !elem_of_list_to_set. reflexivity. }
  destruct (find_entry_Some _ _ _ _ Hf) as [Hi _].
  assert (Hlt : (i < length (entries data))%nat)
    by (eapply lookup_lt_Some; eauto).
  assert (E0 : entries data
               = take i (entries data) ++ [ed] ++ drop (S i) (entries data))
    by (symmetry; apply take_drop_middle, Hi).
  assert (E1 : entries data1
               = take i (entries data) ++ [ed'] ++ drop (S i) (entries data)).
  { subst data1. rewrite Hlink. cbn [snd entries].
    apply insert_take_drop, Hlt. }
  destruct (investment_durations k data) as [Tb Cb].
  destruct (investment_durations k data1) as [Ta Ca].
  fold before in Tb, Cb. fold after in Ta, Ca.
  set (l1 := take i (entries data)) in *.
  set (l2 := drop (S i) (entries data)) in *. clearbody l1 l2.
  rewrite Tb, Cb, Ta, Ca, E1, E0.
  rewrite !knowledge_durations_app, !sumZ_app, !length_app.
  assert (Hone : forall x,
    omap (fun ed => duration_minutes (entry ed))
      (filter (fun ed => bool_decide (k ∈ knowledge_refs (entry ed))) [x])
    = if bool_decide (k ∈ knowledge_refs (entry x))
      then match duration_minutes (entry x) with
           | Some d => [d]
           | None => []
           end
      else []).
  { intros x. rewrite filter_cons.
    destruct (decide (bool_decide (k ∈ knowledge_refs (entry x)))) as [Y|N].
    - apply Is_true_true in Y. rewrite Y. rewrite omap_cons_match.
      destruct (duration_minutes (entry x)); reflexivity.
    - apply Is_true_false in N. rewrite N. reflexivity. }
  rewrite !Hone.
  change (knowledge_refs (entry ed')) with new_refs.
  change (duration_minutes (entry ed')) with (duration_minutes (entry ed)).
  split.
  - intros [Hin|[Hout|Hnone]].
    + rewrite (bool_decide_eq_true_2 (k ∈ new_refs))
        by (apply Hnew; left; exact Hin).
      rewrite (bool_decide_eq_true_2 _ Hin). auto.
    + destruct (decide (k ∈ knowledge_refs (entry ed))) as [Hin|Hnin].
      * rewrite (bool_decide_eq_true_2 (k ∈ new_refs))
          by (apply Hnew; left; exact Hin).
        rewrite (bool_decide_eq_true_2 _ Hin). auto.
      * rewrite (bool_decide_eq_false_2 (k ∈ new_refs))
          by (rewrite Hnew; tauto).
        rewrite (bool_decide_eq_false_2 _ Hnin). auto.
    + rewrite Hnone.
      destruct (bool_decide (k ∈ new_refs)),
        (bool_decide (k ∈ knowledge_refs (entry ed))); auto.
  - intros d Hnin Hin Hd.
    rewrite (bool_decide_eq_true_2 (k ∈ new_refs))
      by (apply Hnew; right; exact Hin).
    rewrite (bool_decide_eq_false_2 _ Hnin), Hd.
    rewrite sumZ_cons. change (sumZ []) with 0. cbn [length]. split; lia.
Qed.

Lemma link_knowledge_then_investment_witness :
  total_minutes
    (get_knowledge_time_investment "J"
       (snd (link_time_to_knowledge elements "a" ["J"%string] history_10_30)))
  = total_minutes (get_knowledge_time_investment "J" history_10_30) + 10.
Proof.
  destruct (find_entry "a" (entries history_10_30)) as [[i ed]|] eqn:Hf;
    [|vm_compute in Hf; discriminate].
  assert (Hed : knowledge_refs (entry ed) = ["K"%string]
                /\ duration_minutes (entry ed) = Some 10).
  { vm_compute in Hf. inversion Hf. split; reflexivity. }
  destruct Hed as [Hk Hd].
  destruct (link_knowledge_then_investment elements "a" ["J"%string] "J"
              history_10_30 i ed elements_lists_sets Hf) as [_ H].
  apply (H 10).
  - rewrite Hk. intros Hin. apply elem_of_cons in Hin.
    destruct Hin as [E|E]; [discriminate|inversion E].
  - left.
  - exact Hd.
Defined.

(** ** Time trends *)

Lemma sumZ_perm l l' : l ≡ₚ l' -> sumZ l = sumZ l'.
Proof.
  induction 1 as [|x l l' _ IH|x y l|l l' l'' _ IH1 _ IH2].
  - reflexivity.
  - rewrite !sumZ_cons, IH. reflexivity.
  - rewrite !sumZ_cons. lia.
  - congruence.
Qed.

Lemma minus_days_range now days :
  (Z.abs days <= 999999999
   /\ datetime_min <= now - days * 86400000000 <= datetime_max ->
   minus_days now days = Ok (now - days * 86400000000))
  /\ (~ (Z.abs days <= 999999999
         /\ datetime_min <= now - days * 86400000000 <= datetime_max) ->
      minus_days now days = Raise OverflowError).
Proof.
  unfold minus_days. cbv zeta.
  destruct (Z.ltb_spec 999999999 (Z.abs days)) as [Hd|Hd];
    [split; [lia|reflexivity]|].
  destruct (Z.ltb_spec (now - days * 86400000000) datetime_min) as [H1|H1];
    [split; [lia|reflexivity]|].
  destruct (Z.ltb_spec datetime_max (now - days * 86400000000)) as [H2|H2];
    [split; [lia|reflexivity]|].
  split; [reflexivity|]. intros Hn. exfalso. apply Hn. lia.
Qed.

Section TrendTotals.

Variable period_key : string -> timestamp -> string.

Lemma group_periods_started group_by l acc :
  Forall (fun ed => start_time (entry ed) <> None
                    /\ duration_minutes (entry ed) <> None) l ->
  exists grouped,
    group_periods period_key group_by l acc = Ok grouped
    /\ sumZ (map snd grouped) = sumZ (map snd acc) + durations_sum l
    /\ (NoDup (map fst acc) -> NoDup (map fst grouped)).
Proof.
  revert acc; induction l as [|ed l IH]; intros acc Hl.
  - exists acc. change (durations_sum []) with 0.
    split; [reflexivity|]. split; [lia|auto].
  - apply Forall_cons in Hl. destruct Hl as [[Hs Hd] Hl].
    cbn [group_periods]. rewrite durations_sum_cons.
    destruct (start_time (entry ed)) as [t|]; [|congruence].
    destruct (duration_minutes (entry ed)) as [m|]; [|congruence].
    destruct (IH (add_minutes (period_key group_by t) m acc) Hl)
      as (grouped & Hg & Hsum & Hnd).
    exists grouped. split; [exact Hg|].
    split; [rewrite Hsum, add_minutes_sum; lia|].
    intros Ha. apply Hnd, add_minutes_NoDup, Ha.
Qed.

Lemma group_periods_raises group_by l acc e :
  group_periods period_key group_by l acc = Raise e ->
  e = TypeError
  /\ exists ed,
       ed ∈ l
       /\ (start_time (entry ed) = None \/ duration_minutes (entry ed) = None).
Proof.
  revert acc; induction l as [|ed l IH]; intros acc; cbn [group_periods];
    [discriminate|].
  destruct (start_time (entry ed)) as [t|] eqn:Es.
  - destruct (duration_minutes (entry ed)) as [m|] eqn:Ed.
    + intros H. destruct (IH _ H) as [He (x & Hx & Hc)].
      split; [exact He|]. exists x. split; [right; exact Hx|exact Hc].
    + intros H; inversion H. split; [reflexivity|].
      exists ed. split; [left|right; exact Ed].
  - intros H.
    assert (He : e = TypeError)
      by (destruct (duration_minutes (entry ed)); inversion H; reflexivity).
    split; [exact He|]. exists ed. split; [left|left; exact Es].
Qed.

(** X26: [get_time_trends_by_knowledge] raises [OverflowError], whatever
    the store, when [days] exceeds 999999999 in absolute value or the
    cutoff date leaves the range of [datetime].  Otherwise, on a store
    that the public operations produce it returns: its total is the sum
    of the durations of the completed entries in the window (and on the
    knowledge area, when one is given), the periods are listed once each
    and their minutes add up to the total; and on any store it raises
    nothing but [TypeError], and only when a completed entry that passes
    the filter has no start time. *)
Theorem time_trends_totals
    (now : timestamp) (knowledge_ref : option string) (days : Z)
    (group_by : string) (data : TimeData) :
  let cutoff_date := now - days * 86400000000 in
  let in_range :=
    Z.abs days <= 999999999 /\ datetime_min <= cutoff_date <= datetime_max in
  let selected :=
    List.filter (in_window cutoff_date knowledge_ref) (entries data) in
  (~ in_range ->
   get_time_trends_by_knowledge period_key now knowledge_ref days group_by
     data = Raise OverflowError)
  /\ (in_range ->
      (reachable data ->
       exists t,
         get_time_trends_by_knowledge period_key now knowledge_ref days
           group_by data = Ok t
         /\ trend_total_minutes t = durations_sum selected
         /\ sumZ (map snd (period_data t)) = trend_total_minutes t
         /\ NoDup (map fst (period_data t)))
      /\ (forall e,
          get_time_trends_by_knowledge period_key now knowledge_ref days
            group_by data = Raise e ->
          e = TypeError
          /\ exists ed,
               ed ∈ selected
               /\ duration_minutes (entry ed) <> None
               /\ start_time (entry ed) = None)).
Proof.
  intros cutoff_date in_range selected.
  destruct (minus_days_range now days) as [Hin Hout].
  fold cutoff_date in Hin, Hout. fold in_range in Hin, Hout.
  split.
  { intros Hn. unfold get_time_trends_by_knowledge.
    rewrite (Hout Hn). reflexivity. }
  intros Hr. specialize (Hin Hr).
  assert (Hdone : Forall (fun ed => duration_minutes (entry ed) <> None)
                    selected).
  { apply Forall_forall. intros ed Hed.
    apply list_elem_of_In, filter_In in Hed. destruct Hed as [_ Hw].
    unfold in_window, completed in Hw.
    destruct (duration_minutes (entry ed)); [discriminate|].
    simpl in Hw. discriminate. }
  split.
  - intros [ops <-].
    assert (Hw : Forall well_formed_entry (entries (run ops empty_data)))
      by (apply run_Forall; [apply well_formed_step|constructor]).
    assert (Hsel : Forall (fun ed => start_time (entry ed) <> None
                                     /\ duration_minutes (entry ed) <> None)
                     selected).
    { apply Forall_forall. intros ed Hed.
      rewrite Forall_forall in Hdone. specialize (Hdone ed Hed).
      split; [|exact Hdone].
      apply list_elem_of_In, filter_In in Hed. destruct Hed as [Hed _].
      rewrite Forall_forall in Hw.
      specialize (Hw ed (proj2 (list_elem_of_In _ _) Hed)).
      unfold well_formed_entry in Hw. destruct (extra ed).
      - destruct Hw as (_ & _ & Hd). congruence.
      - destruct Hw as (t0 & Hs & _). congruence. }
    destruct (group_periods_started group_by selected [] Hsel)
      as (grouped & Hg & Hsum & Hnd).
    unfold get_time_trends_by_knowledge. rewrite Hin.
    cbn [mbind result_bind]. cbv zeta. fold selected.
    rewrite Hg. cbn [mbind result_bind].
    eexists. split; [reflexivity|].
    cbn [trend_total_minutes period_data].
    change (sumZ (map snd [])) with 0 in Hsum.
    split; [lia|]. split.
    + apply sumZ_perm. change (map snd ?x) with (snd <$> x).
      rewrite sort_periods_perm. reflexivity.
    + change (map fst ?x) with (fst <$> x). rewrite sort_periods_perm.
      apply Hnd. constructor.
  - intros e. unfold get_time_trends_by_knowledge. rewrite Hin.
    cbn [mbind result_bind]. cbv zeta. fold selected.
    destruct (group_periods period_key group_by selected []) as [g|e'] eqn:Hg;
      cbn [mbind result_bind]; [discriminate|].
    intros H; inversion H; subst e'.
    destruct (group_periods_raises _ _ _ _ Hg) as [He (ed & Hed & Hc)].
    split; [exact He|]. exists ed. split; [exact Hed|].
    rewrite Forall_forall in Hdone. specialize (Hdone ed Hed).
    split; [exact Hdone|]. destruct Hc as [Hc|Hc]; [exact Hc|congruence].
Qed.

End TrendTotals.

Lemma time_trends_totals_witness :
  get_time_trends_by_knowledge day_key 518400000000 None 1000000 "day"
    boundary_log = Raise OverflowError
  /\ exists t,
       get_time_trends_by_knowledge day_key 518400000000 None 90 "day"
         boundary_log = Ok t
       /\ trend_total_minutes t = 9
       /\ length (period_data t) = 6%nat.
Proof.
  split.
  - destruct (time_trends_totals day_key 518400000000 None 1000000 "day"
                boundary_log) as [H _].
    apply H. vm_compute. intros [_ [Hmin _]]. apply Hmin. reflexivity.
  - destruct (time_trends_totals day_key 518400000000 None 90 "day"
                boundary_log) as [_ H].
    destruct H as [H _]; [vm_compute; repeat split; discriminate|].
    destruct (H (reachable_run _)) as (t & Ht & Htotal & _).
    exists t. split; [exact Ht|]. split.
    + rewrite Htotal. vm_compute. reflexivity.
    + assert (E : get_time_trends_by_knowledge day_key 518400000000 None 90
                    "day" boundary_log
                  = Ok (mkTimeTrends
                          [("0", 1); ("1", 2); ("2", 2); ("3", 1); ("4", 1);
                           ("5", 2)]%string 9 "decreasing"))
        by (vm_compute; reflexivity).
      rewrite E in Ht. inversion Ht. reflexivity.
Defined.

(** ** Collaborators and the time spent with each person *)

Lemma people_time_time_of k es acc :
  Forall (fun ed => NoDup (people_refs (entry ed))) es ->
  time_of k
    (fold_left
       (fun acc ed =>
          match duration_minutes (entry ed) with
          | Some duration =>
              fold_left (fun acc' p => add_time p duration acc')
                (people_refs (entry ed)) acc
          | None => acc
          end)
       es acc)
  = fold_left (fun o' d => Some (bumped d o'))
      (omap (fun ed => duration_minutes (entry ed))
         (filter (fun ed => bool_decide (k ∈ people_refs (entry ed))) es))
      (time_of k acc).
Proof.
  revert acc; induction es as [|ed es IH]; intros acc Hnd; [reflexivity|].
  apply Forall_cons in Hnd. destruct Hnd as [Hed Hes].
  cbn [fold_left]. rewrite IH by assumption. rewrite filter_cons.
  destruct (decide (bool_decide (k ∈ people_refs (entry ed)))) as [Hin|Hout].
  - rewrite omap_cons_match.
    destruct (duration_minutes (entry ed)) as [d|]; [|reflexivity].
    cbn [fold_left]. rewrite fold_add_time_time_of by assumption.
    apply Is_true_true in Hin. rewrite Hin. reflexivity.
  - destruct (duration_minutes (entry ed)) as [d|]; [|reflexivity].
    rewrite fold_add_time_time_of by assumption.
    apply Is_true_false in Hout. rewrite Hout. reflexivity.
Qed.

Lemma person_time_fields p data :
  total_minutes (get_person_collaboration_time p data)
  = sumZ (omap (fun ed => duration_minutes (entry ed))
            (filter (fun ed => bool_decide (p ∈ people_refs (entry ed)))
               (entries data)))
  /\ work_item_count (get_person_collaboration_time p data)
     = length (omap (fun ed => duration_minutes (entry ed))
                 (filter (fun ed => bool_decide (p ∈ people_refs (entry ed)))
                    (entries data))).
Proof.
  unfold get_person_collaboration_time, get_entries_by_person.
  rewrite <- durations_of_filtered.
  generalize (map filtered
                (filter (fun ed => bool_decide (p ∈ people_refs (entry ed)))
                   (entries data))) as l.
  intros l.
  assert (H : length (filter (fun e : TimeEntry =>
                                is_Some (duration_minutes e)) l)
              = length (durations_of l)).
  { induction l as [|e l IH]; [reflexivity|].
    rewrite filter_cons. unfold durations_of in *. rewrite omap_cons_match.
    destruct (decide (is_Some (duration_minutes e))) as [Hs|Hn].
    - destruct Hs as [d Hd]. rewrite Hd. simpl. rewrite IH. reflexivity.
    - destruct (duration_minutes e) eqn:E; [exfalso; apply Hn; eauto|].
      exact IH. }
  rewrite <- H, <- (durations_of_completed l).
  destruct (filter _ l); split; reflexivity.
Qed.

(** X27: when no entry lists a person twice, the collaborators that
    [identify_collaboration_patterns] reports over all time agree with
    [get_person_collaboration_time]: a person is listed exactly when some
    completed work item involves them, with the same total minutes and
    the same number of work items. *)
Theorem frequent_collaborators_match_person_time
    (now : timestamp) (p : string) (data : TimeData) :
  Forall (fun ed => NoDup (people_refs (entry ed))) (entries data) ->
  let patterns := identify_collaboration_patterns now None data in
  let person := get_person_collaboration_time p data in
  ((exists r, r ∈ frequent_collaborators patterns /\ ranked_ref r = p)
   <-> (1 <= work_item_count person)%nat)
  /\ (forall r,
        r ∈ frequent_collaborators patterns -> ranked_ref r = p ->
        ranked_total_minutes r = total_minutes person
        /\ ranked_work_item_count r = work_item_count person).
Proof.
  intros Hnd. cbv zeta.
  destruct (person_time_fields p data) as [Ht Hc]. rewrite Ht, Hc.
  unfold identify_collaboration_patterns. rewrite collaboration_fold.
  cbn [frequent_collaborators recent_entries].
  set (table :=
         fold_left
           (fun acc ed =>
              match duration_minutes (entry ed) with
              | Some duration =>
                  fold_left (fun acc' q => add_time q duration acc')
                    (people_refs (entry ed)) acc
              | None => acc
              end)
           (entries data) []).
  assert (Hkeys : NoDup (map fst table))
    by (apply people_time_table; split; constructor).
  assert (Htime : time_of p table
                  = fold_left (fun o' d => Some (bumped d o'))
                      (omap (fun ed => duration_minutes (entry ed))
                         (filter
                            (fun ed => bool_decide (p ∈ people_refs (entry ed)))
                            (entries data)))
                      None)
    by (apply (people_time_time_of p (entries data) [] Hnd)).
  rewrite bumped_fold in Htime.
  set (ds := omap (fun ed => duration_minutes (entry ed))
               (filter (fun ed => bool_decide (p ∈ people_refs (entry ed)))
                  (entries data))) in *.
  assert (Htime' : time_of p table
                   = match ds with
                     | [] => None
                     | _ :: _ => Some (sumZ ds, length ds)
                     end)
    by (rewrite Htime; destruct ds; reflexivity).
  clear Htime. rename Htime' into Htime.
  assert (Hranked : forall r,
             r ∈ with_ranks (sort_by_total table) -> ranked_ref r = p ->
             time_of p table
             = Some (ranked_total_minutes r, ranked_work_item_count r)).
  { intros r Hr Hk. apply with_ranks_elem in Hr.
    rewrite sort_by_total_perm in Hr. rewrite Hk in Hr.
    apply elem_time_of; assumption. }
  split; [split|].
  - intros (r & Hr & Hk). rewrite (Hranked r Hr Hk) in Htime.
    destruct ds; [discriminate|]. simpl. lia.
  - intros Hone. destruct ds as [|d ds']; [simpl in Hone; lia|].
    apply time_of_elem in Htime.
    rewrite <- sort_by_total_perm in Htime.
    apply elem_with_ranks in Htime. destruct Htime as (r & Hr & Hk & _).
    exists r. split; [exact Hr|exact Hk].
  - intros r Hr Hk. rewrite (Hranked r Hr Hk) in Htime.
    destruct ds as [|d ds']; [discriminate|].
    injection Htime as H0 H1. split; assumption.
Qed.

Lemma frequent_collaborators_match_person_time_witness :
  exists r,
    r ∈ frequent_collaborators
          (identify_collaboration_patterns 0 None collaboration_log)
    /\ ranked_ref r = "P"%string.
Proof.
  assert (Hnd : Forall (fun ed => NoDup (people_refs (entry ed)))
                  (entries collaboration_log)).
  { vm_compute. repeat constructor; intros H; inversion H. }
  destruct (frequent_collaborators_match_person_time 0 "P" collaboration_log
              Hnd) as [[_ H] _].
  apply H. destruct (person_time_fields "P" collaboration_log) as [_ ->].
  vm_compute. lia.
Defined.
